(** * Donation backend (server.js): amount calculator, webhook dispatcher
      and payment endpoints, embedded in Rocq.

    The development follows the source file top to bottom:
    - [JSNumber]: the IEEE 754 binary64 numbers of the JavaScript runtime
      (on the Standard Library's executable [SpecFloat]), with [Math_ceil]
      and [toFixed2];
    - [jsval]: primitive JavaScript values, truthiness, [Number], [ToString];
    - [computeGrossCents];
    - [json]: the values of a request body, with the property reads and
      conversions that can throw;
    - [Prog]: the calls the handlers make to the outside world (console,
      Stripe SDK, SendGrid) as a free monad, with a big-step execution
      relation [exec] that records the trace of calls, and an executable
      interpreter [run];
    - the [/webhook], [/create-payment-intent] and [/create-subscription]
      handlers;
    - [corsOptionsDelegate];
    - [Gateway]: the [/create-checkout-session] and [/create-setup-intent]
      handlers, on a tree of their own calls, with [gexec] and [grun];
    - the theorems. *)

From Stdlib Require Import ZArith Lia List Bool Ascii String.
From Stdlib Require Import Floats.SpecFloat.
From Stdlib Require Import Numbers.DecimalString.
From Stdlib Require Import QArith Qround.
From Stdlib Require DecimalFacts DecimalPos DecimalN.
From stdpp Require Import base option gmap strings list fin_maps.

Local Open Scope Z_scope.

(* ===================================================================== *)
(** ** JavaScript numbers: IEEE 754 binary64 *)
(* ===================================================================== *)

Module JSNumber.

Definition prec : Z := 53.
Definition emax : Z := 1024.

Abbreviation float := spec_float.

Definition NaN : float := S754_nan.

(** The Number whose value is the integer [n], rounded to nearest-even
    when [n] needs more than 53 bits. *)
Definition of_Z (n : Z) : float := binary_normalize prec emax n 0 false.

Definition add : float -> float -> float := SFadd prec emax.
Definition sub : float -> float -> float := SFsub prec emax.
Definition div : float -> float -> float := SFdiv prec emax.
(** [a > b] of JavaScript: false as soon as one side is NaN. *)
Definition gtb (a b : float) : bool := SFltb b a.

(** The numeric literal [0.029] of the source: the binary64 number
    nearest to 29/1000, [0x1.db22d0e560419p-6]. *)
Definition lit_0_029 : float := S754_finite false 0x1db22d0e560419 (-58).

(** [Math.ceil]: the smallest integral Number not below [x]. A finite
    Number with a negative exponent has less than 2^53 for magnitude, so
    the integer found is exactly representable. *)
Definition Math_ceil (x : float) : float :=
  match x with
  | S754_finite s m e =>
      if 0 <=? e then x
      else
        let q := Z.pos m / 2 ^ (- e) in
        let r := Z.pos m mod 2 ^ (- e) in
        if s then
          if q =? 0 then S754_zero true
          else binary_normalize prec emax (- q) 0 true
        else of_Z (if r =? 0 then q else q + 1)
  | _ => x
  end.

(** The integer a Number stands for, when it stands for one. *)
Definition to_Z (x : float) : option Z :=
  match x with
  | S754_zero _ => Some 0
  | S754_finite s m e =>
      if 0 <=? e then Some (cond_Zopp s (Z.pos m * 2 ^ e))
      else if Z.pos m mod 2 ^ (- e) =? 0
           then Some (cond_Zopp s (Z.pos m / 2 ^ (- e)))
           else None
  | _ => None
  end.

(** Decimal digits of a natural number. *)
Definition digits (n : Z) : string :=
  NilZero.string_of_uint (N.to_uint (Z.to_N n)).

(** [n / 10^2] printed with two decimals, as step 11 of
    Number.prototype.toFixed does for [f = 2]. *)
Definition fixed2 (n : Z) : string :=
  let m := digits n in
  let m := if (String.length m <=? 2)%nat
           then String.concat "" (repeat "0" (3 - String.length m)) +:+ m
           else m in
  let k := String.length m in
  String.substring 0 (k - 2) m +:+ "." +:+ String.substring (k - 2) 2 m.

(** The integer [n] for which [n / 100 - a] is closest to zero, the larger
    one on a tie, for the non-negative rational [a = m * 2^e]. *)
Definition nearest_hundredths (m : positive) (e : Z) : Z :=
  if 0 <=? e then Z.pos m * 2 ^ e * 100
  else (2 * 100 * Z.pos m + 2 ^ (- e)) / (2 * 2 ^ (- e)).

Section ToFixed.
(** Number::toString of the runtime, used by toFixed only from 10^21 on. *)
Variable NumberToString : float -> string.

(** [x.toFixed(2)]. *)
Definition toFixed2 (x : float) : string :=
  match x with
  | S754_nan => "NaN"
  | S754_infinity s => if s then "-Infinity" else "Infinity"
  | S754_zero _ => "0.00"
  | S754_finite s m e =>
      if (0 <=? e) && (10 ^ 21 <=? Z.pos m * 2 ^ e)
      then NumberToString x
      else (if s then "-" else "") +:+ fixed2 (nearest_hundredths m e)
  end.
End ToFixed.

End JSNumber.

Import JSNumber.

(* ===================================================================== *)
(** ** JavaScript values *)
(* ===================================================================== *)

(** The parts of the runtime the source relies on without defining them:
    the conversion of a string to a Number (ECMA-262, StringToNumber) and
    of a Number to a string (Number::toString). *)
Class Runtime := {
  StringToNumber : string -> float;
  NumberToString : float -> string
}.

(** The primitive values a parsed JSON body or an option object carries. *)
Inductive jsval :=
| JUndefined
| JNull
| JBool (b : bool)
| JNum (x : float)
| JStr (s : string).

Definition is_empty (s : string) : bool :=
  match s with EmptyString => true | _ => false end.

(** ToBoolean. *)
Definition truthy (v : jsval) : bool :=
  match v with
  | JUndefined | JNull => false
  | JBool b => b
  | JNum (S754_nan | S754_zero _) => false
  | JNum _ => true
  | JStr s => negb (is_empty s)
  end.

(** [a || b]. *)
Definition js_or (a b : jsval) : jsval := if truthy a then a else b.

(** A property read on an object: [undefined] when the key is absent. *)
Definition prop (o : gmap string jsval) (k : string) : jsval :=
  default JUndefined (o !! k).

(** A destructuring default [{ x = d }]: used when the property is
    [undefined]. *)
Definition with_default (v d : jsval) : jsval :=
  match v with JUndefined => d | _ => v end.

Section WithRuntime.
Context `{Runtime}.

(** [Number(v)]. *)
Definition Number (v : jsval) : float :=
  match v with
  | JUndefined => NaN
  | JNull => S754_zero false
  | JBool b => if b then of_Z 1 else S754_zero false
  | JNum x => x
  | JStr s => StringToNumber s
  end.

(** [String(v)]. *)
Definition ToString (v : jsval) : string :=
  match v with
  | JUndefined => "undefined"
  | JNull => "null"
  | JBool b => if b then "true" else "false"
  | JNum x => NumberToString x
  | JStr s => s
  end.

(** server.js, lines 27-30:
<<
function computeGrossCents(baseAmountCents, { coverFees }) {
  if (!coverFees) return Number(baseAmountCents);
  return Math.ceil((Number(baseAmountCents) + 30) / (1 - 0.029));
}
>> *)
Definition computeGrossCents (baseAmountCents coverFees : jsval) : float :=
  if negb (truthy coverFees) then Number baseAmountCents
  else Math_ceil (div (add (Number baseAmountCents) (of_Z 30))
                      (sub (of_Z 1) lit_0_029)).

End WithRuntime.

(** A value of a request body after [express.json()]: a primitive, an
    array or an object. A property the body lacks reads as [JUndefined]. *)
#[warnings="-register-all"]
Inductive json :=
| JPrim (v : jsval)
| JArray (items : list json)
| JObject (props : gmap string json).
Coercion JPrim : jsval >-> json.

(* ===================================================================== *)
(** ** The outside world: console, Stripe SDK, SendGrid *)
(* ===================================================================== *)

(** An exception value: [err.message] and, for SendGrid's errors,
    [err.response?.body]. *)
Record JSError := {
  err_message : string;
  err_response_body : option string
}.

(** How a call to the outside ends: it returns (an awaited promise
    resolves) or it throws (the promise rejects). *)
Inductive Outcome (A : Type) :=
| Resolved (a : A)
| Rejected (e : JSError).
Arguments Resolved {A} a.
Arguments Rejected {A} e.

(** [event.data.object]: the properties the webhook reads, whatever the
    event type. An absent property is [JUndefined]; [metadata] is an object
    or absent. *)
Record StripeObject := {
  customer_email : jsval;
  metadata : option (gmap string jsval);
  amount_total : jsval;
  invoice : jsval;
  amount : jsval;
  receipt_email : jsval;
  amount_paid : jsval;
  subscription : jsval
}.

Record Event := {
  type : string;
  data_object : StripeObject
}.

Record Subscription := {
  sub_metadata : option (gmap string jsval);
  sub_customer : jsval
}.

Record Customer := {
  email : jsval
}.

Inductive Recipients :=
| ToValue (v : jsval)
| ToList (l : list string).

Record MailSettings := {
  sandboxMode_enable : bool
}.

(** A SendGrid message. *)
Record Message := {
  msg_to : Recipients;
  msg_from : string;
  msg_subject : string;
  msg_html : string;
  msg_mailSettings : option MailSettings
}.

(** Parameters of [stripe.paymentIntents.create]. *)
Record PaymentIntentParams := {
  pi_amount : float;
  pi_currency : json;
  pi_automatic_payment_methods_enabled : bool;
  pi_receipt_email : json;
  pi_metadata : gmap string json
}.

Record PaymentIntent := {
  client_secret : jsval
}.

(** Parameters of [stripe.subscriptions.create]. *)
Record SubscriptionParams := {
  sp_customer : json;
  sp_currency : json;
  sp_product_name : string;
  sp_interval : json;
  sp_unit_amount : float;
  sp_metadata : gmap string json;
  sp_expand : list string
}.

Record SubscriptionCreated := {
  sc_id : jsval;
  sc_status : jsval
}.

Inductive Level := LogInfo | LogWarn | LogError.

(** A handler: a tree of calls to the outside, each with the continuation
    for its outcome. The [try]/[catch] blocks of the source are the matches
    on the outcome. *)
Inductive Prog (R : Type) : Type :=
| Ret (r : R)
| Console (lvl : Level) (args : list string) (k : Prog R)
| ConstructEvent (body : string) (sig secret : option string)
    (k : Outcome Event -> Prog R)
| SgMailSend (m : Message) (k : Outcome unit -> Prog R)
| SubscriptionsRetrieve (id : jsval) (k : Outcome Subscription -> Prog R)
| CustomersRetrieve (id : jsval) (k : Outcome Customer -> Prog R)
| PaymentIntentsCreate (p : PaymentIntentParams)
    (k : Outcome PaymentIntent -> Prog R)
| PaymentMethodsAttach (pm customer : json) (k : Outcome unit -> Prog R)
| CustomersUpdate (customer default_payment_method : json)
    (k : Outcome unit -> Prog R)
| SubscriptionsCreate (p : SubscriptionParams)
    (k : Outcome SubscriptionCreated -> Prog R).
Arguments Ret {R} r.
Arguments Console {R} lvl args k.
Arguments ConstructEvent {R} body sig secret k.
Arguments SgMailSend {R} m k.
Arguments SubscriptionsRetrieve {R} id k.
Arguments CustomersRetrieve {R} id k.
Arguments PaymentIntentsCreate {R} p k.
Arguments PaymentMethodsAttach {R} pm customer k.
Arguments CustomersUpdate {R} customer default_payment_method k.
Arguments SubscriptionsCreate {R} p k.

Fixpoint bind {A B : Type} (p : Prog A) (f : A -> Prog B) : Prog B :=
  match p with
  | Ret a => f a
  | Console l a k => Console l a (bind k f)
  | ConstructEvent b s c k => ConstructEvent b s c (fun o => bind (k o) f)
  | SgMailSend m k => SgMailSend m (fun o => bind (k o) f)
  | SubscriptionsRetrieve i k => SubscriptionsRetrieve i (fun o => bind (k o) f)
  | CustomersRetrieve i k => CustomersRetrieve i (fun o => bind (k o) f)
  | PaymentIntentsCreate p k => PaymentIntentsCreate p (fun o => bind (k o) f)
  | PaymentMethodsAttach p c k => PaymentMethodsAttach p c (fun o => bind (k o) f)
  | CustomersUpdate c d k => CustomersUpdate c d (fun o => bind (k o) f)
  | SubscriptionsCreate p k => SubscriptionsCreate p (fun o => bind (k o) f)
  end.

#[global] Instance Prog_ret : MRet Prog := fun _ r => Ret r.
#[global] Instance Prog_bind : MBind Prog := fun _ _ f p => bind p f.

(** One call with its outcome, as observed from outside. *)
Inductive Effect :=
| EConsole (lvl : Level) (args : list string)
| EConstructEvent (body : string) (sig secret : option string)
    (o : Outcome Event)
| ESend (m : Message) (o : Outcome unit)
| ESubscriptionsRetrieve (id : jsval) (o : Outcome Subscription)
| ECustomersRetrieve (id : jsval) (o : Outcome Customer)
| EPaymentIntentsCreate (p : PaymentIntentParams) (o : Outcome PaymentIntent)
| EPaymentMethodsAttach (pm customer : json) (o : Outcome unit)
| ECustomersUpdate (customer default_payment_method : json) (o : Outcome unit)
| ESubscriptionsCreate (p : SubscriptionParams)
    (o : Outcome SubscriptionCreated).

(** [exec p tr r]: the handler [p] can run to the result [r], making the
    calls of [tr] in order, the outside answering as [tr] records. *)
Inductive exec {R : Type} : Prog R -> list Effect -> R -> Prop :=
| exec_Ret r :
    exec (Ret r) [] r
| exec_Console l a k tr r :
    exec k tr r -> exec (Console l a k) (EConsole l a :: tr) r
| exec_ConstructEvent b s c k o tr r :
    exec (k o) tr r ->
    exec (ConstructEvent b s c k) (EConstructEvent b s c o :: tr) r
| exec_SgMailSend m k o tr r :
    exec (k o) tr r -> exec (SgMailSend m k) (ESend m o :: tr) r
| exec_SubscriptionsRetrieve i k o tr r :
    exec (k o) tr r ->
    exec (SubscriptionsRetrieve i k) (ESubscriptionsRetrieve i o :: tr) r
| exec_CustomersRetrieve i k o tr r :
    exec (k o) tr r ->
    exec (CustomersRetrieve i k) (ECustomersRetrieve i o :: tr) r
| exec_PaymentIntentsCreate p k o tr r :
    exec (k o) tr r ->
    exec (PaymentIntentsCreate p k) (EPaymentIntentsCreate p o :: tr) r
| exec_PaymentMethodsAttach p c k o tr r :
    exec (k o) tr r ->
    exec (PaymentMethodsAttach p c k) (EPaymentMethodsAttach p c o :: tr) r
| exec_CustomersUpdate c d k o tr r :
    exec (k o) tr r ->
    exec (CustomersUpdate c d k) (ECustomersUpdate c d o :: tr) r
| exec_SubscriptionsCreate p k o tr r :
    exec (k o) tr r ->
    exec (SubscriptionsCreate p k) (ESubscriptionsCreate p o :: tr) r.

(** A deterministic outside: what each call answers. *)
Record World := {
  w_constructEvent : string -> option string -> option string -> Outcome Event;
  w_send : Message -> Outcome unit;
  w_subscriptions_retrieve : jsval -> Outcome Subscription;
  w_customers_retrieve : jsval -> Outcome Customer;
  w_paymentIntents_create : PaymentIntentParams -> Outcome PaymentIntent;
  w_paymentMethods_attach : json -> json -> Outcome unit;
  w_customers_update : json -> json -> Outcome unit;
  w_subscriptions_create : SubscriptionParams -> Outcome SubscriptionCreated
}.

(** The interpreter: runs a handler against a world, returns the trace and
    the result. *)
Fixpoint run {R : Type} (w : World) (p : Prog R) : list Effect * R :=
  match p with
  | Ret r => ([], r)
  | Console l a k =>
      let '(tr, r) := run w k in (EConsole l a :: tr, r)
  | ConstructEvent b s c k =>
      let o := w_constructEvent w b s c in
      let '(tr, r) := run w (k o) in (EConstructEvent b s c o :: tr, r)
  | SgMailSend m k =>
      let o := w_send w m in
      let '(tr, r) := run w (k o) in (ESend m o :: tr, r)
  | SubscriptionsRetrieve i k =>
      let o := w_subscriptions_retrieve w i in
      let '(tr, r) := run w (k o) in (ESubscriptionsRetrieve i o :: tr, r)
  | CustomersRetrieve i k =>
      let o := w_customers_retrieve w i in
      let '(tr, r) := run w (k o) in (ECustomersRetrieve i o :: tr, r)
  | PaymentIntentsCreate p k =>
      let o := w_paymentIntents_create w p in
      let '(tr, r) := run w (k o) in (EPaymentIntentsCreate p o :: tr, r)
  | PaymentMethodsAttach p c k =>
      let o := w_paymentMethods_attach w p c in
      let '(tr, r) := run w (k o) in (EPaymentMethodsAttach p c o :: tr, r)
  | CustomersUpdate c d k =>
      let o := w_customers_update w c d in
      let '(tr, r) := run w (k o) in (ECustomersUpdate c d o :: tr, r)
  | SubscriptionsCreate p k =>
      let o := w_subscriptions_create w p in
      let '(tr, r) := run w (k o) in (ESubscriptionsCreate p o :: tr, r)
  end.

(** The messages handed to SendGrid, in order, whatever their outcome. *)
Fixpoint sends (tr : list Effect) : list Message :=
  match tr with
  | [] => []
  | ESend m _ :: tr => m :: sends tr
  | _ :: tr => sends tr
  end.

(** The answers the Stripe lookups got, in order. *)
Fixpoint lookups (tr : list Effect) : list Effect :=
  match tr with
  | [] => []
  | ESubscriptionsRetrieve i o :: tr => ESubscriptionsRetrieve i o :: lookups tr
  | ECustomersRetrieve i o :: tr => ECustomersRetrieve i o :: lookups tr
  | _ :: tr => lookups tr
  end.

(* ===================================================================== *)
(** ** String helpers of the runtime *)
(* ===================================================================== *)

(** A string is the sequence of the UTF-8 bytes of the program's string. *)


(** The UTF-8 bytes of a UTF-16 code unit (a code point below 2^16). *)
Definition utf8 (cp : N) : string :=
  (if cp <? 0x80 then String (ascii_of_N cp) ""
   else if cp <? 0x800 then
     String (ascii_of_N (0xC0 + cp / 0x40))
       (String (ascii_of_N (0x80 + cp mod 0x40)) "")
   else
     String (ascii_of_N (0xE0 + cp / 0x1000))
       (String (ascii_of_N (0x80 + (cp / 0x40) mod 0x40))
          (String (ascii_of_N (0x80 + cp mod 0x40)) "")))%N.

(** The code points [String.prototype.trim] strips (ECMA-262, WhiteSpace
    and LineTerminator): TAB, LF, VT, FF, CR, SP, NBSP, the other space
    separators of Unicode, LS, PS and ZWNBSP. *)
Definition white_space_code_points : list N :=
  [0x9; 0xA; 0xB; 0xC; 0xD; 0x20; 0xA0; 0x1680;
   0x2000; 0x2001; 0x2002; 0x2003; 0x2004; 0x2005; 0x2006; 0x2007; 0x2008;
   0x2009; 0x200A; 0x2028; 0x2029; 0x202F; 0x205F; 0x3000; 0xFEFF]%N.

(** The white-space characters, as strings of one character. *)
Definition white_space : list string := map utf8 white_space_code_points.

(** [s] without the prefix [w], when it starts with [w]. *)
Fixpoint strip_prefix (w s : string) : option string :=
  match w with
  | EmptyString => Some s
  | String a w' =>
      match s with
      | String b s' => if Ascii.eqb a b then strip_prefix w' s' else None
      | EmptyString => None
      end
  end.

(** [s] without its first character, when that is one of [ws]. *)
Fixpoint strip_first (ws : list string) (s : string) : option string :=
  match ws with
  | [] => None
  | w :: ws' =>
      match strip_prefix w s with
      | Some s' => Some s'
      | None => strip_first ws' s
      end
  end.

Definition strip_space : string -> option string := strip_first white_space.

(** At most [n] leading white-space characters stripped. *)
Fixpoint trim_start_go (n : nat) (s : string) : string :=
  match n with
  | O => s
  | S n' =>
      match strip_space s with
      | Some s' => trim_start_go n' s'
      | None => s
      end
  end.

(** [s.trimStart()]: the length of [s] bounds the characters to strip. *)
Definition trim_start (s : string) : string :=
  trim_start_go (String.length s) s.

(** [s.trimEnd()]: [s] cut where what follows is white space only. *)
Fixpoint trim_end (s : string) : string :=
  match s with
  | EmptyString => EmptyString
  | String a s' =>
      if is_empty (trim_start s) then EmptyString else String a (trim_end s')
  end.

(** [s.trim()]. *)
Definition trim (s : string) : string := trim_end (trim_start s).

(** The UTF-16 code units of a string, each as a string of its own; the
    two surrogates of a character outside the Basic Multilingual Plane are
    written as three bytes each. *)
Definition surrogates (a b c d : ascii) : list string :=
  (let cp := (N_of_ascii a mod 8) * 0x40000 + (N_of_ascii b mod 0x40) * 0x1000
             + (N_of_ascii c mod 0x40) * 0x40 + N_of_ascii d mod 0x40 in
   let v := cp - 0x10000 in
   [utf8 (0xD800 + v / 0x400); utf8 (0xDC00 + v mod 0x400)])%N.

Fixpoint code_units (s : string) : list string :=
  match s with
  | EmptyString => []
  | String a s1 =>
      if (N_of_ascii a <? 0xC0)%N then String a "" :: code_units s1
      else
        match s1 with
        | EmptyString => [s]
        | String b s2 =>
            if (N_of_ascii a <? 0xE0)%N
            then String a (String b "") :: code_units s2
            else
              match s2 with
              | EmptyString => [s]
              | String c s3 =>
                  if (N_of_ascii a <? 0xF0)%N
                  then String a (String b (String c "")) :: code_units s3
                  else
                    match s3 with
                    | EmptyString => [s]
                    | String d s4 => surrogates a b c d ++ code_units s4
                    end
              end
        end
  end.

(** [s.split(',')]. *)
Fixpoint split_comma (s : string) : list string :=
  match s with
  | EmptyString => [EmptyString]
  | String a s' =>
      if Ascii.eqb a "," then EmptyString :: split_comma s'
      else match split_comma s' with
           | x :: r => String a x :: r
           | [] => [String a EmptyString]
           end
  end.

(** Truthiness of an environment variable: set and not empty. *)
Definition present (o : option string) : bool :=
  match o with
  | Some s => negb (is_empty s)
  | None => false
  end.

(** [a === 'literal']. *)
Definition strict_eq_str (a : jsval) (s : string) : bool :=
  match a with
  | JStr s' => String.eqb s' s
  | _ => false
  end.

(* ===================================================================== *)
(** ** HTTP *)
(* ===================================================================== *)

Record Request := {
  headers : gmap string string;
  body : string
}.

Inductive Body :=
| NoBody
| TextBody (s : string)
| JsonBody (fields : list (string * jsval))
| JsonError (message : string).

Record Response := {
  status : Z;
  res_body : Body
}.

(* ===================================================================== *)
(** ** POST /webhook (server.js, lines 35-218) *)
(* ===================================================================== *)

Section Webhook.
Context `{Runtime}.

(** [process.env]. *)
Variable env : gmap string string.

(** Line 21: [const endpointSecret = process.env.STRIPE_WEBHOOK_SECRET]. *)
Definition endpointSecret : option string := env !! "STRIPE_WEBHOOK_SECRET".

(** Line 24: [const isDev = process.env.NODE_ENV !== 'production']. *)
Definition isDev : bool :=
  match env !! "NODE_ENV" with
  | Some s => negb (String.eqb s "production")
  | None => true
  end.

(** [...(isDev && { mailSettings: { sandboxMode: { enable: true } } })]. *)
Definition sandbox : option MailSettings :=
  if isDev then Some {| sandboxMode_enable := true |} else None.

(** [(amount / 100).toFixed(2)]. *)
Definition dollars (amount : jsval) : string :=
  toFixed2 NumberToString (div (Number amount) (of_Z 100)).

(** [md.k || 'fallback'], interpolated. *)
Definition field_or (md : gmap string jsval) (k fallback : string) : string :=
  ToString (js_or (prop md k) (JStr fallback)).

(** [${md.dedication ? `<p><strong>Dedication:</strong> ${md.dedication}</p>` : ''}]. *)
Definition dedication_line (md : gmap string jsval) : string :=
  if truthy (prop md "dedication")
  then "<p><strong>Dedication:</strong> " +:+ ToString (prop md "dedication") +:+ "</p>"
  else "".

(** [${md.notifyEmail ? `<p><strong>Acknowledgement Email To:</strong> ${md.notifyEmail}</p>` : ''}]. *)
Definition notify_line (md : gmap string jsval) : string :=
  if truthy (prop md "notifyEmail")
  then "<p><strong>Acknowledgement Email To:</strong> " +:+ ToString (prop md "notifyEmail") +:+ "</p>"
  else "".

(** [md.subscribeToNewsletter === 'Yes' ? 'Yes' : 'No']. *)
Definition newsletter (md : gmap string jsval) : string :=
  if strict_eq_str (prop md "subscribeToNewsletter") "Yes" then "Yes" else "No".

(** [process.env.INTERNAL_EMAILS.split(',').map(s => s.trim()).filter(Boolean)]. *)
Definition internal_recipients : list string :=
  filter (fun s => negb (is_empty s))
         (map trim (split_comma (default "" (env !! "INTERNAL_EMAILS")))).

(** [err.response?.body || err.message]. *)
Definition error_detail (err : JSError) : string :=
  match err_response_body err with
  | Some b => if is_empty b then err_message err else b
  | None => err_message err
  end.

(** [try { await sgMail.send(msg); } catch (err) { console.error(label, ...); }] *)
Definition try_send (msg : Message) (label : string) : Prog unit :=
  SgMailSend msg (fun o =>
    match o with
    | Resolved _ => Ret tt
    | Rejected err => Console LogError [label; error_detail err] (Ret tt)
    end).

(** *** Lines 49-97: [checkout.session.completed] *)

Definition checkout_donorMsg (donorEmail : jsval) (metadata : gmap string jsval)
    (amount frequency : jsval) : Message :=
  {| msg_to := ToValue donorEmail;
     msg_from := "bridgesdonations@bridgestowork.org";
     msg_subject := "Thank you for your "
       +:+ (if strict_eq_str frequency "monthly" then "monthly" else "one-time")
       +:+ " donation!";
     msg_html := "
            <p>Hi " +:+ field_or metadata "donor_name" "Friend" +:+ ",</p>
            <p>Thank you for your generous donation of <strong>$" +:+ dollars amount +:+ "</strong>.</p>
            " +:+ dedication_line metadata +:+ "
            <p>We truly appreciate your support.</p>
            <p>– The Bridges to Work Team</p>
          ";
     msg_mailSettings := sandbox |}.

Definition checkout_internalMsg (donorEmail : jsval) (metadata : gmap string jsval)
    (amount frequency : jsval) : Message :=
  {| msg_to := ToList internal_recipients;
     msg_from := "bridgesdonations@bridgestowork.org";
     msg_subject := "New Donation via Stripe: $" +:+ dollars amount
       +:+ " from " +:+ field_or metadata "donor_name" "Unknown";
     msg_html := "
            <p><strong>Amount:</strong> $" +:+ dollars amount +:+ "</p>
            <p><strong>Frequency:</strong> " +:+ ToString frequency +:+ "</p>
            <p><strong>Name:</strong> " +:+ field_or metadata "donor_name" "N/A" +:+ "</p>
            <p><strong>Email:</strong> " +:+ ToString (js_or donorEmail (JStr "N/A")) +:+ "</p>
            <p><strong>Phone:</strong> " +:+ field_or metadata "phone" "N/A" +:+ "</p>
            <p><strong>Address:</strong> " +:+ field_or metadata "address" "" +:+ ", " +:+ field_or metadata "city" "" +:+ ", " +:+ field_or metadata "state" "" +:+ ", " +:+ field_or metadata "zip" "" +:+ "</p>
            " +:+ dedication_line metadata +:+ "
            " +:+ notify_line metadata +:+ "
            <p><strong>Subscribed to Newsletter:</strong> " +:+ newsletter metadata +:+ "</p>
          ";
     msg_mailSettings := sandbox |}.

Definition checkout_session_completed (session : StripeObject) : Prog unit :=
  let donorEmail := customer_email session in
  let metadata := default ∅ (metadata session) in
  let amount := amount_total session in
  let frequency := js_or (prop metadata "frequency") (JStr "one_time") in
  (* Donor email *)
  (if present (env !! "SENDGRID_API_KEY") && truthy donorEmail
   then try_send (checkout_donorMsg donorEmail metadata amount frequency)
                 "❌ Donor email failed:"
   else Ret tt) ;;
  (* Internal email *)
  (if present (env !! "SENDGRID_API_KEY") && present (env !! "INTERNAL_EMAILS")
   then try_send (checkout_internalMsg donorEmail metadata amount frequency)
                 "❌ Internal email failed:"
   else Ret tt).

(** *** Lines 100-151: [payment_intent.succeeded] *)

Definition pi_donorMsg (donorEmail : jsval) (md : gmap string jsval)
    (amount : jsval) : Message :=
  {| msg_to := ToValue donorEmail;
     msg_from := "bridgesdonations@bridgestowork.org";
     msg_subject := "Thank you for your donation!";
     msg_html := "
            <p>Hi " +:+ field_or md "donor_name" "Friend" +:+ ",</p>
            <p>Thank you for your generous donation of <strong>$" +:+ dollars amount +:+ "</strong>.</p>
            " +:+ dedication_line md +:+ "
            <p>We truly appreciate your support.</p>
            <p>– The Bridges to Work Team</p>
          ";
     msg_mailSettings := sandbox |}.

Definition pi_internalMsg (donorEmail : jsval) (md : gmap string jsval)
    (amount : jsval) : Message :=
  {| msg_to := ToList internal_recipients;
     msg_from := "bridgesdonations@bridgestowork.org";
     msg_subject := "New Donation: $" +:+ dollars amount
       +:+ " from " +:+ field_or md "donor_name" "Unknown";
     msg_html := "
            <p><strong>Amount:</strong> $" +:+ dollars amount +:+ "</p>
            <p><strong>Frequency:</strong> one_time</p>
            <p><strong>Name:</strong> " +:+ field_or md "donor_name" "N/A" +:+ "</p>
            <p><strong>Email:</strong> " +:+ ToString (js_or donorEmail (JStr "N/A")) +:+ "</p>
            <p><strong>Phone:</strong> " +:+ field_or md "phone" "N/A" +:+ "</p>
            <p><strong>Address:</strong> " +:+ field_or md "address" "" +:+ ", " +:+ field_or md "city" "" +:+ ", " +:+ field_or md "state" "" +:+ ", " +:+ field_or md "zip" "" +:+ "</p>
            " +:+ dedication_line md +:+ "
            " +:+ notify_line md +:+ "
            <p><strong>Subscribed to Newsletter:</strong> " +:+ newsletter md +:+ "</p>
          ";
     msg_mailSettings := sandbox |}.

(** Returns [Some res] when the block returns from the handler (line 105). *)
Definition payment_intent_succeeded (pi : StripeObject) : Prog (option Response) :=
  (* If this PI belongs to a subscription invoice, skip here *)
  if truthy (invoice pi) then Ret (Some {| status := 200; res_body := NoBody |})
  else
    let amount := amount pi in
    let donorEmail := js_or (receipt_email pi) JNull in
    let md := default ∅ (metadata pi) in
    (if present (env !! "SENDGRID_API_KEY") && truthy donorEmail
     then try_send (pi_donorMsg donorEmail md amount)
                   "❌ Donor email (PI) failed:"
     else Ret tt) ;;
    (if present (env !! "SENDGRID_API_KEY") && present (env !! "INTERNAL_EMAILS")
     then try_send (pi_internalMsg donorEmail md amount)
                   "❌ Internal email (PI) failed:"
     else Ret tt) ;;
    Ret None.

(** *** Lines 154-211: [invoice.payment_succeeded] *)

Definition invoice_donorMsg (donorEmail : jsval) (md : gmap string jsval)
    (amount : jsval) : Message :=
  {| msg_to := ToValue donorEmail;
     msg_from := "bridgesdonations@bridgestowork.org";
     msg_subject := "Thank you for your monthly donation!";
     msg_html := "
            <p>Hi " +:+ field_or md "donor_name" "Friend" +:+ ",</p>
            <p>We received your monthly donation of <strong>$" +:+ dollars amount +:+ "</strong>. Thank you!</p>
            " +:+ dedication_line md +:+ "
            <p>– The Bridges to Work Team</p>
          ";
     msg_mailSettings := sandbox |}.

Definition invoice_internalMsg (donorEmail : jsval) (md : gmap string jsval)
    (amount : jsval) : Message :=
  {| msg_to := ToList internal_recipients;
     msg_from := "bridgesdonations@bridgestowork.org";
     msg_subject := "Monthly Donation Received: $" +:+ dollars amount
       +:+ " from " +:+ field_or md "donor_name" "Unknown";
     msg_html := "
            <p><strong>Amount:</strong> $" +:+ dollars amount +:+ "</p>
            <p><strong>Frequency:</strong> monthly</p>
            <p><strong>Name:</strong> " +:+ field_or md "donor_name" "N/A" +:+ "</p>
            <p><strong>Email:</strong> " +:+ ToString (js_or donorEmail (JStr "N/A")) +:+ "</p>
            <p><strong>Phone:</strong> " +:+ field_or md "phone" "N/A" +:+ "</p>
            <p><strong>Address:</strong> " +:+ field_or md "address" "" +:+ ", " +:+ field_or md "city" "" +:+ ", " +:+ field_or md "state" "" +:+ ", " +:+ field_or md "zip" "" +:+ "</p>
            " +:+ dedication_line md +:+ "
            " +:+ notify_line md +:+ "
            <p><strong>Subscribed to Newsletter:</strong> " +:+ newsletter md +:+ "</p>
          ";
     msg_mailSettings := sandbox |}.

(** Lines 157-171: the donor email and the metadata after the attempt to
    expand the subscription and its customer. The assignments made before
    a lookup throws are kept. *)
Definition expand_invoice (invoice : StripeObject)
    : Prog (jsval * gmap string jsval) :=
  let donorEmail := js_or (customer_email invoice) JNull in
  let md : gmap string jsval := ∅ in
  if truthy (subscription invoice) then
    SubscriptionsRetrieve (subscription invoice) (fun o =>
      match o with
      | Resolved sub =>
          let md := default ∅ (sub_metadata sub) in
          if negb (truthy donorEmail) && truthy (sub_customer sub) then
            CustomersRetrieve (sub_customer sub) (fun o =>
              match o with
              | Resolved customer =>
                  Ret (js_or (email customer) donorEmail, md)
              | Rejected e =>
                  Console LogWarn
                    ["⚠️ Could not expand subscription/customer for invoice:";
                     err_message e]
                    (Ret (donorEmail, md))
              end)
          else Ret (donorEmail, md)
      | Rejected e =>
          Console LogWarn
            ["⚠️ Could not expand subscription/customer for invoice:";
             err_message e]
            (Ret (donorEmail, md))
      end)
  else Ret (donorEmail, md).

Definition invoice_payment_succeeded (invoice : StripeObject) : Prog unit :=
  let amount := amount_paid invoice in
  '(donorEmail, md) ← expand_invoice invoice;
  (if present (env !! "SENDGRID_API_KEY") && truthy donorEmail
   then try_send (invoice_donorMsg donorEmail md amount)
                 "❌ Donor email (invoice) failed:"
   else Ret tt) ;;
  (if present (env !! "SENDGRID_API_KEY") && present (env !! "INTERNAL_EMAILS")
   then try_send (invoice_internalMsg donorEmail md amount)
                 "❌ Internal email (invoice) failed:"
   else Ret tt).

(** *** Lines 47-217: the handling of a verified event.
    No call of the blocks lets an exception escape, so the outer
    [catch] (status 500) has no branch here. *)
Definition handleEvent (event : Event) : Prog Response :=
  (if String.eqb (type event) "checkout.session.completed"
   then checkout_session_completed (data_object event)
   else Ret tt) ;;
  returned ← (if String.eqb (type event) "payment_intent.succeeded"
              then payment_intent_succeeded (data_object event)
              else Ret None);
  match returned with
  | Some res => Ret res
  | None =>
      (if String.eqb (type event) "invoice.payment_succeeded"
       then invoice_payment_succeeded (data_object event)
       else Ret tt) ;;
      Ret {| status := 200; res_body := NoBody |}
  end.

(** *** Lines 35-45: the entry of the handler. *)
Definition webhook (req : Request) : Prog Response :=
  Console LogInfo ["🔔 Webhook received!"] (
  let sig := headers req !! "stripe-signature" in
  ConstructEvent (body req) sig endpointSecret (fun o =>
    match o with
    | Rejected err =>
        Console LogError
          ["⚠️ Webhook signature verification failed:"; err_message err]
          (Ret {| status := 400;
                  res_body := TextBody ("Webhook Error: " +:+ err_message err) |})
    | Resolved event => handleEvent event
    end)).

End Webhook.

(* ===================================================================== *)
(** ** Object literals *)
(* ===================================================================== *)

(** [{ k1: v1, ..., kn: vn }]: properties are defined in order, a later
    one replacing an earlier one of the same key. *)
Definition object_literal {A : Type} (props : list (string * A))
    : gmap string A :=
  fold_left (fun o kv => <[kv.1 := kv.2]> o) props ∅.

(** [{ ...o, ...src }]: every own property of [src] is set on [o]. *)
Definition spread {A : Type} (o src : gmap string A) : gmap string A :=
  src ∪ o.

(* ===================================================================== *)
(** ** The values of a request body *)
(* ===================================================================== *)

(** A [TypeError] of the runtime, with its message. *)
Definition TypeError (message : string) : JSError :=
  {| err_message := message; err_response_body := None |}.

(** An expression that returns or throws; [x ← e; k] stops at a throw. *)
#[global] Instance Outcome_ret : MRet Outcome := fun _ a => Resolved a.
#[global] Instance Outcome_bind : MBind Outcome := fun _ _ f o =>
  match o with
  | Resolved a => f a
  | Rejected e => Rejected e
  end.

(** The elements of an array under their indices. *)
Definition indexed (items : list json) : gmap string json :=
  list_to_map (imap (fun i x => (digits (Z.of_nat i), x)) items).

(** The own enumerable properties [{ ...o }] copies: those of an object,
    the elements of an array, the code units of a string, and none for
    another primitive. *)
Definition own_properties (o : json) : gmap string json :=
  match o with
  | JObject props => props
  | JArray items => indexed items
  | JPrim (JStr s) => indexed (map (fun u => JPrim (JStr u)) (code_units s))
  | JPrim _ => ∅
  end.

(** [o.k] for a key [k] that is no index and that no prototype defines,
    as is every key the handlers read: reading a property of [null] or
    [undefined] throws, and another value that is no object has none. *)
Definition read (o : json) (k : string) : Outcome json :=
  match o with
  | JPrim JUndefined =>
      Rejected (TypeError ("Cannot read properties of undefined (reading '"
                           +:+ k +:+ "')"))
  | JPrim JNull =>
      Rejected (TypeError ("Cannot read properties of null (reading '"
                           +:+ k +:+ "')"))
  | JObject props => Resolved (default (JPrim JUndefined) (props !! k))
  | _ => Resolved (JPrim JUndefined)
  end.

(** ToBoolean: arrays and objects are truthy. *)
Definition json_truthy (j : json) : bool :=
  match j with
  | JPrim v => truthy v
  | _ => true
  end.

(** [a || b]. *)
Definition json_or (a b : json) : json := if json_truthy a then a else b.

(** A destructuring default [{ x = d }]. *)
Definition json_default (v d : json) : json :=
  match v with
  | JPrim JUndefined => d
  | _ => v
  end.

(** The flag a function tests with [!flag] only. *)
Definition as_flag (j : json) : jsval :=
  match j with
  | JPrim v => v
  | _ => JBool true
  end.

Section RequestValues.
Context `{Runtime}.

(** [String(j)]. An array prints its elements joined by commas, [null]
    as nothing. An object parsed from JSON prints as [[object Object]],
    unless it has a property [toString] of its own: that one is no
    function, the inherited [valueOf] returns the object, and the
    conversion throws. *)
Fixpoint json_ToString (j : json) : Outcome string :=
  match j with
  | JPrim v => Resolved (ToString v)
  | JArray items =>
      (fix join (l : list json) : Outcome string :=
         match l with
         | [] => Resolved ""
         | x :: r =>
             s ← match x with
                 | JPrim JNull | JPrim JUndefined => Resolved ""
                 | _ => json_ToString x
                 end;
             match r with
             | [] => Resolved s
             | _ => t ← join r; Resolved (s +:+ "," +:+ t)
             end
         end) items
  | JObject props =>
      match props !! "toString" with
      | Some _ => Rejected (TypeError "Cannot convert object to primitive value")
      | None => Resolved "[object Object]"
      end
  end.

(** [Number(j)]: an array or an object is converted to its string first. *)
Definition json_Number (j : json) : Outcome float :=
  match j with
  | JPrim v => Resolved (Number v)
  | _ => s ← json_ToString j; Resolved (StringToNumber s)
  end.

End RequestValues.

(* ===================================================================== *)
(** ** POST /create-payment-intent (server.js, lines 318-360) *)
(* ===================================================================== *)

Module CreatePaymentIntent.

(** [req.body] after [express.json()]: an object, of which the handler
    reads these properties; a property the body lacks is [JUndefined]. *)
Record ReqBody := {
  amountCents : json;
  currency : json;
  donorEmail : json;
  donorName : json;
  coverFees : json;
  metadata : json
}.

Section Handler.
Context `{Runtime}.

(** Lines 330-333. *)
Definition totalCents (b : ReqBody) : Outcome float :=
  let coverFees := json_default (coverFees b) (JBool false) in
  let metadata := json_default (metadata b) (JObject ∅) in
  base_amount_cents ← read metadata "base_amount_cents";
  base ← json_Number (json_or base_amount_cents (JNum (of_Z 0)));
  if gtb base (of_Z 0)
  then Resolved (computeGrossCents (JNum base) (as_flag coverFees))
  else json_Number (amountCents b).

(** Lines 340-352. *)
Definition intent_metadata (b : ReqBody) : Outcome (gmap string json) :=
  let metadata := json_default (metadata b) (JObject ∅) in
  phone ← read metadata "phone";
  address1 ← read metadata "address1";
  city ← read metadata "city";
  state ← read metadata "state";
  zip ← read metadata "zip";
  dedication_text ← read metadata "dedication_text";
  notify_email ← read metadata "notify_email";
  newsletter_opt_in ← read metadata "newsletter_opt_in";
  opted ← json_ToString newsletter_opt_in;
  Resolved
    (spread
       (object_literal
          [("donor_name", json_or (donorName b) (JStr ""));
           ("phone", json_or phone (JStr ""));
           ("address", json_or address1 (JStr ""));
           ("city", json_or city (JStr ""));
           ("state", json_or state (JStr ""));
           ("zip", json_or zip (JStr ""));
           ("dedication", json_or dedication_text (JStr ""));
           ("notifyEmail", json_or notify_email (JStr ""));
           ("subscribeToNewsletter",
            JPrim (JStr (if String.eqb opted "true" then "Yes" else "No")));
           ("frequency", JPrim (JStr "one_time"))])
       (own_properties metadata)).

(** Lines 330-353: the argument of [stripe.paymentIntents.create], or what
    its evaluation throws. *)
Definition intent_params (b : ReqBody) : Outcome PaymentIntentParams :=
  total ← totalCents b;
  md ← intent_metadata b;
  Resolved
    {| pi_amount := total;
       pi_currency := json_default (currency b) (JStr "usd");
       pi_automatic_payment_methods_enabled := true;
       pi_receipt_email := donorEmail b;
       pi_metadata := md |}.

(** Lines 356-359. *)
Definition failed (err : JSError) : Prog Response :=
  Console LogError ["create-payment-intent error:"; err_message err]
    (Ret {| status := 400; res_body := JsonError (err_message err) |}).

Definition handler (b : ReqBody) : Prog Response :=
  match intent_params b with
  | Rejected err => failed err
  | Resolved params =>
      PaymentIntentsCreate params (fun o =>
        match o with
        | Resolved pi =>
            Ret {| status := 200;
                   res_body := JsonBody [("clientSecret", client_secret pi)] |}
        | Rejected err => failed err
        end)
  end.

End Handler.

End CreatePaymentIntent.

(* ===================================================================== *)
(** ** POST /create-subscription (server.js, lines 386-434) *)
(* ===================================================================== *)

Module CreateSubscription.

Record ReqBody := {
  customerId : json;
  paymentMethodId : json;
  amountCents : json;
  currency : json;
  interval : json;
  metadata : json
}.

Section Handler.
Context `{Runtime}.

(** Lines 413-425. *)
Definition subscription_metadata (b : ReqBody) : Outcome (gmap string json) :=
  let metadata := json_default (metadata b) (JObject ∅) in
  first_name ← read metadata "first_name";
  first ← json_ToString (json_or first_name (JStr ""));
  last_name ← read metadata "last_name";
  last ← json_ToString (json_or last_name (JStr ""));
  phone ← read metadata "phone";
  address1 ← read metadata "address1";
  city ← read metadata "city";
  state ← read metadata "state";
  zip ← read metadata "zip";
  dedication_text ← read metadata "dedication_text";
  notify_email ← read metadata "notify_email";
  newsletter_opt_in ← read metadata "newsletter_opt_in";
  opted ← json_ToString newsletter_opt_in;
  Resolved
    (spread
       (object_literal
          [("frequency", JPrim (JStr "monthly"));
           ("donor_name", JPrim (JStr (trim (first +:+ " " +:+ last))));
           ("phone", json_or phone (JStr ""));
           ("address", json_or address1 (JStr ""));
           ("city", json_or city (JStr ""));
           ("state", json_or state (JStr ""));
           ("zip", json_or zip (JStr ""));
           ("dedication", json_or dedication_text (JStr ""));
           ("notifyEmail", json_or notify_email (JStr ""));
           ("subscribeToNewsletter",
            JPrim (JStr (if String.eqb opted "true" then "Yes" else "No")))])
       (own_properties metadata)).

(** Lines 403-427: the argument of [stripe.subscriptions.create], or what
    its evaluation throws. *)
Definition subscription_params (b : ReqBody) : Outcome SubscriptionParams :=
  unit_amount ← json_Number (amountCents b);
  md ← subscription_metadata b;
  Resolved
    {| sp_customer := customerId b;
       sp_currency := json_default (currency b) (JStr "usd");
       sp_product_name := "Monthly Donation";
       sp_interval := json_default (interval b) (JStr "month");
       sp_unit_amount := unit_amount;
       sp_metadata := md;
       sp_expand := ["latest_invoice.payment_intent"] |}.

Definition failed (err : JSError) : Prog Response :=
  Console LogError ["create-subscription error:"; err_message err]
    (Ret {| status := 400; res_body := JsonError (err_message err) |}).

Definition handler (b : ReqBody) : Prog Response :=
  (* Attach PM & set default *)
  PaymentMethodsAttach (paymentMethodId b) (customerId b) (fun o =>
    match o with
    | Rejected err => failed err
    | Resolved _ =>
  CustomersUpdate (customerId b) (paymentMethodId b) (fun o =>
    match o with
    | Rejected err => failed err
    | Resolved _ =>
  match subscription_params b with
  | Rejected err => failed err
  | Resolved params =>
  SubscriptionsCreate params (fun o =>
    match o with
    | Rejected err => failed err
    | Resolved subscription =>
        Ret {| status := 200;
               res_body := JsonBody [("subscriptionId", sc_id subscription);
                                     ("status", sc_status subscription)] |}
    end)
  end
    end)
    end).

End Handler.

End CreateSubscription.

(* ===================================================================== *)
(** ** Observations on traces *)
(* ===================================================================== *)

(** [res.status(200).send()]. *)
Definition OK : Response := {| status := 200; res_body := NoBody |}.

(** How the signature verification of a delivery ended. *)
Fixpoint construct_outcome (tr : list Effect) : option (Outcome Event) :=
  match tr with
  | [] => None
  | EConstructEvent _ _ _ o :: _ => Some o
  | _ :: tr => construct_outcome tr
  end.

(** The delivery was verified and carried the event [ev]. *)
Definition verified (tr : list Effect) (ev : Event) : Prop :=
  construct_outcome tr = Some (Resolved ev).

(** Every rejected send is followed at once by its own [console.error],
    which prints the detail of that rejection. *)
Fixpoint failures_logged (tr : list Effect) : Prop :=
  match tr with
  | [] => True
  | ESend _ (Rejected e) :: tr' =>
      match tr' with
      | EConsole LogError [_; detail] :: _ =>
          detail = error_detail e /\ failures_logged tr'
      | _ => False
      end
  | _ :: tr' => failures_logged tr'
  end.

(** The trace of one guarded send. *)
Definition send_trace (m : Message) (label : string) (tr : list Effect) : Prop :=
  (exists u, tr = [ESend m (Resolved u)]) \/
  (exists e, tr = [ESend m (Rejected e);
                   EConsole LogError [label; error_detail e]]).

Definition gated (c : bool) (m : Message) (label : string)
    (tr : list Effect) : Prop :=
  if c then send_trace m label tr else tr = [].

(** The trace of the donor send followed by the internal send. *)
Definition notify_trace (c1 : bool) (dm : Message) (l1 : string)
    (c2 : bool) (im : Message) (l2 : string) (tr : list Effect) : Prop :=
  exists t1 t2, tr = t1 ++ t2 /\ gated c1 dm l1 t1 /\ gated c2 im l2 t2.

(** The messages of a delivery: the donor one under [c1], then the
    internal one under [c2]. *)
Definition notifications (c1 : bool) (dm : Message) (c2 : bool) (im : Message)
    : list Message :=
  (if c1 then [dm] else []) ++ (if c2 then [im] else []).

(** A message addressed to the donor ([to: donorEmail]). *)
Definition is_donor_message (m : Message) : bool :=
  match msg_to m with ToValue _ => true | ToList _ => false end.

Section Gates.
Context `{Runtime}.
Variable env : gmap string string.

(** [process.env.SENDGRID_API_KEY] is truthy. *)
Definition sendgrid_configured : bool := present (env !! "SENDGRID_API_KEY").

(** [process.env.INTERNAL_EMAILS] is truthy. *)
Definition internal_configured : bool := present (env !! "INTERNAL_EMAILS").

(** What the invoice path sends for a donor email and metadata. *)
Definition invoice_notifications (donorEmail : jsval)
    (md : gmap string jsval) (amount : jsval) : list Message :=
  notifications
    (sendgrid_configured && truthy donorEmail)
    (invoice_donorMsg env donorEmail md amount)
    (sendgrid_configured && internal_configured)
    (invoice_internalMsg env donorEmail md amount).
End Gates.

(** A lookup of the trace was rejected. *)
Definition lookup_rejected (tr : list Effect) : Prop :=
  exists e, (exists i, In (ESubscriptionsRetrieve i (Rejected e)) tr) \/
            (exists i, In (ECustomersRetrieve i (Rejected e)) tr).

(* ===================================================================== *)
(** ** The amount calculator as the specification words it *)
(* ===================================================================== *)

(** What is left of [g] once the processor has taken 2.9% of [g] plus 30
    minor units, in exact rational arithmetic. *)
Definition spec_net (g : Z) : Q :=
  (inject_Z g - ((29 # 1000) * inject_Z g + 30))%Q.

(** [g] leaves at least [base] after the fees. *)
Definition spec_covers (base g : Z) : Prop :=
  (inject_Z base <= spec_net g)%Q.

(** [g] is the smallest integer that leaves at least [base]. *)
Definition spec_smallest_gross (base g : Z) : Prop :=
  spec_covers base g /\ forall g', spec_covers base g' -> g <= g'.

(** [ceil((base + 30) / (1 - 0.029))], in exact rational arithmetic. *)
Definition spec_gross (base : Z) : Z :=
  Qceiling ((inject_Z base + 30) / (1 - (29 # 1000)))%Q.

(* ===================================================================== *)
(** ** Sample data *)
(* ===================================================================== *)

(** A stand-in for the runtime's conversions: decimal digits are read
    exactly, every other string is NaN; Numbers print as nothing. The
    samples below carry Numbers where a number is expected, so neither
    conversion decides any of them. *)
Definition sample_runtime : Runtime :=
  {| StringToNumber := fun s =>
       match NilZero.uint_of_string s with
       | Some u => of_Z (Z.of_N (N.of_uint u))
       | None => NaN
       end;
     NumberToString := fun _ => "" |}.

Definition sample_env : gmap string string :=
  <["SENDGRID_API_KEY" := "SG.sample"]>
    (<["INTERNAL_EMAILS" := "office@bridgestowork.org, board@bridgestowork.org"]>
       (<["STRIPE_WEBHOOK_SECRET" := "whsec_sample"]> ∅)).

Definition sample_env_no_key : gmap string string :=
  <["INTERNAL_EMAILS" := "office@bridgestowork.org"]> ∅.

Definition sample_request : Request :=
  {| headers := <["stripe-signature" := "t=1,v1=00"]> ∅; body := "{}" |}.

Definition sample_error : JSError :=
  {| err_message := "No signatures found matching the expected signature";
     err_response_body := None |}.

Definition sample_checkout (frequency : string) : Event :=
  {| type := "checkout.session.completed";
     data_object :=
       {| customer_email := JStr "donor@example.org";
          metadata := Some (<["frequency" := JStr frequency]> ∅);
          amount_total := JNum (of_Z 2550);
          invoice := JUndefined; amount := JUndefined;
          receipt_email := JUndefined; amount_paid := JUndefined;
          subscription := JUndefined |} |}.

Definition sample_payment_intent (frequency : string) (invoice : jsval) : Event :=
  {| type := "payment_intent.succeeded";
     data_object :=
       {| customer_email := JUndefined;
          metadata := Some (<["frequency" := JStr frequency]> ∅);
          amount_total := JUndefined;
          invoice := invoice; amount := JNum (of_Z 2550);
          receipt_email := JStr "donor@example.org"; amount_paid := JUndefined;
          subscription := JUndefined |} |}.

Definition sample_invoice (subscription : jsval) : Event :=
  {| type := "invoice.payment_succeeded";
     data_object :=
       {| customer_email := JStr "donor@example.org";
          metadata := None;
          amount_total := JUndefined;
          invoice := JUndefined; amount := JUndefined;
          receipt_email := JUndefined; amount_paid := JNum (of_Z 2000);
          subscription := subscription |} |}.

(** A world where the verification answers [verification], every send
    answers [send], every lookup is rejected and every creation resolves. *)
Definition sample_world (verification : Outcome Event) (send : Outcome unit)
    : World :=
  {| w_constructEvent := fun _ _ _ => verification;
     w_send := fun _ => send;
     w_subscriptions_retrieve := fun _ => Rejected sample_error;
     w_customers_retrieve := fun _ => Rejected sample_error;
     w_paymentIntents_create := fun _ =>
       Resolved {| client_secret := JStr "pi_secret" |};
     w_paymentMethods_attach := fun _ _ => Resolved tt;
     w_customers_update := fun _ _ => Resolved tt;
     w_subscriptions_create := fun _ =>
       Resolved {| sc_id := JStr "sub_1"; sc_status := JStr "active" |} |}.

(** A payment-intent request that carries [base_amount_cents]. *)
Definition sample_intent_body (base amountCents : Z) (coverFees : bool)
    : CreatePaymentIntent.ReqBody :=
  {| CreatePaymentIntent.amountCents := JNum (of_Z amountCents);
     CreatePaymentIntent.currency := JUndefined;
     CreatePaymentIntent.donorEmail := JStr "donor@example.org";
     CreatePaymentIntent.donorName := JStr "Ada";
     CreatePaymentIntent.coverFees := JBool coverFees;
     CreatePaymentIntent.metadata :=
       JObject (<["base_amount_cents" := JPrim (JNum (of_Z base))]>
                  (<["frequency" := JPrim (JStr "monthly")]> ∅)) |}.

(** The same request with [metadata: null]. *)
Definition sample_intent_body_null_metadata : CreatePaymentIntent.ReqBody :=
  {| CreatePaymentIntent.amountCents := JNum (of_Z 500);
     CreatePaymentIntent.currency := JUndefined;
     CreatePaymentIntent.donorEmail := JStr "donor@example.org";
     CreatePaymentIntent.donorName := JStr "Ada";
     CreatePaymentIntent.coverFees := JBool true;
     CreatePaymentIntent.metadata := JNull |}.

(** The same request with [metadata: {"newsletter_opt_in": {"toString": 1}}]. *)
Definition sample_intent_body_unconvertible : CreatePaymentIntent.ReqBody :=
  {| CreatePaymentIntent.amountCents := JNum (of_Z 500);
     CreatePaymentIntent.currency := JUndefined;
     CreatePaymentIntent.donorEmail := JStr "donor@example.org";
     CreatePaymentIntent.donorName := JStr "Ada";
     CreatePaymentIntent.coverFees := JBool true;
     CreatePaymentIntent.metadata :=
       JObject (<["newsletter_opt_in" :=
                    JObject (<["toString" := JPrim (JNum (of_Z 1))]> ∅)]> ∅) |}.

Definition sample_subscription_body : CreateSubscription.ReqBody :=
  {| CreateSubscription.customerId := JStr "cus_1";
     CreateSubscription.paymentMethodId := JStr "pm_1";
     CreateSubscription.amountCents := JNum (of_Z 2000);
     CreateSubscription.currency := JUndefined;
     CreateSubscription.interval := JUndefined;
     CreateSubscription.metadata :=
       JObject (<["frequency" := JPrim (JStr "weekly")]> ∅) |}.

(** The same request with [metadata: null]. *)
Definition sample_subscription_body_null_metadata
    : CreateSubscription.ReqBody :=
  {| CreateSubscription.customerId := JStr "cus_1";
     CreateSubscription.paymentMethodId := JStr "pm_1";
     CreateSubscription.amountCents := JNum (of_Z 2000);
     CreateSubscription.currency := JUndefined;
     CreateSubscription.interval := JUndefined;
     CreateSubscription.metadata := JNull |}.

(** A subscriber whose first name is padded with a no-break space and an
    em space. *)
Definition sample_subscription_body_padded_name : CreateSubscription.ReqBody :=
  {| CreateSubscription.customerId := JStr "cus_1";
     CreateSubscription.paymentMethodId := JStr "pm_1";
     CreateSubscription.amountCents := JNum (of_Z 2000);
     CreateSubscription.currency := JUndefined;
     CreateSubscription.interval := JUndefined;
     CreateSubscription.metadata :=
       JObject (<["first_name" :=
                    JPrim (JStr (utf8 160 +:+ utf8 8195 +:+ "Ada"))]> ∅) |}.

(* ===================================================================== *)
(** ** The shapes of the webhook's traces *)
(* ===================================================================== *)

Section Shapes.
Context `{Runtime}.
Variable env : gmap string string.

(** The two sends of the checkout path for the session [s]. *)
Definition checkout_trace (s : StripeObject) (tr : list Effect) : Prop :=
  let md := default ∅ (metadata s) in
  let fr := js_or (prop md "frequency") (JStr "one_time") in
  notify_trace
    (sendgrid_configured env && truthy (customer_email s))
    (checkout_donorMsg env (customer_email s) md (amount_total s) fr)
    "❌ Donor email failed:"
    (sendgrid_configured env && internal_configured env)
    (checkout_internalMsg env (customer_email s) md (amount_total s) fr)
    "❌ Internal email failed:" tr.

(** The two sends of the payment-intent path for the intent [pi]. *)
Definition payment_intent_trace (pi : StripeObject) (tr : list Effect) : Prop :=
  let de := js_or (receipt_email pi) JNull in
  let md := default ∅ (metadata pi) in
  notify_trace
    (sendgrid_configured env && truthy de)
    (pi_donorMsg env de md (amount pi))
    "❌ Donor email (PI) failed:"
    (sendgrid_configured env && internal_configured env)
    (pi_internalMsg env de md (amount pi))
    "❌ Internal email (PI) failed:" tr.

(** The two sends of the invoice path, for the donor email and the
    metadata the expansion ended with. *)
Definition invoice_trace (inv : StripeObject) (de : jsval)
    (md : gmap string jsval) (tr : list Effect) : Prop :=
  notify_trace
    (sendgrid_configured env && truthy de)
    (invoice_donorMsg env de md (amount_paid inv))
    "❌ Donor email (invoice) failed:"
    (sendgrid_configured env && internal_configured env)
    (invoice_internalMsg env de md (amount_paid inv))
    "❌ Internal email (invoice) failed:" tr.

Definition expand_warning (e : JSError) : Effect :=
  EConsole LogWarn
    ["⚠️ Could not expand subscription/customer for invoice:"; err_message e].

(** The ways the expansion of an invoice can go: its trace, and the donor
    email and metadata it leaves. *)
Inductive expanded (inv : StripeObject)
    : list Effect -> jsval -> gmap string jsval -> Prop :=
| expanded_no_subscription :
    truthy (subscription inv) = false ->
    expanded inv [] (js_or (customer_email inv) JNull) ∅
| expanded_subscription_rejected e :
    truthy (subscription inv) = true ->
    expanded inv
      [ESubscriptionsRetrieve (subscription inv) (Rejected e);
       expand_warning e]
      (js_or (customer_email inv) JNull) ∅
| expanded_subscription sub :
    truthy (subscription inv) = true ->
    negb (truthy (js_or (customer_email inv) JNull))
      && truthy (sub_customer sub) = false ->
    expanded inv
      [ESubscriptionsRetrieve (subscription inv) (Resolved sub)]
      (js_or (customer_email inv) JNull) (default ∅ (sub_metadata sub))
| expanded_customer sub customer :
    truthy (subscription inv) = true ->
    negb (truthy (js_or (customer_email inv) JNull))
      && truthy (sub_customer sub) = true ->
    expanded inv
      [ESubscriptionsRetrieve (subscription inv) (Resolved sub);
       ECustomersRetrieve (sub_customer sub) (Resolved customer)]
      (js_or (email customer) (js_or (customer_email inv) JNull))
      (default ∅ (sub_metadata sub))
| expanded_customer_rejected sub e :
    truthy (subscription inv) = true ->
    negb (truthy (js_or (customer_email inv) JNull))
      && truthy (sub_customer sub) = true ->
    expanded inv
      [ESubscriptionsRetrieve (subscription inv) (Resolved sub);
       ECustomersRetrieve (sub_customer sub) (Rejected e);
       expand_warning e]
      (js_or (customer_email inv) JNull) (default ∅ (sub_metadata sub)).

(** The ways the handling of a verified event can go. *)
Inductive handled (ev : Event) : list Effect -> Prop :=
| handled_checkout tr :
    type ev = "checkout.session.completed" ->
    checkout_trace (data_object ev) tr ->
    handled ev tr
| handled_payment_intent_of_invoice :
    type ev = "payment_intent.succeeded" ->
    truthy (invoice (data_object ev)) = true ->
    handled ev []
| handled_payment_intent tr :
    type ev = "payment_intent.succeeded" ->
    truthy (invoice (data_object ev)) = false ->
    payment_intent_trace (data_object ev) tr ->
    handled ev tr
| handled_invoice t0 de md tr :
    type ev = "invoice.payment_succeeded" ->
    expanded (data_object ev) t0 de md ->
    invoice_trace (data_object ev) de md tr ->
    handled ev (t0 ++ tr)
| handled_other :
    type ev <> "checkout.session.completed" ->
    type ev <> "payment_intent.succeeded" ->
    type ev <> "invoice.payment_succeeded" ->
    handled ev [].
End Shapes.

(** The events whose handling reaches the two sends: the three classified
    types, a payment intent of an invoice apart. *)
Definition notifying (ev : Event) : Prop :=
  type ev = "checkout.session.completed" \/
  (type ev = "payment_intent.succeeded" /\
   truthy (invoice (data_object ev)) = false) \/
  type ev = "invoice.payment_succeeded".

(** The subjects of the donor messages of a trace. *)
Definition donor_subjects (tr : list Effect) : list string :=
  map msg_subject (List.filter is_donor_message (sends tr)).

(** The totals handed to [stripe.paymentIntents.create]. *)
Fixpoint charged (tr : list Effect) : list float :=
  match tr with
  | [] => []
  | EPaymentIntentsCreate p _ :: tr => pi_amount p :: charged tr
  | _ :: tr => charged tr
  end.

(* ===================================================================== *)
(** ** Binary64 forms used by the proofs *)
(* ===================================================================== *)

(** The canonical binary64 form of a positive integer of [d <= 53] bits. *)
Definition canonical (n d : Z) : float :=
  S754_finite false (Z.to_pos (n * 2 ^ (53 - d))) (d - 53).

(** The mantissa of the denominator [1 - 0.029] as the runtime computes it:
    [D * 2^-53] is the binary64 number nearest to 0.971. *)
Definition D : Z := 8745990476353503.

(** The mantissa of [Number(100)]: [C100 * 2^-46] is 100. *)
Definition C100 : Z := 7036874417766400.

(* ===================================================================== *)
(** ** CORS (server.js, lines 223-247) *)
(* ===================================================================== *)

Definition allowedOrigins : list string :=
  ["https://gray-bay-02034850f.2.azurestaticapps.net";
   "https://donate.bridgestowork.org";
   "https://gentle-water-04760d20f.1.azurestaticapps.net";
   "http://localhost:8080";
   "http://127.0.0.1:8080";
   "http://localhost:8081";
   "http://127.0.0.1:8081";
   "http://localhost:5500"].

(** The options handed to the [cors] library's callback. *)
Record CorsOptions := {
  co_origin : bool;
  co_methods : list string;
  co_optionsSuccessStatus : Z
}.

(** [corsOptionsDelegate], for the value of [req.header('Origin')]. *)
Definition corsOptionsDelegate (origin : option string) : CorsOptions :=
  let isAllowed :=
    negb (present origin)
    || existsb (String.eqb (default "" origin)) allowedOrigins in
  {| co_origin := isAllowed;
     co_methods := ["GET"; "HEAD"; "PUT"; "PATCH"; "POST"; "DELETE"; "OPTIONS"];
     co_optionsSuccessStatus := 204 |}.

(* ===================================================================== *)
(** ** The gateway endpoints without a part in the webhook:
       POST /create-checkout-session (server.js, lines 267-313) and
       POST /create-setup-intent (lines 365-381) *)
(* ===================================================================== *)

(** Parameters of [stripe.checkout.sessions.create]: one line item. *)
Record CheckoutSessionParams := {
  cs_payment_method_types : list string;
  cs_mode : string;
  cs_currency : string;
  cs_product_name : string;
  cs_product_description : jsval;
  cs_unit_amount : jsval;
  cs_recurring_interval : option string;
  cs_quantity : Z;
  cs_customer_email : jsval;
  cs_success_url : string;
  cs_cancel_url : string;
  cs_metadata : gmap string jsval
}.

Record CheckoutSession := {
  session_id : jsval;
  session_url : jsval
}.

Record CustomerCreated := {
  customer_id : jsval
}.

(** Parameters of [stripe.setupIntents.create]. *)
Record SetupIntentParams := {
  si_customer : jsval;
  si_payment_method_types : list string
}.

Record SetupIntent := {
  si_client_secret : jsval
}.

(** The handlers of these two endpoints, as trees of their calls. *)
Inductive Gateway (R : Type) : Type :=
| GRet (r : R)
| GConsole (lvl : Level) (args : list string) (k : Gateway R)
| CheckoutSessionsCreate (p : CheckoutSessionParams)
    (k : Outcome CheckoutSession -> Gateway R)
| CustomersCreate (email : jsval) (k : Outcome CustomerCreated -> Gateway R)
| SetupIntentsCreate (p : SetupIntentParams)
    (k : Outcome SetupIntent -> Gateway R).
Arguments GRet {R} r.
Arguments GConsole {R} lvl args k.
Arguments CheckoutSessionsCreate {R} p k.
Arguments CustomersCreate {R} email k.
Arguments SetupIntentsCreate {R} p k.

Inductive GatewayEffect :=
| GEConsole (lvl : Level) (args : list string)
| ECheckoutSessionsCreate (p : CheckoutSessionParams)
    (o : Outcome CheckoutSession)
| ECustomersCreate (email : jsval) (o : Outcome CustomerCreated)
| ESetupIntentsCreate (p : SetupIntentParams) (o : Outcome SetupIntent).

(** [gexec p tr r]: as [exec], for the gateway handlers. *)
Inductive gexec {R : Type} : Gateway R -> list GatewayEffect -> R -> Prop :=
| gexec_Ret r :
    gexec (GRet r) [] r
| gexec_Console l a k tr r :
    gexec k tr r -> gexec (GConsole l a k) (GEConsole l a :: tr) r
| gexec_CheckoutSessionsCreate p k o tr r :
    gexec (k o) tr r ->
    gexec (CheckoutSessionsCreate p k) (ECheckoutSessionsCreate p o :: tr) r
| gexec_CustomersCreate e k o tr r :
    gexec (k o) tr r ->
    gexec (CustomersCreate e k) (ECustomersCreate e o :: tr) r
| gexec_SetupIntentsCreate p k o tr r :
    gexec (k o) tr r ->
    gexec (SetupIntentsCreate p k) (ESetupIntentsCreate p o :: tr) r.

(** What Stripe answers to the creations of these endpoints. *)
Record GatewayWorld := {
  gw_sessions_create : CheckoutSessionParams -> Outcome CheckoutSession;
  gw_customers_create : jsval -> Outcome CustomerCreated;
  gw_setupIntents_create : SetupIntentParams -> Outcome SetupIntent
}.

Fixpoint grun {R : Type} (w : GatewayWorld) (p : Gateway R)
    : list GatewayEffect * R :=
  match p with
  | GRet r => ([], r)
  | GConsole l a k =>
      let '(tr, r) := grun w k in (GEConsole l a :: tr, r)
  | CheckoutSessionsCreate p k =>
      let o := gw_sessions_create w p in
      let '(tr, r) := grun w (k o) in (ECheckoutSessionsCreate p o :: tr, r)
  | CustomersCreate e k =>
      let o := gw_customers_create w e in
      let '(tr, r) := grun w (k o) in (ECustomersCreate e o :: tr, r)
  | SetupIntentsCreate p k =>
      let o := gw_setupIntents_create w p in
      let '(tr, r) := grun w (k o) in (ESetupIntentsCreate p o :: tr, r)
  end.

Module CreateCheckoutSession.

(** [req.body]; [donorInfo] is an object or absent. *)
Record ReqBody := {
  amount : jsval;
  frequency : jsval;
  donorInfo : option (gmap string jsval)
}.

Section Handler.
Context `{Runtime}.

(** [process.env]. *)
Variable env : gmap string string.

(** [encodeURIComponent] of the runtime. *)
Variable encodeURIComponent : string -> string.

(** The TypeError the runtime throws when the property [k] is read on
    [undefined]. *)
Variable TypeError_undefined : string -> JSError.

(** Lines 22-23. *)
Definition FRONTEND_BASE_URL : string :=
  match env !! "FRONTEND_BASE_URL" with
  | Some s =>
      if is_empty s then "https://gray-bay-02034850f.2.azurestaticapps.net"
      else s
  | None => "https://gray-bay-02034850f.2.azurestaticapps.net"
  end.

(** Lines 274-306, for a [donorInfo] that is an object. *)
Definition session_params (b : ReqBody) (donorInfo : gmap string jsval)
    : CheckoutSessionParams :=
  let amountDollars :=
    toFixed2 NumberToString (div (Number (amount b)) (of_Z 100)) in
  let donorName :=
    encodeURIComponent (ToString (prop donorInfo "firstName") +:+ " "
                        +:+ ToString (prop donorInfo "lastName")) in
  let monthly := strict_eq_str (frequency b) "monthly" in
  {| cs_payment_method_types := ["card"];
     cs_mode := if monthly then "subscription" else "payment";
     cs_currency := "usd";
     cs_product_name :=
       if monthly then "Monthly Donation" else "One-Time Donation";
     cs_product_description :=
       js_or (prop donorInfo "dedicationText") JUndefined;
     cs_unit_amount := amount b;
     cs_recurring_interval := if monthly then Some "month" else None;
     cs_quantity := 1;
     cs_customer_email := prop donorInfo "donorEmail";
     cs_success_url :=
       FRONTEND_BASE_URL +:+ "/thank-you.html?name=" +:+ donorName
       +:+ "&amount=" +:+ amountDollars;
     cs_cancel_url := FRONTEND_BASE_URL +:+ "/donation-cancelled";
     cs_metadata :=
       object_literal
         [("donor_name",
           JStr (ToString (prop donorInfo "firstName") +:+ " "
                 +:+ ToString (prop donorInfo "lastName")));
          ("phone", js_or (prop donorInfo "phone") (JStr ""));
          ("address", js_or (prop donorInfo "address1") (JStr ""));
          ("city", js_or (prop donorInfo "city") (JStr ""));
          ("state", js_or (prop donorInfo "state") (JStr ""));
          ("zip", js_or (prop donorInfo "zip") (JStr ""));
          ("dedication", js_or (prop donorInfo "dedicationText") (JStr ""));
          ("notifyEmail", js_or (prop donorInfo "notifyEmail") (JStr ""));
          ("subscribeToNewsletter",
           JStr (if truthy (prop donorInfo "subscribeToNewsletter")
                 then "Yes" else "No"));
          ("frequency", JStr (if monthly then "monthly" else "one_time"))] |}.

(** Lines 309-312. *)
Definition failed (err : JSError) : Gateway Response :=
  GConsole LogError ["Stripe error:"; err_message err]
    (GRet {| status := 500;
             res_body := JsonBody [("error", JStr (err_message err))] |}).

(** Lines 267-313. Reading [donorInfo.firstName] throws when [donorInfo] is
    absent, before any call to Stripe. *)
Definition handler (b : ReqBody) : Gateway Response :=
  match donorInfo b with
  | None => failed (TypeError_undefined "firstName")
  | Some donorInfo =>
      CheckoutSessionsCreate (session_params b donorInfo) (fun o =>
        match o with
        | Resolved session =>
            GRet {| status := 200;
                    res_body := JsonBody [("id", session_id session);
                                          ("url", session_url session)] |}
        | Rejected err => failed err
        end)
  end.

End Handler.

End CreateCheckoutSession.

Module CreateSetupIntent.

(** Lines 377-380. *)
Definition failed (err : JSError) : Gateway Response :=
  GConsole LogError ["create-setup-intent error:"; err_message err]
    (GRet {| status := 400; res_body := JsonError (err_message err) |}).

(** Lines 365-381, for the [donorEmail] of the body. *)
Definition handler (donorEmail : jsval) : Gateway Response :=
  CustomersCreate donorEmail (fun o =>
    match o with
    | Rejected err => failed err
    | Resolved customer =>
        SetupIntentsCreate
          {| si_customer := customer_id customer;
             si_payment_method_types := ["card"; "link"; "us_bank_account"] |}
          (fun o =>
             match o with
             | Rejected err => failed err
             | Resolved si =>
                 GRet {| status := 200;
                         res_body :=
                           JsonBody [("clientSecret", si_client_secret si);
                                     ("customerId", customer_id customer)] |}
             end)
    end).

End CreateSetupIntent.

(* ===================================================================== *)
(** ** Sample data for the gateway endpoints and the further properties *)
(* ===================================================================== *)

(** An event of a type the webhook does not classify. *)
Definition sample_other_event : Event :=
  {| type := "customer.created";
     data_object := data_object (sample_invoice JUndefined) |}.

(** A subscription invoice that carries no [customer_email]. *)
Definition sample_invoice_without_email : Event :=
  {| type := "invoice.payment_succeeded";
     data_object :=
       {| customer_email := JNull;
          metadata := None;
          amount_total := JUndefined;
          invoice := JUndefined; amount := JUndefined;
          receipt_email := JUndefined; amount_paid := JNum (of_Z 2000);
          subscription := JStr "sub_1" |} |}.

(** A world where the verification answers [verification] and every send,
    lookup and creation resolves. *)
Definition sample_world_lookups (verification : Outcome Event) : World :=
  {| w_constructEvent := fun _ _ _ => verification;
     w_send := fun _ => Resolved tt;
     w_subscriptions_retrieve := fun _ =>
       Resolved {| sub_metadata := Some (<["donor_name" := JStr "Ada"]> ∅);
                   sub_customer := JStr "cus_1" |};
     w_customers_retrieve := fun _ =>
       Resolved {| email := JStr "ada@example.org" |};
     w_paymentIntents_create := fun _ =>
       Resolved {| client_secret := JStr "pi_secret" |};
     w_paymentMethods_attach := fun _ _ => Resolved tt;
     w_customers_update := fun _ _ => Resolved tt;
     w_subscriptions_create := fun _ =>
       Resolved {| sc_id := JStr "sub_1"; sc_status := JStr "active" |} |}.


(** Two addresses padded with a no-break space and an em space. *)
Definition sample_internal_emails_padded : string :=
  utf8 160 +:+ " a@x.org" +:+ utf8 8195 +:+ " ,b@y.org".

Definition sample_env_padded_list : gmap string string :=
  <["SENDGRID_API_KEY" := "SG.sample"]>
    (<["INTERNAL_EMAILS" := sample_internal_emails_padded]> ∅).

(** A world for the gateway endpoints: the session and the customer are
    created, the setup intent answers [si]. *)
Definition sample_gateway_world (si : Outcome SetupIntent) : GatewayWorld :=
  {| gw_sessions_create := fun _ =>
       Resolved {| session_id := JStr "cs_1";
                   session_url := JStr "https://checkout.stripe.com/c/cs_1" |};
     gw_customers_create := fun _ => Resolved {| customer_id := JStr "cus_1" |};
     gw_setupIntents_create := fun _ => si |}.

Definition sample_session_body (frequency : jsval)
    : CreateCheckoutSession.ReqBody :=
  {| CreateCheckoutSession.amount := JNum (of_Z 2550);
     CreateCheckoutSession.frequency := frequency;
     CreateCheckoutSession.donorInfo :=
       Some (<["firstName" := JStr "Ada"]>
               (<["lastName" := JStr "Lovelace"]>
                  (<["donorEmail" := JStr "donor@example.org"]> ∅))) |}.

Definition sample_session_body_without_donor : CreateCheckoutSession.ReqBody :=
  {| CreateCheckoutSession.amount := JNum (of_Z 2550);
     CreateCheckoutSession.frequency := JStr "monthly";
     CreateCheckoutSession.donorInfo := None |}.

(** A request whose [donorInfo] holds no name. *)
Definition sample_session_body_anonymous : CreateCheckoutSession.ReqBody :=
  {| CreateCheckoutSession.amount := JNum (of_Z 2550);
     CreateCheckoutSession.frequency := JUndefined;
     CreateCheckoutSession.donorInfo :=
       Some (<["donorEmail" := JStr "donor@example.org"]> ∅) |}.

(** [encodeURIComponent] on the characters of the sample names. *)
Definition sample_encodeURIComponent (s : string) : string :=
  String.concat "%20" (String.words s).

Definition sample_TypeError (k : string) : JSError :=
  {| err_message :=
       "Cannot read properties of undefined (reading '" +:+ k +:+ "')";
     err_response_body := None |}.

(** The [checkout.session.completed] event of a session created with the
    parameters [p]. *)
Definition sample_completed_session (p : CheckoutSessionParams) : Event :=
  {| type := "checkout.session.completed";
     data_object :=
       {| customer_email := cs_customer_email p;
          metadata := Some (cs_metadata p);
          amount_total := cs_unit_amount p;
          invoice := JUndefined; amount := JUndefined;
          receipt_email := JUndefined; amount_paid := JUndefined;
          subscription := JUndefined |} |}.

(* ===================================================================== *)
(** * Theorems *)
(* ===================================================================== *)

(** ** Executions *)

Ltac exec_inv :=
  repeat match goal with
  | H : exec (Ret _) _ _ |- _ => inversion H; subst; clear H
  | H : exec (Console _ _ _) _ _ |- _ => inversion H; subst; clear H
  | H : exec (ConstructEvent _ _ _ _) _ _ |- _ => inversion H; subst; clear H
  | H : exec (SgMailSend _ _) _ _ |- _ => inversion H; subst; clear H
  | H : exec (SubscriptionsRetrieve _ _) _ _ |- _ => inversion H; subst; clear H
  | H : exec (CustomersRetrieve _ _) _ _ |- _ => inversion H; subst; clear H
  | H : exec (PaymentIntentsCreate _ _) _ _ |- _ => inversion H; subst; clear H
  | H : exec (PaymentMethodsAttach _ _ _) _ _ |- _ => inversion H; subst; clear H
  | H : exec (CustomersUpdate _ _ _) _ _ |- _ => inversion H; subst; clear H
  | H : exec (SubscriptionsCreate _ _) _ _ |- _ => inversion H; subst; clear H
  end.

Lemma exec_bind_inv {A B} (p : Prog A) (f : A -> Prog B) tr r :
  exec (p ≫= f) tr r ->
  exists tr1 a tr2, exec p tr1 a /\ exec (f a) tr2 r /\ tr = tr1 ++ tr2.
Proof.
  revert tr.
  induction p as [a|l args k IH|b s c k IH|m k IH|i k IH|i k IH
                 |q k IH|q c k IH|c d k IH|q k IH];
    intros tr Hx; cbn in Hx.
  1: { exists [], a, tr. split; [constructor|]. split; auto. }
  all: inversion Hx; subst;
    match goal with Hk : exec (bind _ _) _ _ |- _ =>
      apply IH in Hk as (t1 & a & t2 & ? & ? & ->) end;
    eexists (_ :: t1), a, t2; (split; [econstructor; eauto|split; eauto]).
Qed.

(** Every handler runs to a result against every world: the interpreter
    yields an execution. *)
Lemma exec_run {R} (w : World) (p : Prog R) :
  exec p (run w p).1 (run w p).2.
Proof.
  induction p as [a|l args k IH|b s c k IH|m k IH|i k IH|i k IH
                 |q k IH|q c k IH|c d k IH|q k IH]; cbn.
  - constructor.
  - destruct (run w k); constructor; exact IH.
  - specialize (IH (w_constructEvent w b s c)).
    destruct (run w (k _)); constructor; exact IH.
  - specialize (IH (w_send w m)).
    destruct (run w (k _)); constructor; exact IH.
  - specialize (IH (w_subscriptions_retrieve w i)).
    destruct (run w (k _)); constructor; exact IH.
  - specialize (IH (w_customers_retrieve w i)).
    destruct (run w (k _)); constructor; exact IH.
  - specialize (IH (w_paymentIntents_create w q)).
    destruct (run w (k _)); constructor; exact IH.
  - specialize (IH (w_paymentMethods_attach w q c)).
    destruct (run w (k _)); constructor; exact IH.
  - specialize (IH (w_customers_update w c d)).
    destruct (run w (k _)); constructor; exact IH.
  - specialize (IH (w_subscriptions_create w q)).
    destruct (run w (k _)); constructor; exact IH.
Qed.

(** ** Traces *)

Lemma sends_app t1 t2 : sends (t1 ++ t2) = sends t1 ++ sends t2.
Proof.
  induction t1 as [|[] t1 IH]; cbn; try rewrite IH; reflexivity.
Qed.

Lemma lookups_app t1 t2 : lookups (t1 ++ t2) = lookups t1 ++ lookups t2.
Proof.
  induction t1 as [|[] t1 IH]; cbn; try rewrite IH; reflexivity.
Qed.

Lemma gated_sends c m l tr :
  gated c m l tr -> sends tr = (if c then [m] else []) /\ lookups tr = [].
Proof.
  destruct c; cbn; [intros [[u ->]|[e ->]]|intros ->]; auto.
Qed.

Lemma notify_trace_sends c1 dm l1 c2 im l2 tr :
  notify_trace c1 dm l1 c2 im l2 tr ->
  sends tr = notifications c1 dm c2 im /\ lookups tr = [].
Proof.
  intros (t1 & t2 & -> & [H1 H1']%gated_sends & [H2 H2']%gated_sends).
  rewrite sends_app, lookups_app, H1, H2, H1', H2'. auto.
Qed.

Lemma notify_trace_logged c1 dm l1 c2 im l2 tr :
  notify_trace c1 dm l1 c2 im l2 tr -> failures_logged tr.
Proof.
  intros (t1 & t2 & -> & H1 & H2).
  destruct c1, c2; cbn in H1, H2;
    repeat match goal with
    | H : send_trace _ _ _ |- _ => destruct H as [[? ->]|[? ->]]
    | H : _ = [] |- _ => rewrite H
    end; cbn; auto.
Qed.

Lemma notify_trace_In c1 dm l1 c2 im l2 tr m o :
  notify_trace c1 dm l1 c2 im l2 tr -> In (ESend m o) tr -> m = dm \/ m = im.
Proof.
  intros (t1 & t2 & -> & H1 & H2) [Hin|Hin]%in_app_or.
  - left. destruct c1; cbn in H1; [destruct H1 as [[? ->]|[? ->]]|subst];
      cbn in Hin; intuition congruence.
  - right. destruct c2; cbn in H2; [destruct H2 as [[? ->]|[? ->]]|subst];
      cbn in Hin; intuition congruence.
Qed.

Lemma notify_trace_no_construct c1 dm l1 c2 im l2 tr :
  notify_trace c1 dm l1 c2 im l2 tr -> construct_outcome tr = None.
Proof.
  intros (t1 & t2 & -> & H1 & H2).
  destruct c1, c2; cbn in H1, H2;
    repeat match goal with
    | H : send_trace _ _ _ |- _ => destruct H as [[? ->]|[? ->]]
    | H : _ = [] |- _ => rewrite H
    end; reflexivity.
Qed.

(** ** The blocks of the webhook *)

Lemma exec_try_send m label tr r :
  exec (try_send m label) tr r -> send_trace m label tr.
Proof.
  unfold try_send, send_trace. intros Hx. inversion Hx; subst; clear Hx.
  destruct o; exec_inv; eauto.
Qed.

Lemma exec_gated (c : bool) m label tr r :
  exec (if c then try_send m label else Ret tt) tr r -> gated c m label tr.
Proof.
  destruct c; cbn; intros Hx; [eapply exec_try_send; eauto | exec_inv; auto].
Qed.

Lemma exec_notify (c1 c2 : bool) dm l1 im l2 tr r :
  exec ((if c1 then try_send dm l1 else Ret tt) ;;
        (if c2 then try_send im l2 else Ret tt)) tr r ->
  notify_trace c1 dm l1 c2 im l2 tr.
Proof.
  intros Hx. apply exec_bind_inv in Hx as (t1 & [] & t2 & H1 & H2 & ->).
  exists t1, t2. eauto using exec_gated.
Qed.

Section WebhookBlocks.
Context `{Runtime}.
Variable env : gmap string string.

Lemma exec_checkout s tr r :
  exec (checkout_session_completed env s) tr r -> checkout_trace env s tr.
Proof.
  unfold checkout_session_completed. intros Hx. apply exec_notify in Hx.
  exact Hx.
Qed.

Lemma exec_payment_intent pi tr r :
  exec (payment_intent_succeeded env pi) tr r ->
  (truthy (invoice pi) = true /\ tr = [] /\ r = Some OK) \/
  (truthy (invoice pi) = false /\ r = None /\ payment_intent_trace env pi tr).
Proof.
  unfold payment_intent_succeeded. destruct (truthy (invoice pi)).
  - intros Hx. exec_inv. left. auto.
  - intros Hx. right.
    apply exec_bind_inv in Hx as (t1 & [] & t2 & H1 & H2 & ->).
    apply exec_bind_inv in H2 as (t2' & [] & t3 & H2 & H3 & ->).
    exec_inv. rewrite app_nil_r. split; [reflexivity|]. split; [reflexivity|].
    exists t1, t2'. eauto using exec_gated.
Qed.

Lemma exec_expand inv tr r :
  exec (expand_invoice inv) tr r -> expanded inv tr r.1 r.2.
Proof.
  unfold expand_invoice.
  destruct (truthy (subscription inv)) eqn:Hsub.
  - intros Hx.
    inversion Hx as [| | | |? ? o ? ? Hk| | | | |]; subst; clear Hx.
    destruct o as [sub|e].
    + destruct (negb (truthy (js_or (customer_email inv) JNull))
                && truthy (sub_customer sub)) eqn:Hc.
      * match goal with
        | Hk : exec (CustomersRetrieve _ _) _ _ |- _ =>
            inversion Hk as [| | | | |? ? o' ? ? Hk'| | | |]; subst; clear Hk
        end.
        destruct o' as [customer|e];
          exec_inv; cbn; [apply expanded_customer|apply expanded_customer_rejected]; auto.
      * exec_inv; cbn. apply expanded_subscription; auto.
    + exec_inv; cbn. apply expanded_subscription_rejected; auto.
  - intros Hx. exec_inv. cbn. apply expanded_no_subscription; auto.
Qed.

Lemma exec_invoice inv tr r :
  exec (invoice_payment_succeeded env inv) tr r ->
  exists t0 de md t, tr = t0 ++ t /\ expanded inv t0 de md /\
                     invoice_trace env inv de md t.
Proof.
  unfold invoice_payment_succeeded. intros Hx.
  apply exec_bind_inv in Hx as (t0 & [de md] & t & H0 & Ht & ->).
  apply exec_expand in H0. apply exec_notify in Ht.
  exists t0, de, md, t. auto.
Qed.

Lemma exec_handleEvent ev tr res :
  exec (handleEvent env ev) tr res -> res = OK /\ handled env ev tr.
Proof.
  unfold handleEvent. intros Hx.
  apply exec_bind_inv in Hx as (t1 & [] & t' & H1 & Hx & ->).
  apply exec_bind_inv in Hx as (t2 & returned & t'' & H2 & Hx & ->).
  destruct (String.eqb_spec (type ev) "checkout.session.completed") as [E1|N1].
  - rewrite E1 in *. cbn in H2, Hx. exec_inv.
    rewrite !app_nil_r. split; [reflexivity|].
    apply handled_checkout; eauto using exec_checkout.
  - exec_inv. cbn [app].
    destruct (String.eqb_spec (type ev) "payment_intent.succeeded") as [E2|N2].
    + apply exec_payment_intent in H2 as [(Hi & -> & ->)|(Hi & -> & Ht)].
      * exec_inv. split; [reflexivity|].
        apply handled_payment_intent_of_invoice; auto.
      * rewrite E2 in Hx. cbn in Hx. exec_inv.
        rewrite !app_nil_r. split; [reflexivity|].
        apply handled_payment_intent; auto.
    + exec_inv. cbn [app].
      apply exec_bind_inv in Hx as (t3 & [] & t4 & H3 & Hx & ->). exec_inv.
      rewrite app_nil_r. split; [reflexivity|].
      destruct (String.eqb_spec (type ev) "invoice.payment_succeeded") as [E3|N3].
      * apply exec_invoice in H3 as (t0 & de & md & t & -> & H0 & Ht).
        eapply handled_invoice; eauto.
      * exec_inv. apply handled_other; auto.
Qed.

Lemma webhook_inv req tr res :
  exec (webhook env req) tr res ->
  exists o tr',
    tr = EConsole LogInfo ["🔔 Webhook received!"]
         :: EConstructEvent (body req) (headers req !! "stripe-signature")
              (endpointSecret env) o
         :: tr' /\
    match o with
    | Rejected err =>
        tr' = [EConsole LogError
                 ["⚠️ Webhook signature verification failed:"; err_message err]] /\
        res = {| status := 400;
                 res_body := TextBody ("Webhook Error: " +:+ err_message err) |}
    | Resolved ev => exec (handleEvent env ev) tr' res
    end.
Proof.
  unfold webhook. intros Hx. inversion Hx; subst; clear Hx.
  match goal with
  | Hk : exec (ConstructEvent _ _ _ _) _ _ |- _ =>
      inversion Hk; subst; clear Hk
  end.
  match goal with
  | Hk : exec (match ?o with Resolved _ => _ | Rejected _ => _ end) ?t _ |- _ =>
      exists o, t; split; [reflexivity|];
      destruct o; [assumption | exec_inv; auto]
  end.
Qed.

Lemma webhook_verified req tr res ev :
  exec (webhook env req) tr res -> verified tr ev ->
  exists tr',
    tr = EConsole LogInfo ["🔔 Webhook received!"]
         :: EConstructEvent (body req) (headers req !! "stripe-signature")
              (endpointSecret env) (Resolved ev)
         :: tr' /\
    res = OK /\ handled env ev tr'.
Proof.
  intros (o & tr' & -> & Ho)%webhook_inv Hv. unfold verified in Hv.
  cbn in Hv. injection Hv as ->. apply exec_handleEvent in Ho as [-> Hh].
  eauto.
Qed.
End WebhookBlocks.

(** ** Facts on the shapes *)

Lemma expanded_sends inv t de md :
  expanded inv t de md ->
  sends t = [] /\ construct_outcome t = None /\
  forall t', failures_logged (t ++ t') <-> failures_logged t'.
Proof.
  destruct 1; cbn; intuition.
Qed.

(** The donor email and the metadata the expansion leaves are decided by
    what the lookups answered. *)
Lemma expanded_lookups inv t de md t' de' md' :
  expanded inv t de md -> expanded inv t' de' md' ->
  lookups t = lookups t' -> de = de' /\ md = md'.
Proof.
  destruct 1; destruct 1; cbn; intros E; simplify_eq; auto.
Qed.

Ltac type_clash :=
  match goal with
  | H1 : type ?e = _, H2 : type ?e = _ |- _ =>
      rewrite H1 in H2; discriminate H2
  | H1 : type ?e = ?s, H2 : type ?e <> ?s |- _ => destruct (H2 H1)
  end.

Section WebhookClaims.
Context `{Runtime}.
Variable env : gmap string string.

Lemma handled_no_construct ev tr :
  handled env ev tr -> construct_outcome tr = None.
Proof.
  destruct 1 as [tr _ Ht| |tr _ _ Ht|t0 de md tr _ H0 Ht|]; try reflexivity.
  - apply notify_trace_no_construct in Ht; exact Ht.
  - apply notify_trace_no_construct in Ht; exact Ht.
  - apply notify_trace_no_construct in Ht.
    destruct H0; cbn; exact Ht.
Qed.

Lemma handled_logged ev tr : handled env ev tr -> failures_logged tr.
Proof.
  destruct 1 as [tr _ Ht| |tr _ _ Ht|t0 de md tr _ H0 Ht|]; cbn; auto.
  - eapply notify_trace_logged; exact Ht.
  - eapply notify_trace_logged; exact Ht.
  - apply expanded_sends in H0 as (_ & _ & ->).
    eapply notify_trace_logged; exact Ht.
Qed.

(** With no API key for SendGrid, a handled event sends nothing. *)
Lemma handled_no_key ev tr :
  sendgrid_configured env = false -> handled env ev tr -> sends tr = [].
Proof.
  intros Hk.
  destruct 1 as [tr _ Ht| |tr _ _ Ht|t0 de md tr _ H0 Ht|]; try reflexivity.
  - apply notify_trace_sends in Ht as [-> _]. rewrite Hk. reflexivity.
  - apply notify_trace_sends in Ht as [-> _]. rewrite Hk. reflexivity.
  - apply notify_trace_sends in Ht as [Hs _]. apply expanded_sends in H0 as [H0 _].
    rewrite sends_app, H0, Hs, Hk. reflexivity.
Qed.

(** What a handled event sends is decided by the event and by what the
    lookups answered. *)
Lemma handled_sends_lookups ev tr tr' :
  handled env ev tr -> handled env ev tr' ->
  lookups tr = lookups tr' -> sends tr = sends tr'.
Proof.
  destruct 1 as [tr ? Ht|? ?|tr ? ? Ht|t0 de md tr ? H0 Ht|? ? ?];
    destruct 1 as [tr' ? Ht'|? ?|tr' ? ? Ht'|t0' de' md' tr' ? H0' Ht'|? ? ?];
    intros El; try type_clash; try congruence; try reflexivity.
  - apply notify_trace_sends in Ht as [-> _], Ht' as [-> _]. reflexivity.
  - apply notify_trace_sends in Ht as [-> _], Ht' as [-> _]. reflexivity.
  - apply notify_trace_sends in Ht as [Hs Hl], Ht' as [Hs' Hl'].
    rewrite !lookups_app, Hl, Hl', !app_nil_r in El.
    destruct (expanded_lookups _ _ _ _ _ _ _ H0 H0' El) as [-> ->].
    apply expanded_sends in H0 as [H0 _], H0' as [H0' _].
    rewrite !sends_app, H0, H0', Hs, Hs'. reflexivity.
Qed.

(** C2. A delivery whose signature verification fails (the header is
    missing or malformed, or the signature does not match the raw body:
    [constructEvent] throws) is answered with status 400 and the text
    "Webhook Error: " followed by the error message; apart from the
    verification call, made on the raw body, the signature header and the
    endpoint secret, the handler only writes to the console: no message is
    sent and no subscription or customer is looked up. *)
Theorem webhook_signature_failure req tr res e :
  exec (webhook env req) tr res ->
  construct_outcome tr = Some (Rejected e) ->
  res = {| status := 400;
           res_body := TextBody ("Webhook Error: " +:+ err_message e) |} /\
  sends tr = [] /\ lookups tr = [] /\
  tr = [EConsole LogInfo ["🔔 Webhook received!"];
        EConstructEvent (body req) (headers req !! "stripe-signature")
          (env !! "STRIPE_WEBHOOK_SECRET") (Rejected e);
        EConsole LogError
          ["⚠️ Webhook signature verification failed:"; err_message e]].
Proof.
  intros (o & tr' & -> & Ho)%webhook_inv Hc. cbn in Hc.
  injection Hc as ->. destruct Ho as [-> ->]. auto.
Qed.

(** C3. A verified [payment_intent.succeeded] event whose payload has a
    non-empty (truthy) [invoice] sends no message, neither to the donor
    nor internally, and is answered with status 200. *)
Theorem payment_intent_of_invoice_skipped req tr res ev :
  exec (webhook env req) tr res ->
  verified tr ev ->
  type ev = "payment_intent.succeeded" ->
  truthy (invoice (data_object ev)) = true ->
  res = OK /\ sends tr = [].
Proof.
  intros Hx Hv Ht Hi.
  destruct (webhook_verified env req tr res ev Hx Hv) as (tr' & -> & -> & Hh).
  split; [reflexivity|]. cbn.
  destruct Hh; try type_clash; try congruence; reflexivity.
Qed.

(** C10. When [SENDGRID_API_KEY] is not configured (unset or empty), a
    verified event of any type sends no message on any path, whatever the
    donor email and the internal recipients, and is still answered with
    status 200. *)
Theorem no_api_key_no_send req tr res ev :
  exec (webhook env req) tr res ->
  verified tr ev ->
  present (env !! "SENDGRID_API_KEY") = false ->
  sends tr = [] /\ res = OK.
Proof.
  intros Hx Hv Hk.
  destruct (webhook_verified env req tr res ev Hx Hv) as (tr' & -> & -> & Hh).
  split; [|reflexivity]. cbn. eapply handled_no_key; eauto.
Qed.

Lemma handled_internal_sent ev tr :
  sendgrid_configured env = true -> internal_configured env = true ->
  notifying ev -> handled env ev tr ->
  exists m, In m (sends tr) /\ is_donor_message m = false.
Proof.
  intros Hk Hi Hn.
  destruct 1 as [tr ? Ht|? ?|tr ? ? Ht|t0 de md tr ? H0 Ht|? ? ?].
  - apply notify_trace_sends in Ht as [-> _]. rewrite Hk, Hi.
    eexists. split; [apply in_or_app; right; left; reflexivity|reflexivity].
  - destruct Hn as [?|[[? ?]|?]]; try type_clash; congruence.
  - apply notify_trace_sends in Ht as [-> _]. rewrite Hk, Hi.
    eexists. split; [apply in_or_app; right; left; reflexivity|reflexivity].
  - apply notify_trace_sends in Ht as [Hs _].
    apply expanded_sends in H0 as [H0 _].
    rewrite sends_app, H0, Hs, Hk, Hi. cbn [app].
    eexists. split; [apply in_or_app; right; left; reflexivity|reflexivity].
  - destruct Hn as [?|[[? ?]|?]]; type_clash.
Qed.

(** C4. Within one verified delivery the two sends are independent:
    the response is 200 whatever the sends answer; every rejected send is
    followed at once by its own [console.error] with the detail of that
    rejection; the messages handed to SendGrid do not depend on how the
    sends end (two executions of the handler on the same event in which
    the lookups answer the same hand over the same messages, so a rejected
    donor send does not remove the internal send, nor the reverse); and in
    every execution on an event of a notifying path, with the API key and
    the internal recipients configured, the internal message is handed
    over. *)
Theorem sends_independent req tr res ev :
  exec (webhook env req) tr res ->
  verified tr ev ->
  res = OK /\
  failures_logged tr /\
  (forall tr' res',
     exec (webhook env req) tr' res' -> verified tr' ev ->
     lookups tr' = lookups tr ->
     sends tr' = sends tr /\ res' = res) /\
  (sendgrid_configured env = true -> internal_configured env = true ->
   notifying ev ->
   exists m, In m (sends tr) /\ is_donor_message m = false).
Proof.
  intros Hx Hv.
  destruct (webhook_verified env req tr res ev Hx Hv) as (t & -> & -> & Hh).
  split; [reflexivity|]. split; [|split].
  - cbn. eapply handled_logged; eauto.
  - intros tr' res' Hx' Hv' El.
    destruct (webhook_verified env req tr' res' ev Hx' Hv')
      as (t' & -> & -> & Hh').
    split; [|reflexivity]. cbn in *. eapply handled_sends_lookups; eauto.
  - intros Hk Hi Hn. cbn. eapply handled_internal_sent; eauto.
Qed.

Lemma lookup_rejected_lookups tr :
  lookup_rejected tr <-> lookup_rejected (lookups tr).
Proof.
  unfold lookup_rejected.
  assert (forall e, (forall i, In (ESubscriptionsRetrieve i (Rejected e)) tr
                       <-> In (ESubscriptionsRetrieve i (Rejected e)) (lookups tr))
                 /\ (forall i, In (ECustomersRetrieve i (Rejected e)) tr
                       <-> In (ECustomersRetrieve i (Rejected e)) (lookups tr)))
    as Hin.
  { intros e. induction tr as [|[] tr [IH1 IH2]]; cbn; split; intros i;
      try tauto; rewrite ?IH1, ?IH2; intuition discriminate. }
  split; intros (e & [[i Hi]|[i Hi]]); exists e; [left|right|left|right];
    exists i; apply (Hin e); exact Hi.
Qed.




Lemma strict_eq_str_or v s :
  is_empty s = false ->
  strict_eq_str (js_or v (JStr "one_time")) s
  = strict_eq_str v s || (negb (truthy v) && String.eqb "one_time" s).
Proof.
  unfold js_or. intros Hs. destruct (truthy v) eqn:Hv; cbn.
  - rewrite orb_false_r. reflexivity.
  - destruct v as [| |b|x|s']; cbn in *; try reflexivity.
    destruct s'; cbn in *; try discriminate. destruct s; cbn in *; congruence.
Qed.

(** C7 (amended). The subject of a donor message is decided by the path:
    on the checkout path it reads "monthly" when [metadata.frequency] is
    'monthly' and "one-time" otherwise, two different subjects; on the
    payment-intent path it is always "Thank you for your donation!" and
    on the invoice path always "Thank you for your monthly donation!",
    whatever the metadata says of the frequency. *)
Theorem donor_subject_by_path req tr res ev m o :
  exec (webhook env req) tr res ->
  verified tr ev ->
  In (ESend m o) tr ->
  is_donor_message m = true ->
  (type ev = "checkout.session.completed" /\
   msg_subject m =
     (if strict_eq_str
           (prop (default ∅ (metadata (data_object ev))) "frequency") "monthly"
      then "Thank you for your monthly donation!"
      else "Thank you for your one-time donation!") /\
   "Thank you for your monthly donation!"
     <> "Thank you for your one-time donation!") \/
  (type ev = "payment_intent.succeeded" /\
   msg_subject m = "Thank you for your donation!") \/
  (type ev = "invoice.payment_succeeded" /\
   msg_subject m = "Thank you for your monthly donation!").
Proof.
  intros Hx Hv Hin Hd.
  destruct (webhook_verified env req tr res ev Hx Hv) as (t & -> & -> & Hh).
  cbn in Hin. destruct Hin as [|[|Hin]]; try discriminate.
  destruct Hh as [tr ? Hn|? ?|tr ? ? Hn|t0 de md tr ? H0 Hn|? ? ?].
  - left. split; [assumption|].
    destruct (notify_trace_In _ _ _ _ _ _ _ _ _ Hn Hin) as [->| ->];
      [|discriminate Hd].
    split; [|discriminate]. cbn.
    rewrite strict_eq_str_or by reflexivity. cbn. rewrite andb_false_r, orb_false_r.
    destruct (strict_eq_str _ _); reflexivity.
  - destruct Hin.
  - right; left. split; [assumption|].
    destruct (notify_trace_In _ _ _ _ _ _ _ _ _ Hn Hin) as [->| ->];
      [reflexivity|discriminate Hd].
  - right; right. split; [assumption|].
    apply in_app_or in Hin as [Hin|Hin].
    + destruct H0; cbn in Hin; unfold expand_warning in Hin;
        intuition discriminate.
    + destruct (notify_trace_In _ _ _ _ _ _ _ _ _ Hn Hin) as [->| ->];
        [reflexivity|discriminate Hd].
  - destruct Hin.
Qed.
End WebhookClaims.

(** ** The creation endpoints *)

Ltac outcome_inv :=
  repeat match goal with
  | H : Resolved _ = Resolved _ |- _ => injection H as H; try subst
  | H : Rejected _ = Rejected _ |- _ => injection H as H; try subst
  | H : Resolved _ = Rejected _ |- _ => discriminate H
  | H : Rejected _ = Resolved _ |- _ => discriminate H
  end.

(** Reading a property of the metadata throws for [null], whatever the
    key, and for nothing else. *)
Lemma read_metadata_null k :
  read (json_default JNull (JObject ∅)) k
  = Rejected (TypeError ("Cannot read properties of null (reading '"
                         +:+ k +:+ "')")).
Proof. reflexivity. Qed.

Lemma read_metadata_resolved (m : json) k :
  m <> JNull -> exists v, read (json_default m (JObject ∅)) k = Resolved v.
Proof.
  intros Hm. destruct m as [[| |b|x|s]|items|props]; cbn; eauto.
  congruence.
Qed.

Lemma read_primitives (md : gmap string jsval) k :
  read (JObject (JPrim <$> md)) k = Resolved (JPrim (prop md k)).
Proof.
  cbn. rewrite lookup_fmap. unfold prop. destruct (md !! k); reflexivity.
Qed.

Lemma json_or_primitives (a b : jsval) : json_or a b = JPrim (js_or a b).
Proof. unfold json_or, js_or. cbn. destruct (truthy a); reflexivity. Qed.

Section Endpoints.
Context `{Runtime}.

Lemma computeGrossCents_Number v coverFees :
  computeGrossCents (JNum (Number v)) coverFees
  = computeGrossCents v coverFees.
Proof. reflexivity. Qed.

(** A conversion to a string throws one error only. *)
Lemma json_ToString_throws j err :
  json_ToString j = Rejected err ->
  err = TypeError "Cannot convert object to primitive value".
Proof.
  revert j err. fix IH 1. intros j err.
  destruct j as [v|items|props]; cbn [json_ToString].
  - discriminate.
  - induction items as [|x r IHr]; [discriminate|].
    destruct (match x with
              | JPrim JNull | JPrim JUndefined => Resolved ""
              | _ => json_ToString x
              end) as [s|e] eqn:Ex; cbn [mbind Outcome_bind].
    + destruct r as [|y r]; [discriminate|].
      match goal with |- context [mbind _ ?e] => destruct e eqn:Er end;
        cbn [mbind Outcome_bind]; [discriminate|].
      intros E. injection E as <-. apply IHr. reflexivity.
    + intros E. injection E as <-. apply (IH x).
      destruct x as [[| |b|n|s]| |]; try discriminate Ex; exact Ex.
  - destruct (props !! "toString"); [|discriminate].
    intros E. injection E as <-. reflexivity.
Qed.

Lemma json_Number_throws j err :
  json_Number j = Rejected err ->
  err = TypeError "Cannot convert object to primitive value".
Proof.
  destruct j as [v|items|props]; cbn [json_Number]; [discriminate| |];
    match goal with |- context [mbind _ ?e] => destruct e eqn:E end;
    cbn [mbind Outcome_bind]; try discriminate;
    intros E'; injection E' as <-; exact (json_ToString_throws _ _ E).
Qed.

Ltac throws :=
  repeat match goal with
  | |- context [mbind _ (json_ToString ?j)] =>
      let E := fresh "E" in
      destruct (json_ToString j) eqn:E; cbn [mbind Outcome_bind]
  | |- context [mbind _ (json_Number ?j)] =>
      let E := fresh "E" in
      destruct (json_Number j) eqn:E; cbn [mbind Outcome_bind]
  | |- context [if ?c then _ else _] => destruct c; cbn [mbind Outcome_bind]
  | |- Resolved _ = Rejected _ -> _ => discriminate
  | E : json_ToString _ = Rejected ?e |- Rejected ?e = Rejected _ -> _ =>
      apply json_ToString_throws in E; intros E'; injection E' as <-
  | E : json_Number _ = Rejected ?e |- Rejected ?e = Rejected _ -> _ =>
      apply json_Number_throws in E; intros E'; injection E' as <-
  end.

(** What the evaluation of the intent's parameters can throw. *)
Lemma intent_params_throws b err :
  CreatePaymentIntent.intent_params b = Rejected err ->
  CreatePaymentIntent.metadata b = JNull /\
  err = TypeError
          "Cannot read properties of null (reading 'base_amount_cents')" \/
  CreatePaymentIntent.metadata b <> JNull /\
  err = TypeError "Cannot convert object to primitive value".
Proof.
  unfold CreatePaymentIntent.intent_params, CreatePaymentIntent.totalCents,
    CreatePaymentIntent.intent_metadata. cbv zeta.
  destruct (CreatePaymentIntent.metadata b) as [[| |x|x|x]|items|props];
    cbn [json_default read mbind Outcome_bind].
  2: { intros E. injection E as <-. left. split; reflexivity. }
  all: throws; right; (split; [discriminate|assumption]).
Qed.

(** What the evaluation of the subscription's parameters can throw. *)
Lemma subscription_params_throws b err :
  CreateSubscription.subscription_params b = Rejected err ->
  CreateSubscription.metadata b = JNull /\
  (exists unit_amount,
     json_Number (CreateSubscription.amountCents b) = Resolved unit_amount) /\
  err = TypeError "Cannot read properties of null (reading 'first_name')" \/
  err = TypeError "Cannot convert object to primitive value".
Proof.
  unfold CreateSubscription.subscription_params,
    CreateSubscription.subscription_metadata. cbv zeta.
  destruct (json_Number (CreateSubscription.amountCents b)) as [a|e] eqn:Ea;
    cbn [mbind Outcome_bind].
  2: { intros E. injection E as <-. right.
       exact (json_Number_throws _ _ Ea). }
  destruct (CreateSubscription.metadata b) as [[| |x|x|x]|items|props];
    cbn [json_default read mbind Outcome_bind].
  2: { intros E. injection E as <-. left. eauto. }
  all: throws; right; assumption.
Qed.

(** The runs of [POST /create-payment-intent]: the evaluation of the
    parameters throws, or the one call is made. *)
Lemma exec_create_payment_intent b tr res :
  exec (CreatePaymentIntent.handler b) tr res ->
  (exists err,
     CreatePaymentIntent.intent_params b = Rejected err /\
     tr = [EConsole LogError ["create-payment-intent error:"; err_message err]] /\
     res = {| status := 400; res_body := JsonError (err_message err) |}) \/
  (exists p,
     CreatePaymentIntent.intent_params b = Resolved p /\
     ((exists pi,
         tr = [EPaymentIntentsCreate p (Resolved pi)] /\
         res = {| status := 200;
                  res_body := JsonBody [("clientSecret", client_secret pi)] |}) \/
      (exists err,
         tr = [EPaymentIntentsCreate p (Rejected err);
               EConsole LogError
                 ["create-payment-intent error:"; err_message err]] /\
         res = {| status := 400; res_body := JsonError (err_message err) |}))).
Proof.
  unfold CreatePaymentIntent.handler, CreatePaymentIntent.failed.
  destruct (CreatePaymentIntent.intent_params b) as [p|err]; intros Hx.
  - right. exists p. split; [reflexivity|].
    inversion Hx as [| | | | | |? ? o ? ? Hk| | |]; subst; clear Hx.
    destruct o; exec_inv; [left|right]; eauto.
  - left. exec_inv. eauto.
Qed.

Lemma intent_params_inv b p :
  CreatePaymentIntent.intent_params b = Resolved p ->
  exists md,
    CreatePaymentIntent.totalCents b = Resolved (pi_amount p) /\
    CreatePaymentIntent.intent_metadata b = Resolved md /\
    pi_metadata p = md.
Proof.
  unfold CreatePaymentIntent.intent_params.
  destruct (CreatePaymentIntent.totalCents b) as [total|]; [|discriminate].
  destruct (CreatePaymentIntent.intent_metadata b) as [md|]; [|discriminate].
  cbn. intros E. injection E as <-. eauto.
Qed.

Lemma intent_metadata_spread b md :
  CreatePaymentIntent.intent_metadata b = Resolved md ->
  exists o,
    md = spread o
           (own_properties
              (json_default (CreatePaymentIntent.metadata b) (JObject ∅))).
Proof.
  unfold CreatePaymentIntent.intent_metadata. cbv zeta.
  set (m := json_default (CreatePaymentIntent.metadata b) (JObject ∅)).
  repeat match goal with
  | |- context [mbind _ ?e] =>
      destruct e; cbn [mbind Outcome_bind]; [|discriminate]
  end.
  intros E. injection E as <-. eauto.
Qed.

(** C8 (amended). A request whose [metadata] is [null], or one of whose
    converted values cannot be converted (a [newsletter_opt_in] with a
    [toString] property, say), makes the handler throw before the call:
    nothing is charged and the answer is 400. On every other
    request one intent is created, and its amount is [computeGrossCents]
    of [metadata.base_amount_cents] when that value converts to a Number
    greater than 0, and then [amountCents] plays no part; otherwise, when
    it is absent, zero, negative or not a number, it is
    [Number(amountCents)]. *)
Theorem charged_total b tr res :
  exec (CreatePaymentIntent.handler b) tr res ->
  let metadata :=
    json_default (CreatePaymentIntent.metadata b) (JObject ∅) in
  let coverFees :=
    json_default (CreatePaymentIntent.coverFees b) (JBool false) in
  (forall err,
     CreatePaymentIntent.intent_params b = Rejected err ->
     charged tr = [] /\
     res = {| status := 400; res_body := JsonError (err_message err) |}) /\
  (CreatePaymentIntent.metadata b = JNull ->
   CreatePaymentIntent.intent_params b
   = Rejected (TypeError
       "Cannot read properties of null (reading 'base_amount_cents')")) /\
  (forall p,
     CreatePaymentIntent.intent_params b = Resolved p ->
     exists v base,
       read metadata "base_amount_cents" = Resolved v /\
       json_Number (json_or v (JNum (of_Z 0))) = Resolved base /\
       charged tr = [pi_amount p] /\
       (gtb base (of_Z 0) = true ->
        pi_amount p = computeGrossCents (JNum base) (as_flag coverFees)) /\
       (gtb base (of_Z 0) = false ->
        json_Number (CreatePaymentIntent.amountCents b)
        = Resolved (pi_amount p))) /\
  (forall (md : gmap string jsval) (a : jsval),
     metadata = JObject (JPrim <$> md) ->
     CreatePaymentIntent.amountCents b = JPrim a ->
     let v := js_or (prop md "base_amount_cents") (JNum (of_Z 0)) in
     charged tr =
       [if gtb (Number v) (of_Z 0)
        then computeGrossCents v (as_flag coverFees)
        else Number a] /\
     (md !! "base_amount_cents" = None -> charged tr = [Number a])) /\
  (forall md o,
     CreatePaymentIntent.metadata b = JObject md ->
     md !! "newsletter_opt_in" = Some (JObject o) ->
     is_Some (o !! "toString") ->
     CreatePaymentIntent.intent_params b
     = Rejected (TypeError "Cannot convert object to primitive value")).
Proof.
  intros Hx. cbv zeta.
  assert (forall p,
            CreatePaymentIntent.intent_params b = Resolved p ->
            charged tr = [pi_amount p]) as Hcharged.
  { intros p Hp.
    destruct (exec_create_payment_intent b tr res Hx)
      as [(err & E & _)|(p' & E & [(pi & -> & _)|(err & -> & _)])];
      rewrite Hp in E; outcome_inv; reflexivity. }
  assert (forall p,
            CreatePaymentIntent.intent_params b = Resolved p ->
            exists v base,
              read (json_default (CreatePaymentIntent.metadata b) (JObject ∅))
                "base_amount_cents" = Resolved v /\
              json_Number (json_or v (JNum (of_Z 0))) = Resolved base /\
              (gtb base (of_Z 0) = true ->
               pi_amount p
               = computeGrossCents (JNum base)
                   (as_flag (json_default (CreatePaymentIntent.coverFees b)
                               (JBool false)))) /\
              (gtb base (of_Z 0) = false ->
               json_Number (CreatePaymentIntent.amountCents b)
               = Resolved (pi_amount p))) as Htotal.
  { intros p (md & Ht & _)%intent_params_inv.
    unfold CreatePaymentIntent.totalCents in Ht. cbv zeta in Ht.
    destruct (read _ "base_amount_cents") as [v|] eqn:Ev; [|discriminate Ht].
    cbn [mbind Outcome_bind] in Ht.
    destruct (json_Number (json_or v _)) as [base|] eqn:Eb;
      [|discriminate Ht].
    cbn [mbind Outcome_bind] in Ht.
    exists v, base. split; [reflexivity|]. split; [exact Eb|].
    destruct (gtb base (of_Z 0)); split; intros; try discriminate;
      outcome_inv; auto. }
  split; [|split; [|split; [|split]]].
  - intros err He.
    destruct (exec_create_payment_intent b tr res Hx)
      as [(err' & E & -> & ->)|(p' & E & _)];
      rewrite He in E; outcome_inv. auto.
  - intros Hn. unfold CreatePaymentIntent.intent_params,
      CreatePaymentIntent.totalCents.
    rewrite Hn. reflexivity.
  - intros p Hp. destruct (Htotal p Hp) as (v & base & Hv & Hb & Hgt & Hle).
    exists v, base. auto using Hcharged.
  - intros md a Hmd Ha.
    assert (exists p, CreatePaymentIntent.intent_params b = Resolved p)
      as [p Hp].
    { unfold CreatePaymentIntent.intent_params,
        CreatePaymentIntent.totalCents, CreatePaymentIntent.intent_metadata.
      cbv zeta. rewrite Hmd, !read_primitives. cbn [mbind Outcome_bind].
      rewrite !json_or_primitives. cbn [json_Number mbind Outcome_bind].
      rewrite Ha. cbn [json_Number json_ToString mbind Outcome_bind].
      match goal with |- context [gtb ?x ?y] => destruct (gtb x y) end;
        eexists; reflexivity. }
    destruct (Htotal p Hp) as (v & base & Hv & Hb & Hgt & Hle).
    rewrite (Hcharged p Hp).
    rewrite Hmd, read_primitives in Hv. injection Hv as <-.
    rewrite json_or_primitives in Hb. cbn [json_Number] in Hb.
    injection Hb as <-.
    rewrite Ha in Hle. cbn [json_Number] in Hle.
    assert (pi_amount p
            = if gtb (Number (js_or (prop md "base_amount_cents")
                                    (JNum (of_Z 0)))) (of_Z 0)
              then computeGrossCents
                     (js_or (prop md "base_amount_cents") (JNum (of_Z 0)))
                     (as_flag (json_default (CreatePaymentIntent.coverFees b)
                                 (JBool false)))
              else Number a) as E.
    { destruct (gtb _ _).
      - rewrite (Hgt eq_refl). apply computeGrossCents_Number.
      - specialize (Hle eq_refl). injection Hle as <-. reflexivity. }
    split; [rewrite E; reflexivity|].
    intros Hnone. rewrite E. unfold prop. rewrite Hnone. reflexivity.
  - intros md o Hmd Hk [t Ht].
    destruct (CreatePaymentIntent.intent_params b) as [p|err] eqn:Ep.
    + exfalso. apply intent_params_inv in Ep as (m & _ & Hm & _).
      unfold CreatePaymentIntent.intent_metadata in Hm. cbv zeta in Hm.
      rewrite Hmd in Hm. cbn [json_default read mbind Outcome_bind] in Hm.
      rewrite Hk in Hm. cbn [from_option id json_ToString] in Hm.
      rewrite Ht in Hm. discriminate Hm.
    + destruct (intent_params_throws b err Ep) as [[Hn _]|[_ ->]];
        [congruence|reflexivity].
Qed.

Lemma spread_lookup {A} (o src : gmap string A) k v :
  src !! k = Some v -> spread o src !! k = Some v.
Proof. unfold spread. apply lookup_union_Some_l. Qed.

Lemma subscription_params_inv b p :
  CreateSubscription.subscription_params b = Resolved p ->
  CreateSubscription.subscription_metadata b = Resolved (sp_metadata p).
Proof.
  unfold CreateSubscription.subscription_params.
  destruct (json_Number _) as [a|]; [|discriminate].
  destruct (CreateSubscription.subscription_metadata b) as [md|];
    [|discriminate].
  cbn. intros E. injection E as <-. reflexivity.
Qed.

Lemma subscription_metadata_spread b md :
  CreateSubscription.subscription_metadata b = Resolved md ->
  exists o,
    md = spread o
           (own_properties
              (json_default (CreateSubscription.metadata b) (JObject ∅))).
Proof.
  unfold CreateSubscription.subscription_metadata. cbv zeta.
  set (m := json_default (CreateSubscription.metadata b) (JObject ∅)).
  repeat match goal with
  | |- context [mbind _ ?e] =>
      destruct e; cbn [mbind Outcome_bind]; [|discriminate]
  end.
  intros E. injection E as <-. eauto.
Qed.

(** The runs of [POST /create-subscription]. *)
Lemma exec_create_subscription b tr res :
  exec (CreateSubscription.handler b) tr res ->
  let pm := CreateSubscription.paymentMethodId b in
  let cus := CreateSubscription.customerId b in
  let log err :=
    EConsole LogError ["create-subscription error:"; err_message err] in
  let failure err :=
    {| status := 400; res_body := JsonError (err_message err) |} in
  (exists err,
     tr = [EPaymentMethodsAttach pm cus (Rejected err); log err] /\
     res = failure err) \/
  (exists err,
     tr = [EPaymentMethodsAttach pm cus (Resolved tt);
           ECustomersUpdate cus pm (Rejected err); log err] /\
     res = failure err) \/
  (exists err,
     CreateSubscription.subscription_params b = Rejected err /\
     tr = [EPaymentMethodsAttach pm cus (Resolved tt);
           ECustomersUpdate cus pm (Resolved tt); log err] /\
     res = failure err) \/
  (exists p err,
     CreateSubscription.subscription_params b = Resolved p /\
     tr = [EPaymentMethodsAttach pm cus (Resolved tt);
           ECustomersUpdate cus pm (Resolved tt);
           ESubscriptionsCreate p (Rejected err); log err] /\
     res = failure err) \/
  (exists p s,
     CreateSubscription.subscription_params b = Resolved p /\
     tr = [EPaymentMethodsAttach pm cus (Resolved tt);
           ECustomersUpdate cus pm (Resolved tt);
           ESubscriptionsCreate p (Resolved s)] /\
     res = {| status := 200;
              res_body := JsonBody [("subscriptionId", sc_id s);
                                    ("status", sc_status s)] |}).
Proof.
  unfold CreateSubscription.handler, CreateSubscription.failed. intros Hx.
  cbv zeta.
  inversion Hx as [| | | | | | |? ? ? o1 ? ? Hk1| |]; subst; clear Hx.
  destruct o1 as [[]|e1]; [|exec_inv; left; eauto].
  inversion Hk1 as [| | | | | | | |? ? ? o2 ? ? Hk2|]; subst; clear Hk1.
  destruct o2 as [[]|e2]; [|exec_inv; right; left; eauto].
  destruct (CreateSubscription.subscription_params b) as [p|e0];
    [|exec_inv; right; right; left; eauto].
  inversion Hk2 as [| | | | | | | | |? ? o3 ? ? Hk3]; subst; clear Hk2.
  destruct o3 as [s|e3]; exec_inv; right; right; right; [right|left]; eauto.
Qed.

(** C9. In both creation endpoints the client's metadata object is spread
    after the fields the server computes: every key the client sends
    reaches the processor with the client's value, the keys the server
    sets ([frequency], [donor_name], [dedication], [notifyEmail],
    [subscribeToNewsletter], ...) included. *)
Theorem client_metadata_overrides k v :
  (forall b md tr res p o,
     CreatePaymentIntent.metadata b = JObject md -> md !! k = Some v ->
     exec (CreatePaymentIntent.handler b) tr res ->
     In (EPaymentIntentsCreate p o) tr ->
     pi_metadata p !! k = Some v) /\
  (forall b md tr res p o,
     CreateSubscription.metadata b = JObject md -> md !! k = Some v ->
     exec (CreateSubscription.handler b) tr res ->
     In (ESubscriptionsCreate p o) tr ->
     sp_metadata p !! k = Some v).
Proof.
  split; intros b md tr res p o Hmd Hk Hx Hin.
  - assert (CreatePaymentIntent.intent_params b = Resolved p) as Hp.
    { destruct (exec_create_payment_intent b tr res Hx)
        as [(err & _ & -> & _)|(p' & E & [(pi & -> & _)|(err & -> & _)])];
        cbn in Hin;
        repeat match goal with
        | G : _ \/ _ |- _ => destruct G
        | G : False |- _ => destruct G
        end; try discriminate;
        match goal with G : EPaymentIntentsCreate _ _ = _ |- _ =>
          injection G as <- _ end; exact E. }
    apply intent_params_inv in Hp as (m & _ & Hm & ->).
    apply intent_metadata_spread in Hm as (lit & ->).
    apply spread_lookup. rewrite Hmd. exact Hk.
  - assert (CreateSubscription.subscription_params b = Resolved p) as Hp.
    { destruct (exec_create_subscription b tr res Hx)
        as [(e & -> & _)|[(e & -> & _)|[(e & _ & -> & _)
           |[(p' & e & E & -> & _)|(p' & s & E & -> & _)]]]];
        cbn in Hin;
        repeat match goal with
        | G : _ \/ _ |- _ => destruct G
        | G : False |- _ => destruct G
        end; try discriminate;
        match goal with G : ESubscriptionsCreate _ _ = _ |- _ =>
          injection G as <- _ end; exact E. }
    apply subscription_params_inv in Hp.
    apply subscription_metadata_spread in Hp as (lit & ->).
    apply spread_lookup. rewrite Hmd. exact Hk.
Qed.
End Endpoints.
(** ** Binary64 arithmetic on exactly representable integers *)

Lemma digits2_pos_size p : digits2_pos p = Pos.size p.
Proof. induction p; cbn; congruence. Qed.

Lemma Zdigits2_log2 m : 0 < m -> Zdigits2 m = Z.log2 m + 1.
Proof.
  destruct m as [|p|p]; try lia. intros _. cbn [Zdigits2].
  rewrite digits2_pos_size. destruct p; cbn; lia.
Qed.

Lemma Zdigits2_unique m k :
  0 < k -> 2 ^ (k - 1) <= m < 2 ^ k -> Zdigits2 m = k.
Proof.
  intros Hk Hm.
  assert (0 < m) by (pose proof (Z.pow_pos_nonneg 2 (k - 1)); lia).
  rewrite Zdigits2_log2 by assumption.
  rewrite (Z.log2_unique m (k - 1)); [lia|lia|].
  replace (Z.succ (k - 1)) with k by lia. exact Hm.
Qed.

Lemma Zdigits2_bounds m :
  0 < m -> 2 ^ (Zdigits2 m - 1) <= m < 2 ^ Zdigits2 m.
Proof.
  intros Hm. rewrite Zdigits2_log2 by assumption.
  replace (Z.log2 m + 1 - 1) with (Z.log2 m) by lia.
  replace (Z.log2 m + 1) with (Z.succ (Z.log2 m)) by lia.
  apply Z.log2_spec. assumption.
Qed.

Lemma shr_1_even m :
  0 <= m ->
  shr_1 {| shr_m := 2 * m; shr_r := false; shr_s := false |}
  = {| shr_m := m; shr_r := false; shr_s := false |}.
Proof. destruct m; try lia; reflexivity. Qed.

Lemma pow2_xO p : 2 ^ Z.pos p~0 = 2 ^ Z.pos p * 2 ^ Z.pos p.
Proof.
  replace (Z.pos p~0) with (Z.pos p + Z.pos p) by lia.
  apply Z.pow_add_r; lia.
Qed.

Lemma pow2_xI p : 2 ^ Z.pos p~1 = 2 * (2 ^ Z.pos p * 2 ^ Z.pos p).
Proof.
  replace (Z.pos p~1) with (1 + (Z.pos p + Z.pos p)) by lia.
  rewrite !Z.pow_add_r by lia. reflexivity.
Qed.

Lemma iter_shr_1_exact p m :
  0 <= m ->
  SpecFloat.iter_pos shr_1 p
    {| shr_m := m * 2 ^ Z.pos p; shr_r := false; shr_s := false |}
  = {| shr_m := m; shr_r := false; shr_s := false |}.
Proof.
  assert (forall q, 0 < 2 ^ Z.pos q) as Hpow
    by (intros q; apply Z.pow_pos_nonneg; lia).
  revert m. induction p as [p IH|p IH|]; intros m Hm; cbn [SpecFloat.iter_pos];
    try specialize (Hpow p).
  - replace (m * 2 ^ Z.pos p~1) with (2 * ((m * 2 ^ Z.pos p) * 2 ^ Z.pos p))
      by (rewrite pow2_xI; ring).
    rewrite shr_1_even by nia. rewrite IH by nia. apply IH; assumption.
  - replace (m * 2 ^ Z.pos p~0) with ((m * 2 ^ Z.pos p) * 2 ^ Z.pos p)
      by (rewrite pow2_xO; ring).
    rewrite IH by nia. apply IH; assumption.
  - replace (m * 2 ^ 1) with (2 * m) by (change (2 ^ 1) with 2; lia).
    apply shr_1_even; assumption.
Qed.

Lemma fexp_normal e : -1021 <= e -> fexp prec emax e = e - 53.
Proof. unfold fexp, emin, prec, emax. lia. Qed.

(** Rounding a mantissa of 53 digits followed by [p] zero bits is exact. *)
Lemma binary_round_aux_exact m p e :
  0 < m -> Zdigits2 m = 53 -> 0 <= p -> -1074 <= e + p <= 971 ->
  binary_round_aux prec emax false (m * 2 ^ p) e loc_Exact
  = S754_finite false (Z.to_pos m) (e + p).
Proof.
  intros Hm Hd Hp He.
  pose proof (Zdigits2_bounds m Hm) as Hb. rewrite Hd in Hb.
  assert (Zdigits2 (m * 2 ^ p) = 53 + p) as Hdp.
  { apply Zdigits2_unique; [lia|].
    replace (53 + p - 1) with (52 + p) by lia.
    rewrite !Z.pow_add_r by lia.
    pose proof (Z.pow_pos_nonneg 2 p). change (53 - 1) with 52 in Hb. nia. }
  unfold binary_round_aux.
  assert (shr_fexp prec emax (m * 2 ^ p) e loc_Exact
          = ({| shr_m := m; shr_r := false; shr_s := false |}, e + p)) as ->.
  { unfold shr_fexp. rewrite Hdp, fexp_normal by lia.
    replace (53 + p + e - 53 - e) with p by lia.
    cbn [shr_record_of_loc]. unfold shr.
    destruct p as [|p|p]; try lia.
    - rewrite Z.mul_1_r, Z.add_0_r. reflexivity.
    - rewrite iter_shr_1_exact by lia. reflexivity. }
  cbn [shr_m loc_of_shr_record round_nearest_even].
  assert (shr_fexp prec emax m (e + p) loc_Exact
          = ({| shr_m := m; shr_r := false; shr_s := false |}, e + p)) as ->.
  { unfold shr_fexp. rewrite Hd, fexp_normal by lia.
    replace (53 + (e + p) - 53 - (e + p)) with 0 by lia. reflexivity. }
  cbn [shr_m]. destruct m; try lia.
  unfold emax, prec. destruct (Z.leb_spec (e + p) (1024 - 53)); [reflexivity|lia].
Qed.

Lemma iter_xO p k : Z.pos (Pos.iter xO p k) = Z.pos p * 2 ^ Z.pos k.
Proof.
  induction k as [|k IH] using Pos.peano_ind.
  - cbn. lia.
  - rewrite Pos.iter_succ, Pos2Z.inj_xO, IH, Pos2Z.inj_succ, Z.pow_succ_r by lia.
    ring.
Qed.

Lemma shl_align_fst mx ex ex' :
  ex' <= ex ->
  Z.pos (shl_align mx ex ex').1 = Z.pos mx * 2 ^ (ex - ex') /\
  (shl_align mx ex ex').2 = ex'.
Proof.
  intros Hle. unfold shl_align.
  destruct (ex' - ex) as [|d|d] eqn:Hd; try lia; cbn [fst snd].
  - replace (ex - ex') with 0 by lia. split; lia.
  - rewrite iter_xO. replace (ex - ex') with (Z.pos d) by lia. split; lia.
Qed.

Lemma shl_align_ge mx ex ex' : ex <= ex' -> shl_align mx ex ex' = (mx, ex).
Proof.
  intros Hle. unfold shl_align. destruct (ex' - ex) eqn:Hd; try lia; reflexivity.
Qed.

Lemma canonical_digits n d :
  0 < d <= 53 -> 2 ^ (d - 1) <= n < 2 ^ d ->
  0 < n * 2 ^ (53 - d) /\ Zdigits2 (n * 2 ^ (53 - d)) = 53 /\
  2 ^ 52 <= n * 2 ^ (53 - d) < 2 ^ 53.
Proof.
  intros Hd Hn.
  assert (2 ^ 52 <= n * 2 ^ (53 - d) < 2 ^ 53) as Hb.
  { assert (2 ^ 52 = 2 ^ (d - 1) * 2 ^ (53 - d)) as ->
      by (rewrite <- Z.pow_add_r by lia; f_equal; lia).
    assert (2 ^ 53 = 2 ^ d * 2 ^ (53 - d)) as ->
      by (rewrite <- Z.pow_add_r by lia; f_equal; lia).
    assert (0 < 2 ^ (53 - d)) by (apply Z.pow_pos_nonneg; lia). nia. }
  split; [lia|]. split; [|exact Hb].
  apply Zdigits2_unique; [lia|exact Hb].
Qed.

(** Normalising an integer of at most 53 bits written with [j] trailing
    zero bits gives its canonical form. *)
Lemma binary_normalize_int n d j :
  0 < d <= 53 -> 2 ^ (d - 1) <= n < 2 ^ d -> 0 <= j <= 1000 ->
  binary_normalize prec emax (n * 2 ^ j) (- j) false = canonical n d.
Proof.
  intros Hd Hn Hj.
  destruct (canonical_digits n d Hd Hn) as (Hpos & Hdig & Hb).
  assert (0 < 2 ^ j) as Hpj by (apply Z.pow_pos_nonneg; lia).
  assert (0 < n) as Hn0 by (pose proof (Z.pow_pos_nonneg 2 (d - 1)); lia).
  assert (Zdigits2 (n * 2 ^ j) = d + j) as Hdj.
  { apply Zdigits2_unique; [lia|].
    replace (d + j - 1) with ((d - 1) + j) by lia.
    rewrite !Z.pow_add_r by lia. nia. }
  destruct (n * 2 ^ j) as [|s|s] eqn:Hs; try nia.
  unfold binary_normalize, binary_round.
  change (Z.pos (digits2_pos s)) with (Zdigits2 (Z.pos s)).
  rewrite Hdj, fexp_normal by lia.
  replace (d + j + - j - 53) with (d - 53) by lia.
  destruct (Z.le_gt_cases (- j) (d - 53)) as [Hle|Hgt].
  - rewrite shl_align_ge by lia. rewrite <- Hs.
    replace (n * 2 ^ j) with ((n * 2 ^ (53 - d)) * 2 ^ (d + j - 53)).
    + rewrite binary_round_aux_exact by (try assumption; lia).
      unfold canonical. f_equal. lia.
    + rewrite <- Z.mul_assoc, <- Z.pow_add_r by lia. do 2 f_equal. lia.
  - destruct (shl_align_fst s (- j) (d - 53) ltac:(lia)) as [Hm He].
    destruct (shl_align s (- j) (d - 53)) as [mz ez]. cbn [fst snd] in Hm, He.
    subst ez. rewrite Hm, <- Hs.
    replace (n * 2 ^ j * 2 ^ (- j - (d - 53)))
      with ((n * 2 ^ (53 - d)) * 2 ^ 0).
    + rewrite binary_round_aux_exact by (try assumption; lia).
      unfold canonical. f_equal. lia.
    + change (2 ^ 0) with 1.
      rewrite Z.mul_1_r, <- Z.mul_assoc, <- Z.pow_add_r by lia.
      do 2 f_equal. lia.
Qed.

Lemma of_Z_canonical n d :
  0 < d <= 53 -> 2 ^ (d - 1) <= n < 2 ^ d -> of_Z n = canonical n d.
Proof.
  intros Hd Hn. unfold of_Z.
  rewrite <- (binary_normalize_int n d 0) by (try assumption; lia).
  change (2 ^ 0) with 1. rewrite Z.mul_1_r. reflexivity.
Qed.

(** Every positive integer has a number of bits. *)
Lemma bits_of n : 0 < n -> exists d, 0 < d /\ 2 ^ (d - 1) <= n < 2 ^ d.
Proof.
  intros Hn. exists (Z.log2 n + 1).
  pose proof (Z.log2_nonneg n). pose proof (Z.log2_spec n Hn) as Hs.
  replace (Z.log2 n + 1 - 1) with (Z.log2 n) by lia.
  replace (Z.log2 n + 1) with (Z.succ (Z.log2 n)) by lia.
  split; [lia|exact Hs].
Qed.

Lemma bits_le n d k : 2 ^ (d - 1) <= n -> n < 2 ^ k -> 0 <= k -> d <= k.
Proof.
  intros H1 H2 Hk. destruct (Z.le_gt_cases d k) as [|Hgt]; [assumption|].
  assert (2 ^ k <= 2 ^ (d - 1)) by (apply Z.pow_le_mono_r; lia). lia.
Qed.

(** [Number(base) + 30] is exact as long as the sum has 53 bits. *)
Lemma add_30_exact b :
  0 <= b -> b + 30 < 2 ^ 53 -> add (of_Z b) (of_Z 30) = of_Z (b + 30).
Proof.
  intros Hb Hlt.
  destruct (Z.eq_dec b 0) as [->|Hnz]; [reflexivity|].
  destruct (bits_of b ltac:(lia)) as (db & Hdb & Hbb).
  destruct (bits_of (b + 30) ltac:(lia)) as (ds & Hds & Hbs).
  assert (db <= 53) by (apply (bits_le b); lia).
  assert (ds <= 53) by (apply (bits_le (b + 30)); lia).
  rewrite (of_Z_canonical b db), (of_Z_canonical (b + 30) ds) by (try assumption; lia).
  change (of_Z 30) with (S754_finite false 8444249301319680 (-48)).
  destruct (canonical_digits b db ltac:(lia) Hbb) as (Hpos & _ & _).
  unfold canonical at 1. unfold add, SFadd.
  set (j := - Z.min (db - 53) (-48)).
  replace (Z.min (db - 53) (-48)) with (- j) by lia.
  destruct (shl_align_fst (Z.to_pos (b * 2 ^ (53 - db))) (db - 53) (- j) ltac:(lia))
    as [H1 _].
  destruct (shl_align_fst 8444249301319680 (-48) (- j) ltac:(lia)) as [H2 _].
  cbn [cond_Zopp]. rewrite H1, H2, Z2Pos.id by assumption.
  replace (b * 2 ^ (53 - db) * 2 ^ (db - 53 - - j)
           + 8444249301319680 * 2 ^ (-48 - - j)) with ((b + 30) * 2 ^ j).
  - apply binary_normalize_int; lia.
  - change 8444249301319680 with (30 * 2 ^ 48).
    rewrite <- !Z.mul_assoc, <- !Z.pow_add_r by lia.
    replace (53 - db + (db - 53 - - j)) with j by lia.
    replace (48 + (-48 - - j)) with j by lia. ring.
Qed.

(** ** The division by [1 - 0.029] *)

(** The literal [0.029] is read as the binary64 number nearest to 29/1000:
    it lies within half a unit in the last place, 2^-59, of it. *)
Lemma lit_0_029_nearest :
  lit_0_029 = S754_finite false 8358680908399641 (-58) /\
  valid_binary prec emax lit_0_029 = true /\
  2 * Z.abs (1000 * 8358680908399641 - 29 * 2 ^ 58) <= 1000.
Proof. split; [reflexivity|]. split; [reflexivity|]. vm_compute. discriminate. Qed.

Lemma denominator_eq :
  sub (of_Z 1) lit_0_029 = S754_finite false 8745990476353503 (-53).
Proof. vm_compute. reflexivity. Qed.

(** The denominator falls short of 0.971 by 232 / (1000 * 2^53). *)
Lemma denominator_value : 1000 * D = 971 * 2 ^ 53 - 232.
Proof. reflexivity. Qed.

Lemma shr_fexp_53 m e l :
  Zdigits2 m = 53 -> -1074 <= e ->
  shr_fexp prec emax m e l = (shr_record_of_loc m l, e).
Proof.
  intros Hd He. unfold shr_fexp. rewrite Hd, fexp_normal by lia.
  replace (53 + e - 53 - e) with 0 by lia. reflexivity.
Qed.

Lemma shr_fexp_54 m e l :
  Zdigits2 m = 54 -> -1074 <= e ->
  shr_fexp prec emax m e l = (shr_1 (shr_record_of_loc m l), e + 1).
Proof.
  intros Hd He. unfold shr_fexp. rewrite Hd, fexp_normal by lia.
  replace (54 + e - 53 - e) with 1 by lia. reflexivity.
Qed.

Lemma shr_record_of_loc_m m l : shr_m (shr_record_of_loc m l) = m.
Proof. destruct l as [|[]]; reflexivity. Qed.

Lemma loc_of_shr_record_of_loc m l :
  loc_of_shr_record (shr_record_of_loc m l) = l.
Proof. destruct l as [|[]]; reflexivity. Qed.

Lemma shr_1_spec m r s :
  0 <= m ->
  shr_1 {| shr_m := m; shr_r := r; shr_s := s |}
  = {| shr_m := m / 2; shr_r := Z.odd m; shr_s := r || s |}.
Proof.
  intros Hm. destruct m as [|[p|p|]|p]; try lia; cbn [shr_1 Z.odd]; f_equal.
  - apply (Z.div_unique_pos _ _ _ 1); lia.
  - apply (Z.div_unique_pos _ _ _ 0); lia.
Qed.

(** Rounding a mantissa of 53 bits with the location of the discarded
    part. *)
Lemma binary_round_aux_53 m e l :
  Zdigits2 m = 53 -> -1074 <= e <= 971 ->
  0 < round_nearest_even m l ->
  Zdigits2 (round_nearest_even m l) = 53 ->
  binary_round_aux prec emax false m e l
  = S754_finite false (Z.to_pos (round_nearest_even m l)) e.
Proof.
  intros Hd He Hpos HdM. unfold binary_round_aux.
  rewrite shr_fexp_53 by (try assumption; lia).
  rewrite shr_record_of_loc_m, loc_of_shr_record_of_loc.
  rewrite shr_fexp_53 by (try assumption; lia).
  cbn [shr_record_of_loc shr_m].
  destruct (round_nearest_even m l); try lia.
  unfold emax, prec. destruct (Z.leb_spec e (1024 - 53)); [reflexivity|lia].
Qed.

(** Rounding a mantissa of 54 bits: one bit goes to the location. *)
Lemma binary_round_aux_54 m e l :
  0 < m -> Zdigits2 m = 54 -> -1074 <= e <= 970 ->
  let l' := loc_of_shr_record
              {| shr_m := m / 2; shr_r := Z.odd m;
                 shr_s := match l with loc_Exact => false | _ => true end |} in
  0 < round_nearest_even (m / 2) l' ->
  Zdigits2 (round_nearest_even (m / 2) l') = 53 ->
  binary_round_aux prec emax false m e l
  = S754_finite false (Z.to_pos (round_nearest_even (m / 2) l')) (e + 1).
Proof.
  intros Hm Hd He l' Hpos HdM. unfold binary_round_aux.
  rewrite shr_fexp_54 by (try assumption; lia).
  assert (shr_1 (shr_record_of_loc m l)
          = {| shr_m := m / 2; shr_r := Z.odd m;
               shr_s := match l with loc_Exact => false | _ => true end |}) as ->.
  { destruct l as [|[]]; cbn [shr_record_of_loc];
      rewrite shr_1_spec by lia; reflexivity. }
  cbn [shr_m]. fold l'.
  rewrite shr_fexp_53 by (try assumption; lia).
  cbn [shr_record_of_loc shr_m].
  destruct (round_nearest_even (m / 2) l'); try lia.
  unfold emax, prec. destruct (Z.leb_spec (e + 1) (1024 - 53)); [reflexivity|lia].
Qed.

(** The quotient of a 53-bit mantissa by the denominator is a nearest
    binary64 number: its mantissa [M], at the scale [s] of the result,
    is within half a unit of the exact quotient. *)
Lemma div_nearest mx ex :
  Zdigits2 (Z.pos mx) = 53 -> -52 <= ex <= -2 ->
  exists M s,
    div (S754_finite false mx ex) (sub (of_Z 1) lit_0_029)
    = S754_finite false (Z.to_pos M) (ex + s - 1) /\
    0 < M /\
    ((s = 1 /\ Z.pos mx < D) \/ (s = 2 /\ D <= Z.pos mx)) /\
    2 * Z.abs (M * s * D - Z.pos mx * 2 ^ 53) <= s * D.
Proof.
  intros Hd He. rewrite denominator_eq.
  pose proof (Zdigits2_bounds (Z.pos mx) ltac:(lia)) as Hb. rewrite Hd in Hb.
  change (53 - 1) with 52 in Hb.
  unfold div, SFdiv, SFdiv_core_binary.
  rewrite Hd. change (Zdigits2 (Z.pos 8745990476353503)) with 53.
  replace (53 + ex - (53 + -53)) with (53 + ex) by lia.
  rewrite fexp_normal by lia.
  replace (Z.min (53 + ex - 53) (ex - -53)) with ex by lia.
  replace (ex - -53 - ex) with 53 by lia.
  rewrite Z.shiftl_mul_pow2 by lia.
  pose proof (Z_div_mod (Z.pos mx * 2 ^ 53) 8745990476353503 ltac:(lia)) as Hdm.
  destruct (Z.div_eucl (Z.pos mx * 2 ^ 53) (Z.pos 8745990476353503)) as [Q R].
  destruct Hdm as [Hdm HR]. cbn [xorb].
  unfold D.
  assert (2 ^ 52 <= Q < 2 ^ 54) as HQ by lia.
  unfold new_location. change (Z.even 8745990476353503) with false. cbv iota.
  unfold new_location_odd.
  destruct (Z.lt_ge_cases Q (2 ^ 53)) as [Hlt|Hge].
  - (* the quotient has 53 bits *)
    assert (Zdigits2 Q = 53) as HdQ by (apply Zdigits2_unique; lia).
    set (l := if R =? 0 then loc_Exact else _).
    assert (round_nearest_even Q l = Q /\ 2 * R <= 8745990476353503 \/
            round_nearest_even Q l = Q + 1 /\ 8745990476353503 <= 2 * R) as HM.
    { subst l. destruct (Z.eqb_spec R 0); [left; cbn; lia|].
      destruct (Z.compare_spec (2 * R + 1) 8745990476353503);
        cbn [round_nearest_even]; [left|left|right]; lia. }
    assert (2 ^ 52 <= round_nearest_even Q l < 2 ^ 53) as HMb by lia.
    exists (round_nearest_even Q l), 1.
    split; [|split; [lia|split; [left; lia|lia]]].
    replace (ex + 1 - 1) with ex by lia.
    apply binary_round_aux_53; try lia. apply Zdigits2_unique; lia.
  - (* the quotient has 54 bits *)
    assert (Zdigits2 Q = 54) as HdQ by (apply Zdigits2_unique; lia).
    set (l := if R =? 0 then loc_Exact else _).
    pose (l' := loc_of_shr_record
              {| shr_m := Q / 2; shr_r := Z.odd Q;
                 shr_s := match l with loc_Exact => false | _ => true end |}).
    pose proof (Z.div_mod Q 2 ltac:(lia)) as HQ2.
    pose proof (Z.mod_pos_bound Q 2 ltac:(lia)) as HQm.
    assert (Z.odd Q = negb (Q mod 2 =? 0)) as Hodd.
    { rewrite Zmod_odd. destruct (Z.odd Q); reflexivity. }
    assert (round_nearest_even (Q / 2) l' = Q / 2 /\ Q mod 2 = 0 \/
            round_nearest_even (Q / 2) l' = Q / 2 + 1 /\ Q mod 2 = 1 /\ R <> 0)
      as HM.
    { subst l' l. rewrite Hodd.
      destruct (Z.eqb_spec (Q mod 2) 0) as [E0|N0]; cbn [negb].
      - left. destruct (R =? 0); [|destruct (2 * R + 1 ?= 8745990476353503)];
          cbn; lia.
      - destruct (Z.eqb_spec R 0) as [ER|NR]; [exfalso; lia|].
        right. destruct (2 * R + 1 ?= 8745990476353503); cbn; lia. }
    assert (2 ^ 52 <= round_nearest_even (Q / 2) l' < 2 ^ 53) as HMb by lia.
    exists (round_nearest_even (Q / 2) l'), 2.
    split; [|split; [lia|split; [right; lia|lia]]].
    replace (ex + 2 - 1) with (ex + 1) by lia.
    apply binary_round_aux_54; fold l'; try lia. apply Zdigits2_unique; lia.
Qed.

(** ** The specification's two wordings agree, in exact arithmetic *)

Lemma spec_covers_iff base g :
  spec_covers base g <-> 1000 * base + 30000 <= 971 * g.
Proof.
  unfold spec_covers, spec_net, Qle, Qminus, Qplus, Qmult, Qopp, inject_Z.
  cbn [Qnum Qden]. lia.
Qed.

Lemma spec_gross_eq base : spec_gross base = (1000 * (base + 30) + 970) / 971.
Proof.
  unfold spec_gross.
  change ((inject_Z base + 30) / (1 - (29 # 1000)))%Q
    with ((inject_Z base + 30) * (1000 # 971))%Q.
  unfold Qceiling, Qfloor, Qmult, Qplus, Qopp, inject_Z. cbn [Qnum Qden].
  change (Z.pos (1 * 1 * 971)%positive) with 971.
  Z.div_mod_to_equations. lia.
Qed.

Lemma spec_gross_smallest base : spec_smallest_gross base (spec_gross base).
Proof.
  unfold spec_smallest_gross. rewrite spec_gross_eq. split.
  - apply spec_covers_iff. Z.div_mod_to_equations. lia.
  - intros g' Hg'. apply spec_covers_iff in Hg'. Z.div_mod_to_equations. lia.
Qed.

(** ** The amount calculator on Numbers *)

Lemma Math_ceil_finite M E :
  0 < M -> E < 0 ->
  Math_ceil (S754_finite false (Z.to_pos M) E)
  = of_Z (if M mod 2 ^ (- E) =? 0 then M / 2 ^ (- E) else M / 2 ^ (- E) + 1).
Proof.
  intros HM HE. unfold Math_ceil.
  destruct (Z.leb_spec 0 E); [lia|]. rewrite Z2Pos.id by assumption. reflexivity.
Qed.

(** The integer arithmetic behind the rounding: a mantissa within half a
    unit of [a * 2^53 / D], at a scale [P] of 2^9 at least, lies in the last
    interval of length [P] that ends on a multiple [n * P] with
    [971 * n >= 1000 * x]. *)
Lemma nearest_in_interval M a P n x :
  512 <= P -> a = x * P -> 0 < a < 2 ^ 53 ->
  971 * (n - 1) < 1000 * x <= 971 * n ->
  2 * Z.abs (M * D - a * 2 ^ 53) <= D ->
  (n - 1) * P < M <= n * P.
Proof.
  unfold D. intros HP Ha Hab Hn Hnear.
  assert ((971 * (n - 1) + 1) * P <= 1000 * x * P) as HA
    by (apply Z.mul_le_mono_nonneg_r; lia).
  assert (1000 * x * P <= 971 * n * P) as HB
    by (apply Z.mul_le_mono_nonneg_r; lia).
  assert (P <= a) as HPa.
  { destruct (Z.le_gt_cases x 0) as [Hx|Hx].
    - pose proof (Z.mul_nonpos_nonneg x P Hx ltac:(lia)). lia.
    - replace P with (1 * P) at 1 by ring. subst a.
      apply Z.mul_le_mono_nonneg_r; lia. }
  replace ((971 * (n - 1) + 1) * P) with (971 * (n * P) - 970 * P) in HA by ring.
  replace (1000 * x * P) with (1000 * a) in HA, HB by (subst a; ring).
  replace (971 * n * P) with (971 * (n * P)) in HB by ring.
  replace ((n - 1) * P) with (n * P - P) by ring.
  clear Ha Hn. generalize dependent (n * P). intros B HA HB.
  change (2 ^ 53) with 9007199254740992 in *.
  destruct (Z.abs_spec (M * 8745990476353503 - a * 9007199254740992))
    as [[Hs E]|[Hs E]]; rewrite E in Hnear; clear E; lia.
Qed.

Lemma ceil_in_interval M P n :
  0 < P -> (n - 1) * P < M <= n * P ->
  (if M mod P =? 0 then M / P else M / P + 1) = n.
Proof.
  intros HP HM.
  pose proof (Z.div_mod M P ltac:(lia)) as Hdm.
  pose proof (Z.mod_pos_bound M P HP) as Hr.
  generalize dependent (M / P). generalize dependent (M mod P).
  intros r Hr q Hdm. subst M.
  assert (n - 1 <= q) as H1.
  { apply Z.lt_succ_r. apply (Z.mul_lt_mono_pos_r P); [assumption|].
    replace (Z.succ q * P) with (P * q + P) by ring. lia. }
  assert (q <= n) as H2.
  { apply (Z.mul_le_mono_pos_r _ _ P); [assumption|].
    replace (q * P) with (P * q) by ring. lia. }
  destruct (Z.eqb_spec r 0) as [E0|N0].
  - subst r. destruct (Z.eq_dec q n); [assumption|].
    assert (q = n - 1) as -> by lia. exfalso.
    replace (P * (n - 1) + 0) with ((n - 1) * P) in HM by ring. lia.
  - destruct (Z.eq_dec q (n - 1)); [lia|].
    assert (q = n) as -> by lia. exfalso.
    replace (P * n + r) with (n * P + r) in HM by ring. lia.
Qed.

Lemma float_eq_dec (x y : float) : {x = y} + {x <> y}.
Proof.
  decide equality; try apply Z.eq_dec; try apply Pos.eq_dec; apply Bool.bool_dec.
Defined.

(** The amounts between the last one the general argument reaches and the
    first one at which the rounding goes wrong, checked one by one. *)
Lemma gross_last_amounts `{Runtime} base :
  17082012649098 <= base < 17082012649732 ->
  computeGrossCents (JNum (of_Z base)) (JBool true) = of_Z (spec_gross base).
Proof.
  intros Hb.
  assert (forallb
            (fun i => let b := 17082012649098 + Z.of_nat i in
               if float_eq_dec
                    (Math_ceil (div (add (of_Z b) (of_Z 30))
                                    (sub (of_Z 1) lit_0_029)))
                    (of_Z (spec_gross b))
               then true else false)
            (seq 0 634) = true) as Hall by (vm_compute; reflexivity).
  rewrite forallb_forall in Hall.
  specialize (Hall (Z.to_nat (base - 17082012649098))).
  cbv zeta in Hall.
  replace (17082012649098 + Z.of_nat (Z.to_nat (base - 17082012649098)))
    with base in Hall by lia.
  destruct (float_eq_dec _ _) as [E|]; [exact E|].
  discriminate Hall. apply in_seq. lia.
Qed.

Lemma pow2_ge a b : 0 <= a <= b -> 2 ^ a <= 2 ^ b.
Proof. intros. apply Z.pow_le_mono_r; lia. Qed.

(** C6 (amended). With the donor covering the fees, for every base amount
    below 17 082 012 649 732 minor units the result is the smallest integer
    [g] such that [g] minus 2.9% of [g] and 30 is at least the base amount,
    which is [ceil((base + 30) / (1 - 0.029))] in exact arithmetic. *)
Theorem gross_covers_fees `{Runtime} base :
  0 <= base < 17082012649732 ->
  computeGrossCents (JNum (of_Z base)) (JBool true) = of_Z (spec_gross base) /\
  spec_smallest_gross base (spec_gross base).
Proof.
  intros [Hb0 Hb1]. split; [|apply spec_gross_smallest].
  destruct (Z_lt_le_dec base 17082012649098) as [Hsmall|Hbig];
    [|apply gross_last_amounts; lia].
  unfold computeGrossCents. cbn [truthy negb Number].
  rewrite add_30_exact by lia.
  set (x := base + 30).
  destruct (bits_of x ltac:(lia)) as (dx & Hdx & Hbx).
  assert (dx <= 44) as Hdx44 by (apply (bits_le x); lia).
  assert (5 <= dx) as Hdx5.
  { destruct (Z.le_gt_cases 5 dx); [assumption|].
    pose proof (pow2_ge dx 4 ltac:(lia)). change (2 ^ 4) with 16 in *. lia. }
  rewrite (of_Z_canonical x dx) by (try assumption; lia). unfold canonical.
  destruct (canonical_digits x dx ltac:(lia) Hbx) as (Hpos & Hdig & Hmb).
  destruct (div_nearest (Z.to_pos (x * 2 ^ (53 - dx))) (dx - 53))
    as (M & s & Hdiv & HM & Hs & Hnear);
    [rewrite Z2Pos.id by assumption; exact Hdig | lia |].
  rewrite Z2Pos.id in Hs, Hnear by assumption.
  rewrite Hdiv, Math_ceil_finite by (try assumption; lia).
  f_equal. rewrite spec_gross_eq.
  set (P := 2 ^ (- (dx - 53 + s - 1))).
  assert (x * 2 ^ (53 - dx) = x * P * s /\ 512 <= P) as [Hmx HP].
  { subst P. destruct Hs as [[-> Hlt]|[-> Hge]].
    - replace (- (dx - 53 + 1 - 1)) with (53 - dx) by lia.
      split; [ring|]. apply (pow2_ge 9); lia.
    - replace (- (dx - 53 + 2 - 1)) with (52 - dx) by lia.
      replace (53 - dx) with (Z.succ (52 - dx)) in * by lia.
      rewrite Z.pow_succ_r in * by lia. split; [ring|].
      assert (dx <> 44) as Hne.
      { intros ->. change (2 ^ (52 - 44)) with 256 in Hge. unfold D in Hge. lia. }
      apply (pow2_ge 9); lia. }
  apply ceil_in_interval; [lia|].
  apply (nearest_in_interval M (x * P) P _ x).
  - exact HP.
  - reflexivity.
  - rewrite Hmx in Hmb. destruct Hs as [[-> _]|[-> _]]; nia.
  - Z.div_mod_to_equations. lia.
  - rewrite Hmx in Hnear.
    replace (M * s * D - x * P * s * 2 ^ 53)
      with (s * (M * D - x * P * 2 ^ 53)) in Hnear by ring.
    rewrite Z.abs_mul in Hnear.
    destruct Hs as [[-> _]|[-> _]]; cbn [Z.abs] in Hnear; lia.
Qed.

(** ** The amount calculator: the stated values *)

(** C1. Without fee coverage the amount calculator returns the base amount
    unchanged, for every non-negative integer amount; with coverage,
    [computeGrossCents(1000, true)] is 1061 and [computeGrossCents(0, true)]
    is 31. *)
Theorem computeGrossCents_values `{Runtime} (n : Z) :
  0 <= n ->
  computeGrossCents (JNum (of_Z n)) (JBool false) = of_Z n /\
  computeGrossCents (JNum (of_Z 1000)) (JBool true) = of_Z 1061 /\
  computeGrossCents (JNum (of_Z 0)) (JBool true) = of_Z 31.
Proof.
  intros _. split; [reflexivity|]. split; vm_compute; reflexivity.
Qed.

Lemma computeGrossCents_values_witness :
  0 <= 2500 /\
  (@computeGrossCents sample_runtime (JNum (of_Z 2500)) (JBool false)
     = of_Z 2500 /\
   @computeGrossCents sample_runtime (JNum (of_Z 1000)) (JBool true)
     = of_Z 1061 /\
   @computeGrossCents sample_runtime (JNum (of_Z 0)) (JBool true)
     = of_Z 31).
Proof.
  split; [lia|]. apply (@computeGrossCents_values sample_runtime 2500). lia.
Defined.

(** Without coverage the result is the Number it was given, whichever. *)
Lemma computeGrossCents_identity `{Runtime} (x : float) :
  computeGrossCents (JNum x) (JBool false) = x.
Proof. reflexivity. Qed.

(** ** Sample executions *)

Lemma gross_covers_fees_witness :
  0 <= 1000 < 17082012649732 /\
  (@computeGrossCents sample_runtime (JNum (of_Z 1000)) (JBool true)
     = of_Z (spec_gross 1000) /\
   spec_smallest_gross 1000 (spec_gross 1000)).
Proof.
  split; [lia|]. apply (@gross_covers_fees sample_runtime 1000). lia.
Defined.

(** C6, as stated, fails at 17 082 012 649 732: the binary64 quotient
    rounds down to the integer below the exact one, and the result no
    longer covers the base amount. *)
Lemma gross_covers_fees_fails :
  @computeGrossCents sample_runtime (JNum (of_Z 17082012649732)) (JBool true)
    = of_Z 17592186045069 /\
  spec_gross 17082012649732 = 17592186045070 /\
  of_Z 17592186045069 <> of_Z 17592186045070 /\
  ~ spec_covers 17082012649732 17592186045069.
Proof.
  split; [vm_compute; reflexivity|]. split; [vm_compute; reflexivity|].
  split; [vm_compute; discriminate|].
  rewrite spec_covers_iff. lia.
Qed.

Lemma webhook_signature_failure_witness :
  let w := sample_world (Rejected sample_error) (Resolved tt) in
  let r := run w (@webhook sample_runtime sample_env sample_request) in
  r.2 = {| status := 400;
           res_body := TextBody ("Webhook Error: " +:+ err_message sample_error) |} /\
  sends r.1 = [] /\ lookups r.1 = [] /\
  r.1 = [EConsole LogInfo ["🔔 Webhook received!"];
         EConstructEvent (body sample_request)
           (headers sample_request !! "stripe-signature")
           (sample_env !! "STRIPE_WEBHOOK_SECRET") (Rejected sample_error);
         EConsole LogError
           ["⚠️ Webhook signature verification failed:";
            err_message sample_error]].
Proof.
  cbv zeta.
  apply (@webhook_signature_failure sample_runtime sample_env sample_request
           _ _ sample_error (exec_run _ _)).
  vm_compute. reflexivity.
Defined.

Lemma payment_intent_of_invoice_skipped_witness :
  let ev := sample_payment_intent "monthly" (JStr "in_1") in
  let w := sample_world (Resolved ev) (Resolved tt) in
  let r := run w (@webhook sample_runtime sample_env sample_request) in
  r.2 = OK /\ sends r.1 = [].
Proof.
  cbv zeta.
  apply (@payment_intent_of_invoice_skipped sample_runtime sample_env
           sample_request _ _ (sample_payment_intent "monthly" (JStr "in_1"))
           (exec_run _ _)).
  - vm_compute. reflexivity.
  - reflexivity.
  - reflexivity.
Defined.

Lemma no_api_key_no_send_witness :
  let ev := sample_checkout "monthly" in
  let w := sample_world (Resolved ev) (Resolved tt) in
  let r := run w (@webhook sample_runtime sample_env_no_key sample_request) in
  sends r.1 = [] /\ r.2 = OK.
Proof.
  cbv zeta.
  apply (@no_api_key_no_send sample_runtime sample_env_no_key sample_request
           _ _ (sample_checkout "monthly") (exec_run _ _)).
  - vm_compute. reflexivity.
  - vm_compute. reflexivity.
Defined.

(** A delivery in which SendGrid rejects every send: both messages were
    handed over all the same, each rejection has its log line, and the
    response is 200. *)
Lemma sends_independent_witness :
  let ev := sample_checkout "monthly" in
  let w := sample_world (Resolved ev) (Rejected sample_error) in
  let r := run w (@webhook sample_runtime sample_env sample_request) in
  length (sends r.1) = 2%nat /\
  (r.2 = OK /\
   failures_logged r.1 /\
   (forall tr' res',
      exec (@webhook sample_runtime sample_env sample_request) tr' res' ->
      verified tr' ev -> lookups tr' = lookups r.1 ->
      sends tr' = sends r.1 /\ res' = r.2) /\
   (sendgrid_configured sample_env = true ->
    internal_configured sample_env = true -> notifying ev ->
    exists m, In m (sends r.1) /\ is_donor_message m = false)).
Proof.
  cbv zeta. split; [vm_compute; reflexivity|].
  apply (@sends_independent sample_runtime sample_env sample_request
           _ _ (sample_checkout "monthly") (exec_run _ _)).
  vm_compute. reflexivity.
Defined.


Lemma donor_subject_by_path_witness :
  let ev := sample_checkout "monthly" in
  let w := sample_world (Resolved ev) (Resolved tt) in
  let r := run w (@webhook sample_runtime sample_env sample_request) in
  donor_subjects r.1 = ["Thank you for your monthly donation!"] /\
  (forall m o, In (ESend m o) r.1 -> is_donor_message m = true ->
     msg_subject m = "Thank you for your monthly donation!").
Proof.
  cbv zeta. split; [vm_compute; reflexivity|].
  intros m o Hin Hd.
  assert (verified
            (run (sample_world (Resolved (sample_checkout "monthly")) (Resolved tt))
                 (@webhook sample_runtime sample_env sample_request)).1
            (sample_checkout "monthly")) as Hv by (vm_compute; reflexivity).
  destruct (@donor_subject_by_path sample_runtime sample_env sample_request
              _ _ (sample_checkout "monthly") m o
              (exec_run (sample_world (Resolved (sample_checkout "monthly"))
                                      (Resolved tt)) _)
              Hv Hin Hd)
    as [(_ & Hs & _)|[(Ht & _)|(Ht & _)]].
  - vm_compute in Hs. exact Hs.
  - vm_compute in Ht. discriminate Ht.
  - vm_compute in Ht. discriminate Ht.
Defined.

(** C7, as stated, fails on the payment-intent path: the donor subject is
    the same whether the metadata says one_time or monthly. *)
Lemma donor_subject_same_on_payment_intent :
  let subjects frequency :=
    donor_subjects
      (run (sample_world (Resolved (sample_payment_intent frequency JNull))
                         (Resolved tt))
           (@webhook sample_runtime sample_env sample_request)).1 in
  subjects "one_time" = ["Thank you for your donation!"] /\
  subjects "monthly" = ["Thank you for your donation!"].
Proof. vm_compute. split; reflexivity. Qed.

Lemma charged_total_witness :
  let w := sample_world (Rejected sample_error) (Resolved tt) in
  let r := run w (@CreatePaymentIntent.handler sample_runtime
                    (sample_intent_body 1000 500 true)) in
  let r0 := run w (@CreatePaymentIntent.handler sample_runtime
                     sample_intent_body_null_metadata) in
  let r1 := run w (@CreatePaymentIntent.handler sample_runtime
                     sample_intent_body_unconvertible) in
  charged r.1 = [of_Z 1061] /\
  (charged r0.1 = [] /\ status r0.2 = 400) /\
  (charged r1.1 = [] /\ status r1.2 = 400).
Proof.
  cbv zeta. split; [|split].
  - destruct (@charged_total sample_runtime (sample_intent_body 1000 500 true)
                _ _ (exec_run (sample_world (Rejected sample_error)
                                 (Resolved tt)) _))
      as (_ & _ & _ & Hprim & _).
    destruct (Hprim (<["base_amount_cents" := JNum (of_Z 1000)]>
                       (<["frequency" := JStr "monthly"]> ∅))
                    (JNum (of_Z 500))) as [Hc _].
    + vm_compute. reflexivity.
    + reflexivity.
    + rewrite Hc. vm_compute. reflexivity.
  - destruct (@charged_total sample_runtime sample_intent_body_null_metadata
                _ _ (exec_run (sample_world (Rejected sample_error)
                                 (Resolved tt)) _))
      as (Hthrow & Hnull & _).
    destruct (Hthrow _ (Hnull eq_refl)) as [Hc Hr].
    split; [exact Hc|]. rewrite Hr. reflexivity.
  - destruct (@charged_total sample_runtime sample_intent_body_unconvertible
                _ _ (exec_run (sample_world (Rejected sample_error)
                                 (Resolved tt)) _))
      as (Hthrow & _ & _ & _ & Hconv).
    destruct (Hthrow _ (Hconv _ (<["toString" := JPrim (JNum (of_Z 1))]> ∅)
                          eq_refl eq_refl (mk_is_Some _ _ eq_refl)))
      as [Hc Hr].
    split; [exact Hc|]. rewrite Hr. reflexivity.
Defined.

(** C8, as stated, fails when [base_amount_cents] is present and zero: the
    client's [amountCents] is charged, not [computeGrossCents(0, true)]. *)
Lemma charged_total_zero_base :
  let b := sample_intent_body 0 500 true in
  let r := run (sample_world (Rejected sample_error) (Resolved tt))
               (@CreatePaymentIntent.handler sample_runtime b) in
  own_properties (CreatePaymentIntent.metadata b) !! "base_amount_cents"
    = Some (JPrim (JNum (of_Z 0))) /\
  charged r.1 = [of_Z 500] /\
  @computeGrossCents sample_runtime (JNum (of_Z 0)) (JBool true) = of_Z 31 /\
  of_Z 500 <> of_Z 31.
Proof.
  cbv zeta. split; [vm_compute; reflexivity|]. split; [vm_compute; reflexivity|].
  split; [vm_compute; reflexivity|]. vm_compute. discriminate.
Qed.

(** The client's [frequency] replaces the server's on both endpoints. *)
Lemma client_metadata_overrides_witness :
  let w := sample_world (Rejected sample_error) (Resolved tt) in
  let r := run w (@CreatePaymentIntent.handler sample_runtime
                    (sample_intent_body 1000 500 true)) in
  let r' := run w (@CreateSubscription.handler sample_runtime
                     sample_subscription_body) in
  (exists p o,
     In (EPaymentIntentsCreate p o) r.1 /\
     pi_metadata p !! "frequency" = Some (JPrim (JStr "monthly"))) /\
  (exists p o,
     In (ESubscriptionsCreate p o) r'.1 /\
     sp_metadata p !! "frequency" = Some (JPrim (JStr "weekly"))).
Proof.
  cbv zeta.
  destruct (@client_metadata_overrides sample_runtime "frequency"
              (JPrim (JStr "monthly"))) as [Hpi _].
  destruct (@client_metadata_overrides sample_runtime "frequency"
              (JPrim (JStr "weekly"))) as [_ Hsub].
  split.
  - assert (exists p o,
              In (EPaymentIntentsCreate p o)
                 (run (sample_world (Rejected sample_error) (Resolved tt))
                      (@CreatePaymentIntent.handler sample_runtime
                         (sample_intent_body 1000 500 true))).1)
      as (p & o & Hin).
    { vm_compute. eexists _, _. left. reflexivity. }
    exists p, o. split; [exact Hin|].
    eapply (Hpi (sample_intent_body 1000 500 true) _ _ _ p o eq_refl).
    + vm_compute. reflexivity.
    + apply (exec_run (sample_world (Rejected sample_error) (Resolved tt))).
    + exact Hin.
  - assert (exists p o,
              In (ESubscriptionsCreate p o)
                 (run (sample_world (Rejected sample_error) (Resolved tt))
                      (@CreateSubscription.handler sample_runtime
                         sample_subscription_body)).1)
      as (p & o & Hin).
    { vm_compute. eexists _, _. right; right; left. reflexivity. }
    exists p, o. split; [exact Hin|].
    eapply (Hsub sample_subscription_body _ _ _ p o eq_refl).
    + vm_compute. reflexivity.
    + apply (exec_run (sample_world (Rejected sample_error) (Resolved tt))).
    + exact Hin.
Defined.

(* ===================================================================== *)
(** * Further properties of the handlers *)
(* ===================================================================== *)

(** ** The internal recipients list *)

Lemma list_ascii_app s1 s2 :
  list_ascii_of_string (s1 +:+ s2)
  = list_ascii_of_string s1 ++ list_ascii_of_string s2.
Proof.
  induction s1 as [|a s1 IH]; [reflexivity|].
  change (String a s1 +:+ s2) with (String a (s1 +:+ s2)).
  cbn [list_ascii_of_string app]. rewrite IH. reflexivity.
Qed.

Lemma list_ascii_inj s1 s2 :
  list_ascii_of_string s1 = list_ascii_of_string s2 -> s1 = s2.
Proof.
  intros E. rewrite <- (string_of_list_ascii_of_string s1),
    <- (string_of_list_ascii_of_string s2), E. reflexivity.
Qed.

Lemma string_app_assoc a b c : (a +:+ b) +:+ c = a +:+ (b +:+ c).
Proof. apply list_ascii_inj. rewrite !list_ascii_app, app_assoc. reflexivity. Qed.

Lemma string_app_nil_r s : s +:+ "" = s.
Proof.
  apply list_ascii_inj. rewrite list_ascii_app. apply app_nil_r.
Qed.

Lemma string_length_app s t :
  String.length (s +:+ t) = (String.length s + String.length t)%nat.
Proof.
  induction s as [|a s IH]; [reflexivity|].
  change (String a s +:+ t) with (String a (s +:+ t)). cbn. rewrite IH.
  reflexivity.
Qed.

(** *** Stripping one white-space character *)

Lemma strip_prefix_spec w s s' : strip_prefix w s = Some s' <-> s = w +:+ s'.
Proof.
  revert s. induction w as [|a w IH]; intros s; cbn.
  - split; [intros E; injection E as ->; reflexivity|intros ->; reflexivity].
  - change (String a w +:+ s') with (String a (w +:+ s')).
    destruct s as [|b s]; [split; discriminate|].
    destruct (Ascii.eqb_spec a b) as [->|Hne].
    + rewrite IH. split; [intros ->; reflexivity|intros E; injection E; auto].
    + split; [discriminate|intros E; injection E; congruence].
Qed.

Lemma strip_first_Some ws s s' :
  strip_first ws s = Some s' -> exists w, In w ws /\ s = w +:+ s'.
Proof.
  induction ws as [|w ws IH]; cbn; [discriminate|].
  destruct (strip_prefix w s) as [t|] eqn:E.
  - intros E'. injection E' as <-. exists w. split; [left; reflexivity|].
    apply strip_prefix_spec. exact E.
  - intros (w' & Hin & ->)%IH. exists w'. split; [right; exact Hin|reflexivity].
Qed.

Lemma strip_first_None ws s :
  strip_first ws s = None -> forall w r, In w ws -> s <> w +:+ r.
Proof.
  induction ws as [|w ws IH]; cbn; [intros _ w r []|].
  destruct (strip_prefix w s) as [t|] eqn:E; [discriminate|].
  intros Hn w' r [<-|Hin] Hs.
  - apply strip_prefix_spec in Hs. congruence.
  - exact (IH Hn w' r Hin Hs).
Qed.

(** The white-space characters are not empty, and none starts another:
    a string that starts with one loses exactly that one. *)
Lemma strip_space_white w r : In w white_space -> strip_space (w +:+ r) = Some r.
Proof.
  intros Hin. unfold white_space, white_space_code_points in Hin.
  cbn [map In] in Hin.
  repeat destruct Hin as [<-|Hin]; try destruct Hin; vm_compute; reflexivity.
Qed.

Lemma white_space_length w : In w white_space -> (1 <= String.length w)%nat.
Proof.
  intros Hin. unfold white_space, white_space_code_points in Hin.
  cbn [map In] in Hin.
  repeat destruct Hin as [<-|Hin]; try destruct Hin; vm_compute; lia.
Qed.

Lemma strip_space_Some s s' :
  strip_space s = Some s' -> exists w, In w white_space /\ s = w +:+ s'.
Proof. apply strip_first_Some. Qed.

Lemma strip_space_None s :
  strip_space s = None -> forall w r, In w white_space -> s <> w +:+ r.
Proof. apply strip_first_None. Qed.

Lemma strip_space_length s s' :
  strip_space s = Some s' -> (String.length s' < String.length s)%nat.
Proof.
  intros (w & Hw & ->)%strip_space_Some. rewrite string_length_app.
  pose proof (white_space_length w Hw). lia.
Qed.


(** *** [trimStart] *)

(** The length of the string is fuel enough. *)
Lemma trim_start_go_spec n s :
  (String.length s <= n)%nat ->
  exists l,
    s = l +:+ trim_start_go n s /\
    strip_space (trim_start_go n s) = None.
Proof.
  revert s. induction n as [|n IH]; intros s Hn.
  - destruct s; [|cbn in Hn; lia]. exists "". split; reflexivity.
  - cbn [trim_start_go]. destruct (strip_space s) as [s'|] eqn:E.
    + pose proof (strip_space_length s s' E) as Hl.
      destruct (IH s' ltac:(lia)) as (l & Hs' & Hnone).
      apply strip_space_Some in E as (w & _ & ->).
      exists (w +:+ l). split; [|exact Hnone].
      rewrite string_app_assoc, <- Hs'. reflexivity.
    + exists "". split; [reflexivity|exact E].
Qed.

Lemma trim_start_go_more n m s :
  (String.length s <= n)%nat -> (String.length s <= m)%nat ->
  trim_start_go n s = trim_start_go m s.
Proof.
  revert m s. induction n as [|n IH]; intros m s Hn Hm.
  - destruct s; [|cbn in Hn; lia]. destruct m; reflexivity.
  - destruct m as [|m].
    + destruct s; [|cbn in Hm; lia]. reflexivity.
    + cbn [trim_start_go]. destruct (strip_space s) as [s'|] eqn:E;
        [|reflexivity].
      pose proof (strip_space_length s s' E). apply IH; lia.
Qed.

Lemma trim_start_spec s :
  exists l, s = l +:+ trim_start s /\ strip_space (trim_start s) = None.
Proof. apply trim_start_go_spec. lia. Qed.

Lemma trim_start_white w s :
  In w white_space -> trim_start (w +:+ s) = trim_start s.
Proof.
  intros Hw. unfold trim_start.
  pose proof (white_space_length w Hw) as Hl.
  rewrite string_length_app.
  destruct (String.length w) as [|n] eqn:E; [lia|].
  cbn [Nat.add trim_start_go]. rewrite (strip_space_white w s Hw).
  apply trim_start_go_more; lia.
Qed.

(** *** [trimEnd] *)

Lemma trim_end_spec s :
  exists t, s = trim_end s +:+ t /\ trim_start t = "".
Proof.
  induction s as [|a s (t & Hs & Ht)].
  - exists "". split; reflexivity.
  - cbn [trim_end]. destruct (is_empty (trim_start (String a s))) eqn:E.
    + exists (String a s). split; [reflexivity|].
      destruct (trim_start (String a s)); [reflexivity|discriminate].
    + exists t. split; [|exact Ht].
      change (String a (trim_end s) +:+ t) with (String a (trim_end s +:+ t)).
      rewrite <- Hs. reflexivity.
Qed.

(** What [trimEnd] leaves does not end with a white-space character. *)
Lemma trim_end_no_white s w r :
  In w white_space -> trim_end s <> r +:+ w.
Proof.
  intros Hw. revert r. induction s as [|a s IH]; intros r.
  - cbn. pose proof (white_space_length w Hw) as Hl. intros E.
    apply (f_equal String.length) in E. rewrite string_length_app in E.
    cbn in E. lia.
  - cbn [trim_end]. destruct (is_empty (trim_start (String a s))) eqn:E.
    + pose proof (white_space_length w Hw) as Hl. intros E'.
      apply (f_equal String.length) in E'. rewrite string_length_app in E'.
      cbn in E'. lia.
    + destruct r as [|b r].
      * change ("" +:+ w) with w. intros E'.
        destruct (trim_end_spec (String a s)) as (t & Hs & Ht).
        cbn [trim_end] in Hs. rewrite E, E' in Hs.
        rewrite Hs, (trim_start_white w t Hw), Ht in E. discriminate E.
      * change (String b r +:+ w) with (String b (r +:+ w)).
        intros E'. injection E' as _ E'. exact (IH r E').
Qed.

(** *** [trim] *)

(** [trim] keeps a segment of the string that neither starts nor ends
    with a white-space character. *)
Lemma trim_spec s :
  (exists l t, s = l +:+ trim s +:+ t) /\
  (forall w r, In w white_space -> trim s <> w +:+ r) /\
  (forall w r, In w white_space -> trim s <> r +:+ w).
Proof.
  unfold trim.
  destruct (trim_start_spec s) as (l & Hs & Hnone).
  destruct (trim_end_spec (trim_start s)) as (t & Hs' & Ht).
  split; [|split].
  - exists l, t. rewrite <- Hs'. exact Hs.
  - intros w r Hw E.
    apply (strip_space_None _ Hnone w (r +:+ t) Hw).
    rewrite Hs' at 1. rewrite E. apply string_app_assoc.
  - intros w r Hw. apply trim_end_no_white. exact Hw.
Qed.


(** The pieces of [split(',')] hold no comma and lie in the string. *)
Lemma split_comma_spec s p :
  In p (split_comma s) ->
  ~ In ","%char (list_ascii_of_string p) /\
  exists pre post,
    list_ascii_of_string s = pre ++ list_ascii_of_string p ++ post.
Proof.
  revert p. induction s as [|a s IH]; cbn; intros p.
  - intros [<-|[]]. split; [intros []|]. exists [], []. reflexivity.
  - destruct (Ascii.eqb a ",") eqn:Ea.
    + intros [<-|Hp].
      * split; [intros []|]. exists [], (a :: list_ascii_of_string s).
        reflexivity.
      * destruct (IH p Hp) as (Hc & pre & post & E). split; [exact Hc|].
        exists (a :: pre), post. cbn. rewrite E. reflexivity.
    + destruct (split_comma s) as [|x r] eqn:Es.
      * intros [<-|[]]. split.
        -- cbn. intros [->|[]]. cbn in Ea. discriminate.
        -- exists [], (list_ascii_of_string s). reflexivity.
      * intros [<-|Hp].
        -- destruct (IH x (or_introl eq_refl)) as (Hc & pre & post & E).
           split.
           ++ cbn. intros [->|Hin]; [cbn in Ea; discriminate|auto].
           ++ (* the first piece starts the string *)
              assert (exists post',
                         list_ascii_of_string s
                         = list_ascii_of_string x ++ post') as [post' E'].
              { clear -Es. revert x r Es.
                induction s as [|b s IHs]; cbn; intros x r Es.
                - injection Es as <- <-. exists []. reflexivity.
                - destruct (Ascii.eqb b ",").
                  + injection Es as <- <-. eexists. reflexivity.
                  + destruct (split_comma s) as [|y r'] eqn:Ey.
                    * injection Es as <- <-. destruct s; [|cbn in Ey].
                      -- exists []. reflexivity.
                      -- destruct (Ascii.eqb a ","); [discriminate|].
                         destruct (split_comma s); discriminate.
                    * injection Es as <- <-.
                      destruct (IHs y r' eq_refl) as [post' ->].
                      exists post'. reflexivity. }
              exists [], post'. cbn. rewrite E'. reflexivity.
        -- destruct (IH p (or_intror Hp)) as (Hc & pre & post & E).
           split; [exact Hc|]. exists (a :: pre), post. cbn. rewrite E.
           reflexivity.
Qed.

Section Recipients.
Variable env : gmap string string.

(** X1. Every address of the internal recipients list is a non-empty
    comma-free segment of [INTERNAL_EMAILS] that neither starts nor ends
    with a white-space character: TAB, LF, VT, FF, CR, SP, NBSP, a space
    separator of Unicode, LS, PS or ZWNBSP. *)
Theorem internal_recipients_wellformed s r :
  env !! "INTERNAL_EMAILS" = Some s ->
  In r (internal_recipients env) ->
  let stripped :=
    [0x9; 0xA; 0xB; 0xC; 0xD; 0x20; 0xA0; 0x1680; 0x2000; 0x2001; 0x2002;
     0x2003; 0x2004; 0x2005; 0x2006; 0x2007; 0x2008; 0x2009; 0x200A; 0x2028;
     0x2029; 0x202F; 0x205F; 0x3000; 0xFEFF]%N in
  r <> "" /\
  (forall cp r', In cp stripped -> r <> utf8 cp +:+ r') /\
  (forall cp r', In cp stripped -> r <> r' +:+ utf8 cp) /\
  (forall pre post, r <> pre +:+ String "," post) /\
  exists pre post, s = pre +:+ r +:+ post.
Proof.
  intros Hs Hin. cbv zeta. unfold internal_recipients in Hin.
  rewrite Hs in Hin. cbn [from_option id] in Hin.
  apply list_elem_of_In, list_elem_of_filter in Hin as [Hne Hin].
  apply list_elem_of_In, in_map_iff in Hin as (p & <- & Hp).
  destruct (split_comma_spec s p Hp) as (Hc & pre & post & E).
  destruct (trim_spec p) as ((l & t & Ep) & Hfirst & Hlast).
  set (q := trim p) in *. clearbody q.
  split; [intros Hr; rewrite Hr in Hne; exact Hne|].
  split; [intros cp r' Hcp; apply Hfirst, (in_map utf8), Hcp|].
  split; [intros cp r' Hcp; apply Hlast, (in_map utf8), Hcp|]. split.
  - intros pre' post' Hr. apply Hc. rewrite Ep, Hr, !list_ascii_app.
    apply in_or_app; right. apply in_or_app; left.
    apply in_or_app; right. left. reflexivity.
  - exists (string_of_list_ascii pre +:+ l),
           (t +:+ string_of_list_ascii post).
    apply list_ascii_inj.
    rewrite !list_ascii_app, !list_ascii_of_string_of_list_ascii, E, Ep.
    rewrite !list_ascii_app, <- !app_assoc. reflexivity.
Qed.

End Recipients.

(** ** The webhook *)

Lemma In_notifications m c1 dm c2 im :
  In m (notifications c1 dm c2 im) ->
  (c1 = true /\ m = dm) \/ (c2 = true /\ m = im).
Proof.
  unfold notifications. destruct c1, c2; cbn; intuition auto.
Qed.

Lemma In_sends m tr : In m (sends tr) <-> exists o, In (ESend m o) tr.
Proof.
  split.
  - induction tr as [|e tr IH]; cbn; [tauto|].
    destruct e; cbn; try (intros [o' Ho]%IH; exists o'; right; exact Ho).
    intros [->|[o' Ho]%IH]; [eexists; left; reflexivity|].
    exists o'. right. exact Ho.
  - intros [o' Ho]. induction tr as [|e tr IH]; cbn in *; [tauto|].
    destruct Ho as [->|Ho]; [left; reflexivity|].
    destruct e; cbn; auto.
Qed.

Section WebhookFurther.
Context `{Runtime}.
Variable env : gmap string string.

(** What a handled event hands to SendGrid, path by path. *)
Lemma handled_sends ev tr :
  handled env ev tr ->
  exists c1 dm c2 im,
    sends tr = notifications c1 dm c2 im /\
    (c1 = true -> sendgrid_configured env = true /\ is_donor_message dm = true) /\
    (c2 = true -> sendgrid_configured env = true /\
                  internal_configured env = true /\
                  msg_to im = ToList (internal_recipients env)) /\
    (c1 = true -> msg_from dm = "bridgesdonations@bridgestowork.org" /\
                  msg_mailSettings dm = sandbox env) /\
    (c2 = true -> msg_from im = "bridgesdonations@bridgestowork.org" /\
                  msg_mailSettings im = sandbox env).
Proof.
  destruct 1 as [tr ? Ht|? ?|tr ? ? Ht|t0 de md tr ? H0 Ht|? ? ?].
  - apply notify_trace_sends in Ht as [Hs _].
    eexists _, _, _, _. split; [exact Hs|].
    split; [intros [? ?]%andb_true_iff; split; [assumption|reflexivity]|].
    split; [intros [? ?]%andb_true_iff; repeat split; assumption|].
    split; intros _; split; reflexivity.
  - exists false, (pi_donorMsg env JNull ∅ JNull), false,
      (pi_donorMsg env JNull ∅ JNull).
    split; [reflexivity|]. repeat split; discriminate.
  - apply notify_trace_sends in Ht as [Hs _].
    eexists _, _, _, _. split; [exact Hs|].
    split; [intros [? ?]%andb_true_iff; split; [assumption|reflexivity]|].
    split; [intros [? ?]%andb_true_iff; repeat split; assumption|].
    split; intros _; split; reflexivity.
  - apply notify_trace_sends in Ht as [Hs _].
    apply expanded_sends in H0 as [H0 _].
    eexists _, _, _, _. split; [rewrite sends_app, H0, Hs; reflexivity|].
    split; [intros [? ?]%andb_true_iff; split; [assumption|reflexivity]|].
    split; [intros [? ?]%andb_true_iff; repeat split; assumption|].
    split; intros _; split; reflexivity.
  - exists false, (pi_donorMsg env JNull ∅ JNull), false,
      (pi_donorMsg env JNull ∅ JNull).
    split; [reflexivity|]. repeat split; discriminate.
Qed.

(** X2. An event of a type the handler does not know is acknowledged and
    nothing else happens: after the verification no call is made at all. *)
Theorem unrecognized_event_ignored req tr res ev :
  exec (webhook env req) tr res ->
  verified tr ev ->
  type ev <> "checkout.session.completed" ->
  type ev <> "payment_intent.succeeded" ->
  type ev <> "invoice.payment_succeeded" ->
  res = OK /\
  tr = [EConsole LogInfo ["🔔 Webhook received!"];
        EConstructEvent (body req) (headers req !! "stripe-signature")
          (env !! "STRIPE_WEBHOOK_SECRET") (Resolved ev)].
Proof.
  intros Hx Hv N1 N2 N3.
  destruct (webhook_verified env req tr res ev Hx Hv) as (t & -> & -> & Hh).
  split; [reflexivity|].
  destruct Hh; try congruence. reflexivity.
Qed.

(** X3. Every message handed to SendGrid is sent from the fixed address
    and, outside production ([NODE_ENV] other than 'production'), carries
    the sandbox setting; in production it carries no mail settings. *)
Theorem messages_sender_and_sandbox req tr res ev m o :
  exec (webhook env req) tr res ->
  verified tr ev ->
  In (ESend m o) tr ->
  msg_from m = "bridgesdonations@bridgestowork.org" /\
  (env !! "NODE_ENV" = Some "production" -> msg_mailSettings m = None) /\
  (env !! "NODE_ENV" <> Some "production" ->
   msg_mailSettings m = Some {| sandboxMode_enable := true |}).
Proof.
  intros Hx Hv Hin.
  destruct (webhook_verified env req tr res ev Hx Hv) as (t & -> & -> & Hh).
  cbn in Hin. destruct Hin as [|[|Hin]]; try discriminate.
  assert (In m (sends t)) as Hm by (apply In_sends; eauto).
  destruct (handled_sends ev t Hh) as (c1 & dm & c2 & im & Hs & _ & _ & Hd & Hi).
  rewrite Hs in Hm.
  assert (msg_from m = "bridgesdonations@bridgestowork.org" /\
          msg_mailSettings m = sandbox env) as [Hf Hsb].
  { destruct (In_notifications _ _ _ _ _ Hm) as [[-> ->]|[-> ->]]; auto. }
  split; [exact Hf|]. rewrite Hsb. unfold sandbox, isDev. split.
  - intros ->. reflexivity.
  - intros Hne. destruct (env !! "NODE_ENV") as [s|]; [|reflexivity].
    destruct (String.eqb_spec s "production") as [->|]; [congruence|reflexivity].
Qed.

Lemma lookups_In e tr : In e (lookups tr) -> In e tr.
Proof.
  induction tr as [|e' tr IH]; cbn; [tauto|].
  destruct e'; cbn; intuition auto.
Qed.

Lemma In_lookups_subscription i o tr :
  In (ESubscriptionsRetrieve i o) tr ->
  In (ESubscriptionsRetrieve i o) (lookups tr).
Proof.
  induction tr as [|e' tr IH]; cbn; [tauto|].
  intros [->|Hin]; [left; reflexivity|].
  destruct e'; cbn; auto.
Qed.

Lemma In_lookups_customer i o tr :
  In (ECustomersRetrieve i o) tr ->
  In (ECustomersRetrieve i o) (lookups tr).
Proof.
  induction tr as [|e' tr IH]; cbn; [tauto|].
  intros [->|Hin]; [left; reflexivity|].
  destruct e'; cbn; auto.
Qed.

Lemma truthy_or_null v : truthy (js_or v JNull) = truthy v.
Proof. unfold js_or. destruct (truthy v) eqn:E; [exact E|reflexivity]. Qed.

Lemma js_or_truthy v d : truthy v = true -> js_or v d = v.
Proof. unfold js_or. intros ->. reflexivity. Qed.

(** The lookups of a handled event. *)
Lemma handled_lookups ev tr :
  handled env ev tr ->
  lookups tr = [] \/
  (type ev = "invoice.payment_succeeded" /\
   truthy (subscription (data_object ev)) = true /\
   ((exists o, lookups tr
       = [ESubscriptionsRetrieve (subscription (data_object ev)) o]) \/
    (exists sub o,
       truthy (customer_email (data_object ev)) = false /\
       truthy (sub_customer sub) = true /\
       lookups tr
       = [ESubscriptionsRetrieve (subscription (data_object ev)) (Resolved sub);
          ECustomersRetrieve (sub_customer sub) o]))).
Proof.
  destruct 1 as [tr ? Ht|? ?|tr ? ? Ht|t0 de md tr ? H0 Ht|? ? ?];
    try (left; reflexivity);
    try (left; apply notify_trace_sends in Ht as [_ Hl]; exact Hl).
  apply notify_trace_sends in Ht as [_ Hl].
  rewrite lookups_app, Hl, app_nil_r.
  destruct H0 as [Hs|e Hs|sub Hs Hc|sub c Hs Hc|sub e Hs Hc]; cbn.
  - left. reflexivity.
  - right. split; [assumption|]. split; [assumption|]. left. eauto.
  - right. split; [assumption|]. split; [assumption|]. left. eauto.
  - right. split; [assumption|]. split; [assumption|]. right.
    apply andb_true_iff in Hc as [Hce Hsc]. rewrite truthy_or_null in Hce.
    exists sub, (Resolved c). split; [apply negb_true_iff in Hce; exact Hce|].
    split; [assumption|reflexivity].
  - right. split; [assumption|]. split; [assumption|]. right.
    apply andb_true_iff in Hc as [Hce Hsc]. rewrite truthy_or_null in Hce.
    exists sub, (Rejected e). split; [apply negb_true_iff in Hce; exact Hce|].
    split; [assumption|reflexivity].
Qed.

(** X4. Stripe is asked for more only on the invoice path, and only for
    what is missing: a lookup is made only for a verified
    [invoice.payment_succeeded] event with a [subscription]; at most two are
    made; the subscription retrieved is the invoice's; and the customer is
    retrieved only when the invoice has no [customer_email], with the
    customer id of the subscription just retrieved. *)
Theorem lookups_only_when_needed req tr res ev :
  exec (webhook env req) tr res ->
  verified tr ev ->
  (length (lookups tr) <= 2)%nat /\
  (lookups tr <> [] ->
   type ev = "invoice.payment_succeeded" /\
   truthy (subscription (data_object ev)) = true) /\
  (forall i o, In (ESubscriptionsRetrieve i o) tr ->
               i = subscription (data_object ev)) /\
  (forall i o, In (ECustomersRetrieve i o) tr ->
     truthy (customer_email (data_object ev)) = false /\
     truthy i = true /\
     exists sub,
       In (ESubscriptionsRetrieve (subscription (data_object ev)) (Resolved sub))
          tr /\
       i = sub_customer sub).
Proof.
  intros Hx Hv.
  destruct (webhook_verified env req tr res ev Hx Hv) as (t & -> & -> & Hh).
  assert (lookups (EConsole LogInfo ["🔔 Webhook received!"]
                   :: EConstructEvent (body req)
                        (headers req !! "stripe-signature")
                        (endpointSecret env) (Resolved ev) :: t)
          = lookups t) as Hl by reflexivity.
  pose proof (handled_lookups ev t Hh) as Hcases.
  split; [|split; [|split]].
  - rewrite Hl.
    destruct Hcases as [->|(_ & _ & [[o ->]|(sub & o & _ & _ & ->)])]; cbn; lia.
  - rewrite Hl. intros Hne.
    destruct Hcases as [E|(Ht & Hs & _)]; [congruence|auto].
  - intros i o Hin%In_lookups_subscription. rewrite Hl in Hin.
    destruct Hcases as [E|(_ & _ & [[o' E]|(sub & o' & _ & _ & E)])];
      rewrite E in Hin; cbn in Hin;
      repeat match goal with
      | G : _ \/ _ |- _ => destruct G
      | G : False |- _ => destruct G
      end; congruence.
  - intros i o Hin%In_lookups_customer. rewrite Hl in Hin.
    destruct Hcases as [E|(_ & _ & [[o' E]|(sub & o' & Hce & Hsc & E)])];
      rewrite E in Hin; cbn in Hin;
      repeat match goal with
      | G : _ \/ _ |- _ => destruct G
      | G : False |- _ => destruct G
      end; try discriminate.
    match goal with G : ECustomersRetrieve _ _ = _ |- _ =>
      injection G as <- <- end.
    split; [assumption|]. split; [assumption|]. exists sub. split; [|reflexivity].
    right. right. apply lookups_In. rewrite E. left. reflexivity.
Qed.

(** The donor address of a handled event. *)
Lemma handled_donor_recipient ev tr m v :
  handled env ev tr -> In m (sends tr) -> msg_to m = ToValue v ->
  truthy v = true /\ sendgrid_configured env = true /\
  (type ev = "checkout.session.completed" /\
     v = customer_email (data_object ev) \/
   type ev = "payment_intent.succeeded" /\
     v = receipt_email (data_object ev) \/
   type ev = "invoice.payment_succeeded" /\
     (v = customer_email (data_object ev) \/
      truthy (customer_email (data_object ev)) = false /\
      exists i c, In (ECustomersRetrieve i (Resolved c)) tr /\ v = email c)).
Proof.
  destruct 1 as [tr ? Ht|? ?|tr ? ? Ht|t0 de md tr ? H0 Ht|? ? ?];
    intros Hm Hto; try (destruct Hm; fail).
  - apply notify_trace_sends in Ht as [Hs _]. rewrite Hs in Hm.
    apply In_notifications in Hm as [[[Hk Hv]%andb_true_iff ->]|[_ ->]];
      [|discriminate Hto].
    injection Hto as <-. split; [exact Hv|]. split; [exact Hk|].
    left. split; [assumption|reflexivity].
  - apply notify_trace_sends in Ht as [Hs _]. rewrite Hs in Hm.
    apply In_notifications in Hm as [[[Hk Hv]%andb_true_iff ->]|[_ ->]];
      [|discriminate Hto].
    injection Hto as <-. rewrite truthy_or_null in Hv.
    rewrite js_or_truthy by exact Hv. split; [exact Hv|]. split; [exact Hk|].
    right; left. split; [assumption|reflexivity].
  - apply notify_trace_sends in Ht as [Hs _].
    pose proof (expanded_sends _ _ _ _ H0) as (H0s & _ & _).
    rewrite sends_app, H0s, Hs in Hm. cbn [app] in Hm.
    apply In_notifications in Hm as [[[Hk Hv]%andb_true_iff ->]|[_ ->]];
      [|discriminate Hto].
    injection Hto as <-. split; [exact Hv|]. split; [exact Hk|].
    right; right. split; [assumption|].
    destruct H0 as [Hs'|e Hs'|sub Hs' Hc|sub c Hs' Hc|sub e Hs' Hc];
      try (rewrite truthy_or_null in Hv; rewrite js_or_truthy by exact Hv;
           left; reflexivity).
    apply andb_true_iff in Hc as [Hce Hsc]. rewrite truthy_or_null in Hce.
    assert (truthy (customer_email (data_object ev)) = false) as Hf
      by (apply negb_true_iff in Hce; exact Hce).
    unfold js_or in Hv |- *. rewrite Hf in Hv |- *.
    destruct (truthy (email c)) eqn:He; [|cbn in Hv; discriminate].
    right. split; [reflexivity|]. exists (sub_customer sub), c.
    split; [|reflexivity]. right. left. reflexivity.
Qed.

(** X5. The donor message goes to the donor's own address, which is never
    empty: the session's [customer_email] on the checkout path, the
    intent's [receipt_email] on the payment-intent path, and on the invoice
    path the invoice's [customer_email] or, when the invoice has none, the
    email of the customer retrieved from Stripe. *)
Theorem donor_message_recipient req tr res ev m o v :
  exec (webhook env req) tr res ->
  verified tr ev ->
  In (ESend m o) tr ->
  msg_to m = ToValue v ->
  truthy v = true /\
  (type ev = "checkout.session.completed" /\
     v = customer_email (data_object ev) \/
   type ev = "payment_intent.succeeded" /\
     v = receipt_email (data_object ev) \/
   type ev = "invoice.payment_succeeded" /\
     (v = customer_email (data_object ev) \/
      truthy (customer_email (data_object ev)) = false /\
      exists i c, In (ECustomersRetrieve i (Resolved c)) tr /\ v = email c)).
Proof.
  intros Hx Hv Hin Hto.
  destruct (webhook_verified env req tr res ev Hx Hv) as (t & -> & -> & Hh).
  cbn in Hin. destruct Hin as [|[|Hin]]; try discriminate.
  assert (In m (sends t)) as Hm by (apply In_sends; eauto).
  destruct (handled_donor_recipient ev t m v Hh Hm Hto) as (Ht & _ & Hc).
  split; [exact Ht|].
  destruct Hc as [?|[?|(Hty & [?|(Hf & i & c & Hc & ?)])]]; auto.
  right; right. split; [assumption|]. right. split; [assumption|].
  exists i, c. split; [|assumption]. right. right. exact Hc.
Qed.

(** X6. A delivery hands at most two messages to SendGrid, at most one to
    the donor and at most one internal, the donor's first; the internal one
    is addressed to the list read from [INTERNAL_EMAILS]. *)
Theorem at_most_one_message_each req tr res ev :
  exec (webhook env req) tr res ->
  verified tr ev ->
  exists donor internal,
    sends tr = donor ++ internal /\
    (length donor <= 1)%nat /\ (length internal <= 1)%nat /\
    (forall m, In m donor -> is_donor_message m = true) /\
    (forall m, In m internal ->
       msg_to m = ToList (internal_recipients env) /\
       present (env !! "INTERNAL_EMAILS") = true).
Proof.
  intros Hx Hv.
  destruct (webhook_verified env req tr res ev Hx Hv) as (t & -> & -> & Hh).
  destruct (handled_sends ev t Hh) as (c1 & dm & c2 & im & Hs & Hd & Hi & _).
  exists (if c1 then [dm] else []), (if c2 then [im] else []).
  split; [exact Hs|].
  split; [destruct c1; cbn; lia|]. split; [destruct c2; cbn; lia|].
  split.
  - intros m Hm. destruct c1; cbn in Hm; [|destruct Hm].
    destruct Hm as [<-|[]]. apply Hd. reflexivity.
  - intros m Hm. destruct c2; cbn in Hm; [|destruct Hm].
    destruct Hm as [<-|[]]. destruct (Hi eq_refl) as (_ & ? & ?). auto.
Qed.


(** X8. With the API key set, a donor who can be addressed is written to:
    the donor message is handed to SendGrid, addressed to the session's
    [customer_email] on the checkout path, to the intent's [receipt_email]
    on the payment-intent path of an intent without invoice, and to the
    invoice's [customer_email] on the invoice path, whenever that address
    is not empty. *)
Theorem donor_message_sent_when_addressable req tr res ev address :
  exec (webhook env req) tr res ->
  verified tr ev ->
  sendgrid_configured env = true ->
  truthy address = true ->
  (type ev = "checkout.session.completed" /\
     address = customer_email (data_object ev)) \/
  (type ev = "payment_intent.succeeded" /\
     truthy (invoice (data_object ev)) = false /\
     address = receipt_email (data_object ev)) \/
  (type ev = "invoice.payment_succeeded" /\
     address = customer_email (data_object ev)) ->
  exists m o,
    In (ESend m o) tr /\ msg_to m = ToValue address /\
    is_donor_message m = true.
Proof.
  intros Hx Hv Hk Ha Hpath.
  destruct (webhook_verified env req tr res ev Hx Hv) as (t & -> & -> & Hh).
  assert (exists m, In m (sends t) /\ msg_to m = ToValue address) as (m & Hm & Hto).
  { destruct Hh as [t ? Ht|? ?|t ? ? Ht|t0 de md t ? H0 Ht|? ? ?].
    - destruct Hpath as [[_ ->]|[[? _]|[? _]]]; try type_clash.
      apply notify_trace_sends in Ht as [-> _]. rewrite Hk, Ha.
      eexists. split; [left; reflexivity|reflexivity].
    - destruct Hpath as [[? _]|[(_ & ? & _)|[? _]]]; try type_clash.
      congruence.
    - destruct Hpath as [[? _]|[(_ & _ & ->)|[? _]]]; try type_clash.
      apply notify_trace_sends in Ht as [-> _].
      rewrite (js_or_truthy _ JNull Ha), Hk, Ha.
      eexists. split; [left; reflexivity|reflexivity].
    - destruct Hpath as [[? _]|[(? & _)|[_ ->]]]; try type_clash.
      apply notify_trace_sends in Ht as [Hs _].
      assert (de = customer_email (data_object ev)) as ->.
      { destruct H0 as [Hs'|e Hs'|sub Hs' Hc|sub c Hs' Hc|sub e Hs' Hc];
          try (apply js_or_truthy; exact Ha);
          apply andb_true_iff in Hc as [Hce _];
          rewrite truthy_or_null, Ha in Hce; discriminate Hce. }
      apply expanded_sends in H0 as [H0 _].
      rewrite sends_app, H0, Hs, Hk, Ha. cbn [app andb notifications].
      eexists. split; [left; reflexivity|reflexivity].
    - destruct Hpath as [[? _]|[(? & _)|[? _]]]; type_clash. }
  apply In_sends in Hm as [o Ho].
  exists m, o. split; [right; right; exact Ho|]. split; [exact Hto|].
  unfold is_donor_message. rewrite Hto. reflexivity.
Qed.

Lemma notify_trace_console c1 dm l1 c2 im l2 tr lvl args :
  notify_trace c1 dm l1 c2 im l2 tr -> In (EConsole lvl args) tr ->
  lvl = LogError /\
  exists m e label,
    In (ESend m (Rejected e)) tr /\ args = [label; error_detail e].
Proof.
  intros (t1 & t2 & -> & H1 & H2) [Hin|Hin]%in_app_or.
  - destruct c1; cbn in H1; [destruct H1 as [[? ->]|[e ->]]|subst];
      cbn in Hin; try (intuition congruence).
    destruct Hin as [|[E|[]]]; [discriminate|]. injection E as <- <-.
    split; [reflexivity|]. exists dm, e, l1.
    split; [left; reflexivity|reflexivity].
  - destruct c2; cbn in H2; [destruct H2 as [[? ->]|[e ->]]|subst];
      cbn in Hin; try (intuition congruence).
    destruct Hin as [|[E|[]]]; [discriminate|]. injection E as <- <-.
    split; [reflexivity|]. exists im, e, l2.
    split; [apply in_or_app; right; left; reflexivity|reflexivity].
Qed.

(** X9. Nothing is logged without a cause: in a verified delivery every
    console call is the first [Webhook received] line, or the
    [console.error] of a send that SendGrid rejected, printing the detail
    of that rejection, or the [console.warn] of a lookup that Stripe
    rejected, printing its message. *)
Theorem logs_only_on_failure req tr res ev lvl args :
  exec (webhook env req) tr res ->
  verified tr ev ->
  In (EConsole lvl args) tr ->
  (lvl = LogInfo /\ args = ["🔔 Webhook received!"]) \/
  (lvl = LogError /\
   exists m e label,
     In (ESend m (Rejected e)) tr /\ args = [label; error_detail e]) \/
  (lvl = LogWarn /\
   exists e,
     args = ["⚠️ Could not expand subscription/customer for invoice:";
             err_message e] /\
     ((exists i, In (ESubscriptionsRetrieve i (Rejected e)) tr) \/
      (exists i, In (ECustomersRetrieve i (Rejected e)) tr))).
Proof.
  intros Hx Hv Hin.
  destruct (webhook_verified env req tr res ev Hx Hv) as (t & -> & -> & Hh).
  destruct Hin as [E|[E|Hin]]; [injection E as <- <-; left; auto|discriminate|].
  right.
  assert (forall t',
            (lvl = LogError /\
             exists m e label,
               In (ESend m (Rejected e)) t' /\ args = [label; error_detail e]) ->
            lvl = LogError /\
            exists m e label,
              In (ESend m (Rejected e))
                 (EConsole LogInfo ["🔔 Webhook received!"]
                  :: EConstructEvent (body req)
                       (headers req !! "stripe-signature")
                       (endpointSecret env) (Resolved ev) :: t') /\
              args = [label; error_detail e]) as Hlift.
  { intros t' (-> & m & e & label & Hm & ->). split; [reflexivity|].
    exists m, e, label. split; [right; right; exact Hm|reflexivity]. }
  destruct Hh as [t ? Ht|? ?|t ? ? Ht|t0 de md t ? H0 Ht|? ? ?].
  - left. apply Hlift. eapply notify_trace_console; eauto.
  - destruct Hin.
  - left. apply Hlift. eapply notify_trace_console; eauto.
  - apply in_app_or in Hin as [Hin|Hin].
    + right.
      destruct H0 as [Hs|e Hs|sub Hs Hc|sub c Hs Hc|sub e Hs Hc];
        cbn in Hin;
        repeat match goal with
        | G : _ \/ _ |- _ => destruct G
        | G : False |- _ => destruct G
        end; try discriminate;
        match goal with G : expand_warning _ = _ |- _ =>
          unfold expand_warning in G; injection G as <- <- end;
        (split; [reflexivity|]); exists e; (split; [reflexivity|]).
      * left. eexists. right. right. left. reflexivity.
      * right. eexists. right. right. right. left. reflexivity.
    + left.
      destruct (notify_trace_console _ _ _ _ _ _ _ _ _ Ht Hin)
        as (-> & m & e & label & Hm & ->).
      split; [reflexivity|]. exists m, e, label. split; [|reflexivity].
      right. right. apply in_or_app. right. exact Hm.
  - destruct Hin.
Qed.
End WebhookFurther.

(** ** The creation endpoints *)

Ltac literal_lookup :=
  unfold object_literal; cbn [fold_left fst snd];
  repeat (rewrite lookup_insert_ne by done);
  first [rewrite lookup_insert_eq | rewrite lookup_empty].

Lemma spread_lookup_None {A} (o src : gmap string A) k :
  src !! k = None -> spread o src !! k = o !! k.
Proof. unfold spread. intros Hk. apply lookup_union_r. exact Hk. Qed.

(** A literal of primitives spread with an object of primitives. *)
Lemma spread_primitives (o src : gmap string jsval) :
  spread (JPrim <$> o) (JPrim <$> src) = JPrim <$> spread o src.
Proof. unfold spread. symmetry. apply map_fmap_union. Qed.

Section EndpointsFurther.
Context `{Runtime}.

(** X10. [POST /create-payment-intent] makes at most one call, the
    creation of the intent. When the evaluation of the call's argument
    throws, which it does for [metadata: null] and for a value that cannot
    be converted and for nothing else, no call is made and the answer is
    400 with the error's message after one [console.error]. Otherwise the
    one call is made and the answer follows its outcome: 200 with the
    intent's client secret when Stripe resolves, and 400 with Stripe's
    message, after one [console.error], when it rejects. *)
Theorem create_payment_intent_responses b tr res :
  exec (CreatePaymentIntent.handler b) tr res ->
  ((exists err,
      CreatePaymentIntent.intent_params b = Rejected err /\
      (CreatePaymentIntent.metadata b = JNull /\
       err = TypeError
               "Cannot read properties of null (reading 'base_amount_cents')" \/
       CreatePaymentIntent.metadata b <> JNull /\
       err = TypeError "Cannot convert object to primitive value") /\
      tr = [EConsole LogError
              ["create-payment-intent error:"; err_message err]] /\
      res = {| status := 400; res_body := JsonError (err_message err) |}) \/
   (exists p pi,
      CreatePaymentIntent.intent_params b = Resolved p /\
      tr = [EPaymentIntentsCreate p (Resolved pi)] /\
      res = {| status := 200;
               res_body := JsonBody [("clientSecret", client_secret pi)] |}) \/
   (exists p err,
      CreatePaymentIntent.intent_params b = Resolved p /\
      tr = [EPaymentIntentsCreate p (Rejected err);
            EConsole LogError
              ["create-payment-intent error:"; err_message err]] /\
      res = {| status := 400; res_body := JsonError (err_message err) |})) /\
  (CreatePaymentIntent.metadata b = JNull ->
   tr = [EConsole LogError
           ["create-payment-intent error:";
            "Cannot read properties of null (reading 'base_amount_cents')"]] /\
   res = {| status := 400;
            res_body :=
              JsonError
                "Cannot read properties of null (reading 'base_amount_cents')"
         |}).
Proof.
  intros Hx.
  destruct (exec_create_payment_intent b tr res Hx)
    as [(err & E & -> & ->)|(p & E & [(pi & -> & ->)|(err & -> & ->)])].
  - pose proof (intent_params_throws b err E) as Hthrow. split.
    + left. exists err. auto.
    + intros Hn. destruct Hthrow as [[_ ->]|[Hm _]]; [|contradiction].
      split; reflexivity.
  - split; [right; left; eauto|].
    intros Hn. exfalso. revert E.
    unfold CreatePaymentIntent.intent_params, CreatePaymentIntent.totalCents.
    rewrite Hn. discriminate.
  - split; [right; right; eauto|].
    intros Hn. exfalso. revert E.
    unfold CreatePaymentIntent.intent_params, CreatePaymentIntent.totalCents.
    rewrite Hn. discriminate.
Qed.

(** The metadata of an intent whose request holds primitives only. *)
Lemma intent_metadata_primitives b (md : gmap string jsval) (dn : jsval) :
  json_default (CreatePaymentIntent.metadata b) (JObject ∅)
  = JObject (JPrim <$> md) ->
  CreatePaymentIntent.donorName b = JPrim dn ->
  CreatePaymentIntent.intent_metadata b
  = Resolved
      (JPrim <$>
       spread
         (object_literal
            [("donor_name", js_or dn (JStr ""));
             ("phone", js_or (prop md "phone") (JStr ""));
             ("address", js_or (prop md "address1") (JStr ""));
             ("city", js_or (prop md "city") (JStr ""));
             ("state", js_or (prop md "state") (JStr ""));
             ("zip", js_or (prop md "zip") (JStr ""));
             ("dedication", js_or (prop md "dedication_text") (JStr ""));
             ("notifyEmail", js_or (prop md "notify_email") (JStr ""));
             ("subscribeToNewsletter",
              JStr (if String.eqb (ToString (prop md "newsletter_opt_in"))
                                  "true"
                    then "Yes" else "No"));
             ("frequency", JStr "one_time")])
         md).
Proof.
  intros Hmd Hdn. unfold CreatePaymentIntent.intent_metadata. cbv zeta.
  rewrite Hmd, Hdn, !read_primitives. cbn [mbind Outcome_bind json_ToString].
  rewrite !json_or_primitives. cbn [own_properties].
  rewrite <- spread_primitives. unfold object_literal.
  cbn [fold_left fst snd]. rewrite !fmap_insert, fmap_empty. reflexivity.
Qed.

(** X11. What the webhook later shows of an intent this endpoint created
    from a request that holds primitives, for the fields the client's
    metadata leave to the server: the greeting uses [donorName] and falls
    back to the default when it is empty, the newsletter line says Yes
    exactly when [newsletter_opt_in] prints as [true], the dedication shown
    is the client's [dedication_text], and the frequency is [one_time]. *)
Theorem intent_fields_for_webhook b (md : gmap string jsval) (dn : jsval)
    fallback :
  json_default (CreatePaymentIntent.metadata b) (JObject ∅)
  = JObject (JPrim <$> md) ->
  CreatePaymentIntent.donorName b = JPrim dn ->
  exists m,
    CreatePaymentIntent.intent_metadata b = Resolved (JPrim <$> m) /\
    (md !! "donor_name" = None ->
     field_or m "donor_name" fallback = ToString (js_or dn (JStr fallback))) /\
    (md !! "subscribeToNewsletter" = None ->
     (newsletter m = "Yes" <->
      ToString (prop md "newsletter_opt_in") = "true")) /\
    (md !! "dedication" = None ->
     dedication_line m =
     if truthy (prop md "dedication_text")
     then "<p><strong>Dedication:</strong> "
          +:+ ToString (prop md "dedication_text") +:+ "</p>"
     else "") /\
    (md !! "frequency" = None -> prop m "frequency" = JStr "one_time").
Proof.
  intros Hmd Hdn. eexists.
  split; [exact (intent_metadata_primitives b md dn Hmd Hdn)|].
  split; [|split; [|split]]; intros Hn.
  - unfold field_or, prop. rewrite spread_lookup_None by exact Hn.
    literal_lookup. cbn [from_option id]. unfold js_or.
    destruct (truthy dn) eqn:Et.
    + rewrite Et. reflexivity.
    + reflexivity.
  - unfold newsletter, prop at 1. rewrite spread_lookup_None by exact Hn.
    literal_lookup. cbn [from_option id].
    destruct (String.eqb_spec (ToString (prop md "newsletter_opt_in")) "true")
      as [E|E]; cbn; split; intros; congruence.
  - match goal with |- dedication_line ?m = _ =>
      assert (prop m "dedication"
              = js_or (prop md "dedication_text") (JStr "")) as E
    end.
    { unfold prop at 1. rewrite spread_lookup_None by exact Hn.
      literal_lookup. reflexivity. }
    unfold dedication_line. rewrite E. unfold js_or.
    destruct (truthy (prop md "dedication_text")) eqn:Et.
    + rewrite Et. reflexivity.
    + reflexivity.
  - unfold prop. rewrite spread_lookup_None by exact Hn.
    literal_lookup. reflexivity.
Qed.

(** X12. [POST /create-subscription] calls Stripe in order and stops at the
    first failure: the payment method is attached, then made the
    customer's default, then the argument of the creation is evaluated and
    the subscription created. The answer is 200 with the subscription's id
    and status when all succeed, and otherwise 400 with the message of
    what failed, after one [console.error] and without any later call.
    When the evaluation of the argument throws, which it does for
    [metadata: null] and for a value that cannot be converted and for
    nothing else, the payment method has been attached and made the
    default and no subscription is created. *)
Theorem create_subscription_sequence b tr res :
  exec (CreateSubscription.handler b) tr res ->
  let pm := CreateSubscription.paymentMethodId b in
  let cus := CreateSubscription.customerId b in
  let failure err :=
    (EConsole LogError ["create-subscription error:"; err_message err],
     {| status := 400; res_body := JsonError (err_message err) |}) in
  (exists err,
     tr = [EPaymentMethodsAttach pm cus (Rejected err); (failure err).1] /\
     res = (failure err).2) \/
  (exists err,
     tr = [EPaymentMethodsAttach pm cus (Resolved tt);
           ECustomersUpdate cus pm (Rejected err); (failure err).1] /\
     res = (failure err).2) \/
  (exists err,
     CreateSubscription.subscription_params b = Rejected err /\
     (CreateSubscription.metadata b = JNull /\
      err = TypeError
              "Cannot read properties of null (reading 'first_name')" \/
      err = TypeError "Cannot convert object to primitive value") /\
     tr = [EPaymentMethodsAttach pm cus (Resolved tt);
           ECustomersUpdate cus pm (Resolved tt); (failure err).1] /\
     res = (failure err).2) \/
  (exists p err,
     CreateSubscription.subscription_params b = Resolved p /\
     CreateSubscription.metadata b <> JNull /\
     tr = [EPaymentMethodsAttach pm cus (Resolved tt);
           ECustomersUpdate cus pm (Resolved tt);
           ESubscriptionsCreate p (Rejected err);
           (failure err).1] /\
     res = (failure err).2) \/
  (exists p s,
     CreateSubscription.subscription_params b = Resolved p /\
     CreateSubscription.metadata b <> JNull /\
     tr = [EPaymentMethodsAttach pm cus (Resolved tt);
           ECustomersUpdate cus pm (Resolved tt);
           ESubscriptionsCreate p (Resolved s)] /\
     res = {| status := 200;
              res_body := JsonBody [("subscriptionId", sc_id s);
                                    ("status", sc_status s)] |}).
Proof.
  intros Hx. cbv zeta. cbn [fst snd].
  assert (forall p,
            CreateSubscription.subscription_params b = Resolved p ->
            CreateSubscription.metadata b <> JNull) as Hnull.
  { intros p E Hn. revert E.
    unfold CreateSubscription.subscription_params,
      CreateSubscription.subscription_metadata.
    rewrite Hn. destruct (json_Number _); discriminate. }
  destruct (exec_create_subscription b tr res Hx)
    as [(e & -> & ->)|[(e & -> & ->)|[(e & E & -> & ->)
       |[(p & e & E & -> & ->)|(p & s & E & -> & ->)]]]].
  - left. eauto.
  - right; left. eauto.
  - right; right; left. exists e. split; [exact E|]. split; [|auto].
    destruct (subscription_params_throws b e E) as [(Hn & _ & ->)| ->]; auto.
  - right; right; right; left. exists p, e. eauto.
  - right; right; right; right. exists p, s. eauto.
Qed.

(** The metadata of a subscription whose request holds primitives only. *)
Lemma subscription_metadata_primitives b (md : gmap string jsval) :
  json_default (CreateSubscription.metadata b) (JObject ∅)
  = JObject (JPrim <$> md) ->
  CreateSubscription.subscription_metadata b
  = Resolved
      (JPrim <$>
       spread
         (object_literal
            [("frequency", JStr "monthly");
             ("donor_name",
              JStr (trim (ToString (js_or (prop md "first_name") (JStr ""))
                          +:+ " "
                          +:+ ToString (js_or (prop md "last_name")
                                          (JStr "")))));
             ("phone", js_or (prop md "phone") (JStr ""));
             ("address", js_or (prop md "address1") (JStr ""));
             ("city", js_or (prop md "city") (JStr ""));
             ("state", js_or (prop md "state") (JStr ""));
             ("zip", js_or (prop md "zip") (JStr ""));
             ("dedication", js_or (prop md "dedication_text") (JStr ""));
             ("notifyEmail", js_or (prop md "notify_email") (JStr ""));
             ("subscribeToNewsletter",
              JStr (if String.eqb (ToString (prop md "newsletter_opt_in"))
                                  "true"
                    then "Yes" else "No"))])
         md).
Proof.
  intros Hmd. unfold CreateSubscription.subscription_metadata. cbv zeta.
  rewrite Hmd, !read_primitives.
  repeat (cbn [mbind Outcome_bind json_ToString]; rewrite ?json_or_primitives).
  cbn [own_properties].
  rewrite <- spread_primitives. unfold object_literal.
  cbn [fold_left fst snd]. rewrite !fmap_insert, fmap_empty. reflexivity.
Qed.

(** X13. The donor name the subscription endpoint computes, when the
    client's metadata have no [donor_name] of their own, is a string that
    neither starts nor ends with a white-space character (TAB, LF, VT, FF,
    CR, SP, NBSP, a space separator of Unicode, LS, PS or ZWNBSP),
    whatever the two name fields hold. On a request that holds primitives it is the two names
    joined by a space and trimmed, and a subscriber without a name gets
    the empty name, which the webhook replaces by its fallback. *)
Theorem subscription_donor_name b :
  let metadata := json_default (CreateSubscription.metadata b) (JObject ∅) in
  let stripped :=
    [0x9; 0xA; 0xB; 0xC; 0xD; 0x20; 0xA0; 0x1680; 0x2000; 0x2001; 0x2002;
     0x2003; 0x2004; 0x2005; 0x2006; 0x2007; 0x2008; 0x2009; 0x200A; 0x2028;
     0x2029; 0x202F; 0x205F; 0x3000; 0xFEFF]%N in
  own_properties metadata !! "donor_name" = None ->
  (forall m,
     CreateSubscription.subscription_metadata b = Resolved m ->
     exists name,
       m !! "donor_name" = Some (JPrim (JStr name)) /\
       (forall cp r, In cp stripped -> name <> utf8 cp +:+ r) /\
       (forall cp r, In cp stripped -> name <> r +:+ utf8 cp)) /\
  (forall md : gmap string jsval,
     metadata = JObject (JPrim <$> md) ->
     exists m,
       CreateSubscription.subscription_metadata b = Resolved (JPrim <$> m) /\
       m !! "donor_name"
       = Some (JStr (trim (ToString (js_or (prop md "first_name") (JStr ""))
                           +:+ " "
                           +:+ ToString (js_or (prop md "last_name")
                                           (JStr ""))))) /\
       (truthy (prop md "first_name") = false ->
        truthy (prop md "last_name") = false ->
        m !! "donor_name" = Some (JStr "") /\
        forall fallback, field_or m "donor_name" fallback = fallback)).
Proof.
  cbv zeta. intros Hn. split.
  - intros m. unfold CreateSubscription.subscription_metadata. cbv zeta.
    revert Hn.
    set (metadata := json_default (CreateSubscription.metadata b) (JObject ∅)).
    intros Hn.
    repeat match goal with
    | |- context [mbind _ ?e] =>
        destruct e; cbn [mbind Outcome_bind]; [|discriminate]
    end.
    intros E. injection E as <-.
    match goal with |- context [trim ?s] =>
      exists (trim s); destruct (trim_spec s) as (_ & Hfirst & Hlast)
    end.
    split; [|split; intros cp r Hcp;
                    [apply Hfirst|apply Hlast]; apply (in_map utf8), Hcp].
    rewrite spread_lookup_None by exact Hn. literal_lookup. reflexivity.
  - intros md Hmd. eexists.
    split; [exact (subscription_metadata_primitives b md Hmd)|].
    rewrite Hmd in Hn. cbn [own_properties] in Hn.
    rewrite lookup_fmap in Hn.
    assert (md !! "donor_name" = None) as Hn'
      by (destruct (md !! "donor_name"); [discriminate Hn|reflexivity]).
    split.
    { rewrite spread_lookup_None by exact Hn'. literal_lookup. reflexivity. }
    intros Hf Hl. split.
    + rewrite spread_lookup_None by exact Hn'. literal_lookup.
      unfold js_or. rewrite Hf, Hl. reflexivity.
    + intros fallback. unfold field_or, prop at 1.
      rewrite spread_lookup_None by exact Hn'. literal_lookup.
      unfold js_or. rewrite Hf, Hl. reflexivity.
Qed.
End EndpointsFurther.

(** ** The checkout-session and setup-intent endpoints *)

Ltac gexec_inv :=
  repeat match goal with
  | H : gexec (GRet _) _ _ |- _ => inversion H; subst; clear H
  | H : gexec (GConsole _ _ _) _ _ |- _ => inversion H; subst; clear H
  | H : gexec (CheckoutSessionsCreate _ _) _ _ |- _ =>
      inversion H; subst; clear H
  | H : gexec (CustomersCreate _ _) _ _ |- _ => inversion H; subst; clear H
  | H : gexec (SetupIntentsCreate _ _) _ _ |- _ => inversion H; subst; clear H
  end.

(** Every gateway handler runs to an end against any world. *)
Lemma gexec_grun {R} (w : GatewayWorld) (p : Gateway R) :
  gexec p (grun w p).1 (grun w p).2.
Proof.
  induction p as [r|l a k IH|q k IH|e k IH|q k IH]; cbn.
  - constructor.
  - destruct (grun w k); constructor; exact IH.
  - specialize (IH (gw_sessions_create w q)).
    destruct (grun w (k _)); constructor; exact IH.
  - specialize (IH (gw_customers_create w e)).
    destruct (grun w (k _)); constructor; exact IH.
  - specialize (IH (gw_setupIntents_create w q)).
    destruct (grun w (k _)); constructor; exact IH.
Qed.

Lemma strict_eq_str_true v s : strict_eq_str v s = true <-> v = JStr s.
Proof.
  destruct v as [| |b|x|s']; cbn; try (split; [discriminate|discriminate]).
  rewrite String.eqb_eq. split; congruence.
Qed.

Section CheckoutSession.
Context `{Runtime}.
Variable env : gmap string string.
Variable encodeURIComponent : string -> string.
Variable TypeError_undefined : string -> JSError.

Lemma gexec_checkout_session b tr res :
  gexec (CreateCheckoutSession.handler env encodeURIComponent
           TypeError_undefined b) tr res ->
  (CreateCheckoutSession.donorInfo b = None /\
   tr = [GEConsole LogError
           ["Stripe error:"; err_message (TypeError_undefined "firstName")]] /\
   res = {| status := 500;
            res_body :=
              JsonBody [("error",
                         JStr (err_message (TypeError_undefined "firstName")))]
         |}) \/
  (exists donorInfo,
     CreateCheckoutSession.donorInfo b = Some donorInfo /\
     let p := CreateCheckoutSession.session_params env encodeURIComponent
                b donorInfo in
     (exists session,
        tr = [ECheckoutSessionsCreate p (Resolved session)] /\
        res = {| status := 200;
                 res_body := JsonBody [("id", session_id session);
                                       ("url", session_url session)] |}) \/
     (exists err,
        tr = [ECheckoutSessionsCreate p (Rejected err);
              GEConsole LogError ["Stripe error:"; err_message err]] /\
        res = {| status := 500;
                 res_body := JsonBody [("error", JStr (err_message err))] |})).
Proof.
  unfold CreateCheckoutSession.handler, CreateCheckoutSession.failed.
  destruct (CreateCheckoutSession.donorInfo b) as [di|]; intros Hx.
  - right. exists di. split; [reflexivity|]. cbv zeta.
    inversion Hx as [| |? ? o ? ? Hk| |]; subst; clear Hx.
    destruct o as [s|e]; gexec_inv; [left|right]; eauto.
  - left. gexec_inv. auto.
Qed.

(** X14. [POST /create-checkout-session] answers 500 without calling
    Stripe when the body has no [donorInfo]; otherwise it makes one call,
    the creation of the session, and answers 200 with the session's id and
    url when Stripe resolves and 500 with Stripe's message when it
    rejects. *)
Theorem create_checkout_session_responses b tr res :
  gexec (CreateCheckoutSession.handler env encodeURIComponent
           TypeError_undefined b) tr res ->
  (status res = 200 \/ status res = 500) /\
  (CreateCheckoutSession.donorInfo b = None ->
   status res = 500 /\ forall p o, ~ In (ECheckoutSessionsCreate p o) tr) /\
  (status res = 200 <->
   exists p session,
     tr = [ECheckoutSessionsCreate p (Resolved session)] /\
     res_body res = JsonBody [("id", session_id session);
                              ("url", session_url session)]) /\
  (forall p err,
     In (ECheckoutSessionsCreate p (Rejected err)) tr ->
     res = {| status := 500;
              res_body := JsonBody [("error", JStr (err_message err))] |}).
Proof.
  intros Hx.
  destruct (gexec_checkout_session b tr res Hx)
    as [(Hn & -> & ->)|(di & Hd & [(s & -> & ->)|(e & -> & ->)])]; cbn.
  - split; [right; reflexivity|]. split; [|split].
    + intros _. split; [reflexivity|]. intros p o [|[]]. discriminate.
    + split; [discriminate|]. intros (p & s & E & _). discriminate.
    + intros p err [|[]]. discriminate.
  - split; [left; reflexivity|]. split; [|split].
    + congruence.
    + split; [|reflexivity]. intros _. eauto.
    + intros p err [|[]]. discriminate.
  - split; [right; reflexivity|]. split; [|split].
    + congruence.
    + split; [discriminate|]. intros (p & s & E & _). discriminate.
    + intros p err [E|[E|[]]]; [|discriminate]. injection E as _ <-.
      reflexivity.
Qed.

(** X15. The session asked of Stripe is coherent in itself: it is a
    subscription with a monthly recurrence, the product [Monthly Donation]
    and the metadata frequency [monthly] exactly when the request's
    [frequency] is the string [monthly], and in every other case (another
    string, no frequency at all) a single payment named
    [One-Time Donation] with the metadata frequency [one_time]; the amount
    is the request's, once, in US dollars. *)
Theorem checkout_session_coherent b tr res p o :
  gexec (CreateCheckoutSession.handler env encodeURIComponent
           TypeError_undefined b) tr res ->
  In (ECheckoutSessionsCreate p o) tr ->
  (CreateCheckoutSession.frequency b = JStr "monthly" ->
   cs_mode p = "subscription" /\ cs_recurring_interval p = Some "month" /\
   cs_product_name p = "Monthly Donation" /\
   cs_metadata p !! "frequency" = Some (JStr "monthly")) /\
  (CreateCheckoutSession.frequency b <> JStr "monthly" ->
   cs_mode p = "payment" /\ cs_recurring_interval p = None /\
   cs_product_name p = "One-Time Donation" /\
   cs_metadata p !! "frequency" = Some (JStr "one_time")) /\
  cs_unit_amount p = CreateCheckoutSession.amount b /\
  cs_quantity p = 1 /\ cs_currency p = "usd".
Proof.
  intros Hx Hin.
  assert (exists di,
            p = CreateCheckoutSession.session_params env encodeURIComponent
                  b di) as [di ->].
  { destruct (gexec_checkout_session b tr res Hx)
      as [(Hn & -> & ->)|(di & Hd & [(s & -> & ->)|(e & -> & ->)])];
      cbn in Hin;
      repeat match goal with
      | G : _ \/ _ |- _ => destruct G
      | G : False |- _ => destruct G
      end; try discriminate;
      match goal with G : ECheckoutSessionsCreate _ _ = _ |- _ =>
        injection G as <- _ end; eauto. }
  unfold CreateCheckoutSession.session_params. cbv zeta.
  cbn [cs_mode cs_recurring_interval cs_product_name cs_metadata
       cs_unit_amount cs_quantity cs_currency].
  split; [|split; [|auto]].
  - intros Hf%strict_eq_str_true. rewrite Hf.
    do 3 (split; [reflexivity|]). literal_lookup. reflexivity.
  - intros Hf.
    destruct (strict_eq_str (CreateCheckoutSession.frequency b) "monthly")
      eqn:E; [apply strict_eq_str_true in E; contradiction|].
    do 3 (split; [reflexivity|]). literal_lookup. reflexivity.
Qed.

(** X16. The name a checkout session carries is always the two name fields
    joined by a space, which is never empty: the webhook's fallback name is
    not used for such a session, and a [donorInfo] without names is greeted
    as [undefined undefined]. *)
Theorem checkout_session_name_never_falls_back b tr res p o fallback :
  gexec (CreateCheckoutSession.handler env encodeURIComponent
           TypeError_undefined b) tr res ->
  In (ECheckoutSessionsCreate p o) tr ->
  exists donorInfo,
    CreateCheckoutSession.donorInfo b = Some donorInfo /\
    field_or (cs_metadata p) "donor_name" fallback
    = ToString (prop donorInfo "firstName") +:+ " "
      +:+ ToString (prop donorInfo "lastName") /\
    (donorInfo !! "firstName" = None -> donorInfo !! "lastName" = None ->
     field_or (cs_metadata p) "donor_name" fallback = "undefined undefined").
Proof.
  intros Hx Hin.
  assert (exists di,
            CreateCheckoutSession.donorInfo b = Some di /\
            p = CreateCheckoutSession.session_params env encodeURIComponent
                  b di) as (di & Hdi & ->).
  { destruct (gexec_checkout_session b tr res Hx)
      as [(Hn & -> & ->)|(di & Hd & [(s & -> & ->)|(e & -> & ->)])];
      cbn in Hin;
      repeat match goal with
      | G : _ \/ _ |- _ => destruct G
      | G : False |- _ => destruct G
      end; try discriminate;
      match goal with G : ECheckoutSessionsCreate _ _ = _ |- _ =>
        injection G as <- _ end; eauto. }
  exists di. split; [exact Hdi|].
  assert (field_or
            (cs_metadata
               (CreateCheckoutSession.session_params env encodeURIComponent
                  b di)) "donor_name" fallback
          = ToString (prop di "firstName") +:+ " "
            +:+ ToString (prop di "lastName")) as E.
  { unfold field_or, prop at 1, CreateCheckoutSession.session_params.
    cbv zeta. cbn [cs_metadata]. literal_lookup. cbn [from_option id].
    unfold js_or.
    assert (truthy (JStr (ToString (prop di "firstName") +:+ " "
                          +:+ ToString (prop di "lastName"))) = true) as ->.
    { cbn [truthy]. destruct (ToString (prop di "firstName")); reflexivity. }
    reflexivity. }
  split; [exact E|].
  intros Hf Hl. rewrite E. unfold prop. rewrite Hf, Hl. reflexivity.
Qed.
End CheckoutSession.

(** X17. [POST /create-setup-intent] creates the customer first and the
    setup intent for that very customer: the intent is asked for only
    after Stripe resolved the customer, with the id Stripe gave, and the
    200 answer returns that id with the intent's client secret. A
    rejection of either call is answered by 400 with its message; when the
    second call is the one rejected, the customer just created stays. *)
Theorem create_setup_intent_sequence donorEmail tr res :
  gexec (CreateSetupIntent.handler donorEmail) tr res ->
  let params c :=
    {| si_customer := customer_id c;
       si_payment_method_types := ["card"; "link"; "us_bank_account"] |} in
  let log err :=
    GEConsole LogError ["create-setup-intent error:"; err_message err] in
  let failure err :=
    {| status := 400; res_body := JsonError (err_message err) |} in
  (exists err,
     tr = [ECustomersCreate donorEmail (Rejected err); log err] /\
     res = failure err) \/
  (exists c err,
     tr = [ECustomersCreate donorEmail (Resolved c);
           ESetupIntentsCreate (params c) (Rejected err); log err] /\
     res = failure err) \/
  (exists c si,
     tr = [ECustomersCreate donorEmail (Resolved c);
           ESetupIntentsCreate (params c) (Resolved si)] /\
     res = {| status := 200;
              res_body := JsonBody [("clientSecret", si_client_secret si);
                                    ("customerId", customer_id c)] |}).
Proof.
  unfold CreateSetupIntent.handler, CreateSetupIntent.failed. intros Hx.
  cbv zeta.
  inversion Hx as [| | |? ? o1 ? ? Hk1|]; subst; clear Hx.
  destruct o1 as [c|e1]; [|gexec_inv; left; eauto].
  inversion Hk1 as [| | | |? ? o2 ? ? Hk2]; subst; clear Hk1.
  destruct o2 as [si|e2]; gexec_inv; right; [right|left]; eauto.
Qed.

(** ** From the checkout session to the webhook *)

Section SessionToWebhook.
Context `{Runtime}.
Variable env : gmap string string.
Variable encodeURIComponent : string -> string.
Variable TypeError_undefined : string -> JSError.

(** X18. The donor of a session this server created is thanked for what
    was asked: when Stripe reports the session completed, carrying the
    metadata the endpoint gave it, the subject of the donor message says
    [monthly] exactly when the request's [frequency] was the string
    [monthly], and [one-time] in every other case. *)
Theorem checkout_session_thanked_by_frequency b gtr gres p session
    req tr res ev m o :
  gexec (CreateCheckoutSession.handler env encodeURIComponent
           TypeError_undefined b) gtr gres ->
  In (ECheckoutSessionsCreate p (Resolved session)) gtr ->
  exec (webhook env req) tr res ->
  verified tr ev ->
  type ev = "checkout.session.completed" ->
  metadata (data_object ev) = Some (cs_metadata p) ->
  In (ESend m o) tr ->
  is_donor_message m = true ->
  msg_subject m =
    if strict_eq_str (CreateCheckoutSession.frequency b) "monthly"
    then "Thank you for your monthly donation!"
    else "Thank you for your one-time donation!".
Proof.
  intros Hg Hp Hx Hv Hty Hmd Hin Hd.
  assert (exists di,
            p = CreateCheckoutSession.session_params env encodeURIComponent
                  b di) as [di ->].
  { unfold CreateCheckoutSession.handler, CreateCheckoutSession.failed in Hg.
    destruct (CreateCheckoutSession.donorInfo b) as [di|].
    - exists di. inversion Hg as [| |? ? o' ? ? Hk| |]; subst; clear Hg.
      destruct o'; gexec_inv; cbn in Hp;
        repeat match goal with
        | G : _ \/ _ |- _ => destruct G
        | G : False |- _ => destruct G
        end; try discriminate;
        match goal with G : ECheckoutSessionsCreate _ _ = _ |- _ =>
          injection G as <- _ end; reflexivity.
    - gexec_inv. cbn in Hp. destruct Hp as [|[]]. discriminate. }
  destruct (webhook_verified env req tr res ev Hx Hv) as (t & -> & -> & Hh).
  cbn in Hin. destruct Hin as [|[|Hin]]; try discriminate.
  assert (In m (sends t)) as Hm by (apply In_sends; eauto).
  destruct Hh as [t ? Ht|? ?|t ? ? Ht|t0 de md t ? H0 Ht|? ? ?];
    try type_clash.
  apply notify_trace_sends in Ht as [Hs _]. rewrite Hs in Hm.
  apply In_notifications in Hm as [[_ ->]|[_ ->]]; [|discriminate Hd].
  rewrite Hmd. cbn [from_option id msg_subject checkout_donorMsg].
  assert (prop (cs_metadata
                  (CreateCheckoutSession.session_params env
                     encodeURIComponent b di)) "frequency"
          = JStr (if strict_eq_str (CreateCheckoutSession.frequency b)
                       "monthly"
                  then "monthly" else "one_time")) as ->.
  { unfold prop, CreateCheckoutSession.session_params. cbv zeta.
    cbn [cs_metadata]. literal_lookup. reflexivity. }
  destruct (strict_eq_str (CreateCheckoutSession.frequency b) "monthly");
    reflexivity.
Qed.
End SessionToWebhook.

(** ** Decimal digits *)

Lemma string_of_revapp d d' :
  NilEmpty.string_of_uint (Decimal.revapp d d')
  = NilEmpty.string_of_uint (Decimal.rev d) +:+ NilEmpty.string_of_uint d'.
Proof.
  unfold Decimal.rev. revert d'.
  induction d as [|d IH|d IH|d IH|d IH|d IH|d IH|d IH|d IH|d IH|d IH];
    intros d'; cbn [Decimal.revapp]; [reflexivity|..];
    rewrite IH, (IH (_ Decimal.Nil)), string_app_assoc; reflexivity.
Qed.

Lemma to_uint_rev n : N.to_uint n = Decimal.rev (DecimalPos.Unsigned.to_lu n).
Proof. destruct n; reflexivity. Qed.

Lemma to_lu_add n i :
  DecimalPos.Unsigned.to_lu (n + N.of_nat i)
  = Nat.iter i Decimal.Little.succ (DecimalPos.Unsigned.to_lu n).
Proof.
  induction i as [|i IH]; [rewrite N.add_0_r; reflexivity|].
  rewrite Nat2N.inj_succ, N.add_succ_r, DecimalPos.Unsigned.to_lu_succ, IH.
  reflexivity.
Qed.

(** The digits of [10 * a + k] are those of [a] followed by the digit [k]. *)
Lemma digits_step a k :
  0 < a -> 0 <= k < 10 -> JSNumber.digits (10 * a + k) = JSNumber.digits a +:+ JSNumber.digits k.
Proof.
  intros Ha Hk. unfold JSNumber.digits.
  assert (forall n, NilZero.string_of_uint (N.to_uint n)
                    = NilEmpty.string_of_uint (N.to_uint n)) as Hz.
  { intros n. unfold NilZero.string_of_uint.
    destruct (N.to_uint n) eqn:E; try reflexivity.
    destruct n; [discriminate|]. cbn in E.
    destruct (DecimalPos.Unsigned.to_uint_nonnil _ E). }
  rewrite !Hz.
  destruct a as [|p|p]; try lia.
  replace (Z.to_N (10 * Z.pos p + k)) with (10 * N.pos p + Z.to_N k)%N by lia.
  assert (Z.to_N k < 10)%N as Hk' by lia.
  generalize dependent (Z.to_N k). intros j Hj. clear k Hk.
  change (Z.to_N (Z.pos p)) with (N.pos p).
  rewrite <- (N2Nat.id j).
  assert (N.to_nat j < 10)%nat as Hc by lia.
  generalize dependent (N.to_nat j). intros i Hi.
  do 10 (destruct i as [|i];
         [rewrite (to_uint_rev (10 * N.pos p + _)), to_lu_add,
            DecimalPos.Unsigned.to_ldec_tenfold;
          cbn [Nat.iter nat_rect Decimal.Little.succ];
          unfold Decimal.rev at 1; cbn [Decimal.revapp];
          rewrite string_of_revapp, <- to_uint_rev; reflexivity|]).
  lia.
Qed.

Lemma substring_all t : String.substring 0 (String.length t) t = t.
Proof. induction t as [|a t IH]; cbn; [reflexivity|]. rewrite IH. reflexivity. Qed.

Lemma substring_app_l s t :
  String.substring 0 (String.length s) (s +:+ t) = s.
Proof.
  induction s as [|a s IH]; [destruct t; reflexivity|].
  change (String a s +:+ t) with (String a (s +:+ t)). cbn. rewrite IH.
  reflexivity.
Qed.

Lemma substring_app_r s t k :
  String.substring (String.length s) k (s +:+ t) = String.substring 0 k t.
Proof.
  induction s as [|a s IH]; [reflexivity|].
  change (String a s +:+ t) with (String a (s +:+ t)). cbn. exact IH.
Qed.

Lemma digits_length_1 k : 0 <= k < 10 -> String.length (JSNumber.digits k) = 1%nat.
Proof.
  intros Hk.
  assert (k = 0 \/ k = 1 \/ k = 2 \/ k = 3 \/ k = 4 \/ k = 5 \/ k = 6 \/ k = 7
          \/ k = 8 \/ k = 9) as Hc by lia.
  repeat destruct Hc as [->|Hc]; try subst k; reflexivity.
Qed.

Lemma digits_length_pos a : 0 < a -> (1 <= String.length (JSNumber.digits a))%nat.
Proof.
  intros Ha. destruct (Z.lt_ge_cases a 10) as [Hlt|Hge].
  - rewrite digits_length_1 by lia. lia.
  - rewrite (Z.div_mod a 10) by lia.
    pose proof (Z.mod_pos_bound a 10 ltac:(lia)).
    rewrite digits_step by (try assumption; Z.div_mod_to_equations; lia).
    rewrite string_length_app, (digits_length_1 (a mod 10)) by assumption. lia.
Qed.

(** [fixed2 n] is the decimal writing of [n / 100] with two decimals. *)
Lemma fixed2_decimal n :
  0 <= n ->
  fixed2 n = JSNumber.digits (n / 100) +:+ "." +:+ JSNumber.digits (n / 10 mod 10)
             +:+ JSNumber.digits (n mod 10).
Proof.
  intros Hn. destruct (Z.lt_ge_cases n 100) as [Hlt|Hge].
  - assert (forallb (fun i =>
              String.eqb (fixed2 (Z.of_nat i))
                (JSNumber.digits (Z.of_nat i / 100) +:+ "."
                 +:+ JSNumber.digits (Z.of_nat i / 10 mod 10)
                 +:+ JSNumber.digits (Z.of_nat i mod 10)))
              (seq 0 100) = true) as Hall by (vm_compute; reflexivity).
    rewrite forallb_forall in Hall.
    specialize (Hall (Z.to_nat n)). rewrite Z2Nat.id in Hall by assumption.
    apply String.eqb_eq, Hall, in_seq. lia.
  - set (q := n / 100). set (a := n / 10 mod 10). set (b := n mod 10).
    assert (0 < q /\ 0 <= a < 10 /\ 0 <= b < 10 /\ n = 10 * (10 * q + a) + b)
      as (Hq & Ha & Hb & E)
      by (subst q a b; Z.div_mod_to_equations; lia).
    assert (JSNumber.digits n
            = JSNumber.digits q +:+ JSNumber.digits a +:+ JSNumber.digits b) as Ed.
    { rewrite E at 1. rewrite !digits_step by lia. apply string_app_assoc. }
    pose proof (digits_length_pos q Hq) as Hlq.
    pose proof (digits_length_1 a Ha) as Hla.
    pose proof (digits_length_1 b Hb) as Hlb.
    unfold fixed2. rewrite Ed.
    rewrite !string_length_app, Hla, Hlb.
    destruct (Nat.leb_spec (String.length (JSNumber.digits q) + (1 + 1)) 2);
      [lia|].
    rewrite !string_length_app, Hla, Hlb.
    replace (String.length (JSNumber.digits q) + (1 + 1) - 2)%nat
      with (String.length (JSNumber.digits q)) by lia.
    rewrite substring_app_l, substring_app_r.
    replace 2%nat
      with (String.length (JSNumber.digits a +:+ JSNumber.digits b))
      by (rewrite string_length_app; lia).
    rewrite substring_all. reflexivity.
Qed.

(** ** The amount in dollars *)

Lemma of_Z_100 : of_Z 100 = S754_finite false 7036874417766400 (-46).
Proof. reflexivity. Qed.

Lemma div_100_nearest mx ex :
  Zdigits2 (Z.pos mx) = 53 -> -52 <= ex <= -1 ->
  exists M s,
    div (S754_finite false mx ex) (of_Z 100)
    = S754_finite false (Z.to_pos M) (ex - 8 + s) /\
    0 < M /\ (s = 1 \/ s = 2) /\
    2 * Z.abs (M * s * C100 - Z.pos mx * 2 ^ 53) <= s * C100.
Proof.
  intros Hd He. rewrite of_Z_100.
  pose proof (Zdigits2_bounds (Z.pos mx) ltac:(lia)) as Hb. rewrite Hd in Hb.
  change (53 - 1) with 52 in Hb.
  unfold div, SFdiv, SFdiv_core_binary.
  rewrite Hd. change (Zdigits2 (Z.pos 7036874417766400)) with 53.
  replace (53 + ex - (53 + -46)) with (ex + 46) by lia.
  rewrite fexp_normal by lia.
  replace (Z.min (ex + 46 - 53) (ex - -46)) with (ex - 7) by lia.
  replace (ex - -46 - (ex - 7)) with 53 by lia.
  rewrite Z.shiftl_mul_pow2 by lia.
  pose proof (Z_div_mod (Z.pos mx * 2 ^ 53) 7036874417766400 ltac:(lia)) as Hdm.
  destruct (Z.div_eucl (Z.pos mx * 2 ^ 53) (Z.pos 7036874417766400)) as [Q R].
  destruct Hdm as [Hdm HR]. cbn [xorb].
  unfold C100.
  assert (2 ^ 52 <= Q < 2 ^ 54) as HQ by lia.
  unfold new_location. change (Z.even 7036874417766400) with true. cbv iota.
  unfold new_location_even.
  destruct (Z.lt_ge_cases Q (2 ^ 53)) as [Hlt|Hge].
  - (* the quotient has 53 bits *)
    assert (Zdigits2 Q = 53) as HdQ by (apply Zdigits2_unique; lia).
    set (l := if R =? 0 then loc_Exact else _).
    assert (round_nearest_even Q l = Q /\ 2 * R <= 7036874417766400 \/
            round_nearest_even Q l = Q + 1 /\ 7036874417766400 <= 2 * R) as HM.
    { subst l. destruct (Z.eqb_spec R 0); [left; cbn; lia|].
      destruct (Z.compare_spec (2 * R) 7036874417766400);
        cbn [round_nearest_even]; [exfalso; lia|left; lia|right; lia]. }
    assert (2 ^ 52 <= round_nearest_even Q l < 2 ^ 53) as HMb by lia.
    exists (round_nearest_even Q l), 1.
    split; [|split; [lia|split; [left; lia|lia]]].
    replace (ex - 8 + 1) with (ex - 7) by lia.
    apply binary_round_aux_53; try lia. apply Zdigits2_unique; lia.
  - (* the quotient has 54 bits *)
    assert (Zdigits2 Q = 54) as HdQ by (apply Zdigits2_unique; lia).
    set (l := if R =? 0 then loc_Exact else _).
    pose (l' := loc_of_shr_record
              {| shr_m := Q / 2; shr_r := Z.odd Q;
                 shr_s := match l with loc_Exact => false | _ => true end |}).
    pose proof (Z.div_mod Q 2 ltac:(lia)) as HQ2.
    pose proof (Z.mod_pos_bound Q 2 ltac:(lia)) as HQm.
    assert (Z.odd Q = negb (Q mod 2 =? 0)) as Hodd.
    { rewrite Zmod_odd. destruct (Z.odd Q); reflexivity. }
    assert (round_nearest_even (Q / 2) l' = Q / 2 /\ Q mod 2 = 0 \/
            round_nearest_even (Q / 2) l' = Q / 2 + 1 /\ Q mod 2 = 1 /\ R <> 0)
      as HM.
    { subst l' l. rewrite Hodd.
      destruct (Z.eqb_spec (Q mod 2) 0) as [E0|N0]; cbn [negb].
      - left. destruct (R =? 0); [|destruct (2 * R ?= 7036874417766400)];
          cbn; lia.
      - destruct (Z.eqb_spec R 0) as [ER|NR]; [exfalso; lia|].
        right. destruct (2 * R ?= 7036874417766400); cbn; lia. }
    assert (2 ^ 52 <= round_nearest_even (Q / 2) l' < 2 ^ 53) as HMb by lia.
    exists (round_nearest_even (Q / 2) l'), 2.
    split; [|split; [lia|split; [right; lia|lia]]].
    replace (ex - 8 + 2) with (ex - 7 + 1) by lia.
    apply binary_round_aux_54; fold l'; try lia. apply Zdigits2_unique; lia.
Qed.

(** The cents nearest to a quotient by 100 that is a nearest Number. *)
Lemma nearest_hundredths_div_100 M s n T E :
  0 < M -> (s = 1 \/ s = 2) -> 2 <= T -> 0 < n ->
  2 * Z.abs (M * s * C100 - n * T * 2 ^ 53) <= s * C100 ->
  2 ^ (- E) = 2 ^ (8 - s) * T ->
  E < 0 ->
  nearest_hundredths (Z.to_pos M) E = n.
Proof.
  intros HM Hs HT Hn Hnear HE Hneg. unfold nearest_hundredths.
  destruct (Z.leb_spec 0 E); [lia|]. rewrite Z2Pos.id by assumption.
  rewrite HE. unfold C100 in Hnear. change (2 ^ 53) with 9007199254740992 in Hnear.
  assert (0 < n * T) as Hx by (apply Z.mul_pos_pos; lia).
  assert (2 * n <= n * T) as Hx2
    by (rewrite (Z.mul_comm 2 n); apply Z.mul_le_mono_nonneg_l; lia).
  symmetry.
  destruct Hs as [-> | ->].
  - change (2 ^ (8 - 1)) with 128.
    apply (Z.div_unique _ _ _ (2 * 100 * M + 128 * T - 256 * (n * T)));
      [|ring].
    left. lia.
  - change (2 ^ (8 - 2)) with 64.
    apply (Z.div_unique _ _ _ (2 * 100 * M + 64 * T - 128 * (n * T)));
      [|ring].
    left. lia.
Qed.

Section Dollars.
Context `{Runtime}.

(** X19. The amount printed in the messages and in the thank-you link is
    exact: for a whole number of cents [n] below 2^52, [(n / 100).toFixed(2)]
    is the decimal writing of the dollars [n / 100], a point, and the two
    digits of the cents, although [n / 100] is rounded to a binary64
    number on the way. *)
Theorem dollars_exact n :
  0 <= n < 2 ^ 52 ->
  dollars (JNum (of_Z n))
  = JSNumber.digits (n / 100) +:+ "." +:+ JSNumber.digits (n / 10 mod 10)
    +:+ JSNumber.digits (n mod 10).
Proof.
  intros Hn. rewrite <- fixed2_decimal by lia. unfold dollars. cbn [Number].
  destruct (Z.eq_dec n 0) as [->|Hnz]; [reflexivity|].
  destruct (bits_of n ltac:(lia)) as (d & Hd & Hb).
  assert (d <= 52) by (apply (bits_le n); lia).
  rewrite (of_Z_canonical n d) by (try assumption; lia).
  destruct (canonical_digits n d ltac:(lia) Hb) as (Hpos & Hdig & Hbd).
  unfold canonical.
  destruct (div_100_nearest (Z.to_pos (n * 2 ^ (53 - d))) (d - 53))
    as (M & s & -> & HM & Hs & Hnear).
  { rewrite Z2Pos.id by assumption. exact Hdig. }
  { lia. }
  rewrite Z2Pos.id in Hnear by assumption.
  unfold toFixed2.
  destruct (Z.leb_spec 0 (d - 53 - 8 + s)); [lia|]. cbn [andb].
  rewrite (nearest_hundredths_div_100 M s n (2 ^ (53 - d)));
    try assumption; try lia; [reflexivity| |].
  - change 2 with (2 ^ 1) at 1. apply Z.pow_le_mono_r; lia.
  - rewrite <- Z.pow_add_r by lia. f_equal. lia.
Qed.
End Dollars.

(** ** CORS *)

(** X20. The origin check is an exact comparison: an allowed origin
    followed by anything more (a longer host such as
    [https://donate.bridgestowork.org.example.com], a path, another port)
    is not allowed. *)
Theorem cors_no_extension_allowed o s :
  In o allowedOrigins -> s <> "" ->
  co_origin (corsOptionsDelegate (Some (o +:+ s))) = false.
Proof.
  intros Hin Hs. destruct s as [|a s]; [congruence|].
  unfold allowedOrigins in Hin. cbn [In] in Hin.
  repeat destruct Hin as [<-|Hin]; try destruct Hin; vm_compute; reflexivity.
Qed.

(** ** The further properties on sample runs *)

Lemma unrecognized_event_ignored_witness :
  let w := sample_world (Resolved sample_other_event) (Resolved tt) in
  let r := run w (@webhook sample_runtime sample_env sample_request) in
  r.2 = OK /\
  r.1 = [EConsole LogInfo ["🔔 Webhook received!"];
         EConstructEvent "{}" (Some "t=1,v1=00") (Some "whsec_sample")
           (Resolved sample_other_event)].
Proof.
  cbv zeta.
  apply (@unrecognized_event_ignored sample_runtime sample_env sample_request
           _ _ sample_other_event (exec_run _ _)).
  - vm_compute. reflexivity.
  - discriminate.
  - discriminate.
  - discriminate.
Defined.

Lemma messages_sender_and_sandbox_witness :
  let ev := sample_checkout "monthly" in
  let w := sample_world (Resolved ev) (Resolved tt) in
  let r := run w (@webhook sample_runtime sample_env sample_request) in
  exists m o,
    In (ESend m o) r.1 /\
    msg_from m = "bridgesdonations@bridgestowork.org" /\
    msg_mailSettings m = Some {| sandboxMode_enable := true |}.
Proof.
  cbv zeta.
  assert (exists m o,
            In (ESend m o)
               (run (sample_world (Resolved (sample_checkout "monthly"))
                       (Resolved tt))
                    (@webhook sample_runtime sample_env sample_request)).1)
    as (m & o & Hin).
  { vm_compute. eexists _, _. right; right; left. reflexivity. }
  exists m, o. split; [exact Hin|].
  destruct (@messages_sender_and_sandbox sample_runtime sample_env
              sample_request _ _ (sample_checkout "monthly") m o
              (exec_run (sample_world (Resolved (sample_checkout "monthly"))
                           (Resolved tt)) _))
    as (Hf & _ & Hs).
  - vm_compute. reflexivity.
  - exact Hin.
  - split; [exact Hf|]. apply Hs. vm_compute. discriminate.
Defined.

Lemma lookups_only_when_needed_witness :
  let ev := sample_invoice_without_email in
  let w := sample_world_lookups (Resolved ev) in
  let r := run w (@webhook sample_runtime sample_env sample_request) in
  lookups r.1
  = [ESubscriptionsRetrieve (JStr "sub_1")
       (Resolved {| sub_metadata := Some (<["donor_name" := JStr "Ada"]> ∅);
                    sub_customer := JStr "cus_1" |});
     ECustomersRetrieve (JStr "cus_1")
       (Resolved {| email := JStr "ada@example.org" |})] /\
  (length (lookups r.1) <= 2)%nat /\
  type ev = "invoice.payment_succeeded" /\
  truthy (subscription (data_object ev)) = true.
Proof.
  cbv zeta. split; [vm_compute; reflexivity|].
  destruct (@lookups_only_when_needed sample_runtime sample_env sample_request
              _ _ sample_invoice_without_email
              (exec_run (sample_world_lookups
                           (Resolved sample_invoice_without_email)) _))
    as (Hlen & Hne & _).
  - vm_compute. reflexivity.
  - split; [exact Hlen|]. apply Hne. vm_compute. discriminate.
Defined.

Lemma donor_message_recipient_witness :
  let ev := sample_invoice_without_email in
  let w := sample_world_lookups (Resolved ev) in
  let r := run w (@webhook sample_runtime sample_env sample_request) in
  exists m o v,
    In (ESend m o) r.1 /\ msg_to m = ToValue v /\
    truthy v = true /\
    exists i c, In (ECustomersRetrieve i (Resolved c)) r.1 /\ v = email c.
Proof.
  cbv zeta.
  assert (exists m o v,
            In (ESend m o)
               (run (sample_world_lookups
                       (Resolved sample_invoice_without_email))
                    (@webhook sample_runtime sample_env sample_request)).1 /\
            msg_to m = ToValue v)
    as (m & o & v & Hin & Hto).
  { vm_compute. eexists _, _, _.
    split; [right; right; right; right; left; reflexivity|reflexivity]. }
  exists m, o, v. split; [exact Hin|]. split; [exact Hto|].
  destruct (@donor_message_recipient sample_runtime sample_env sample_request
              _ _ sample_invoice_without_email m o v
              (exec_run (sample_world_lookups
                           (Resolved sample_invoice_without_email)) _))
    as (Ht & [[Hty _]|[[Hty _]|(_ & [Hv|(_ & Hc)])]]).
  - vm_compute. reflexivity.
  - exact Hin.
  - exact Hto.
  - discriminate Hty.
  - discriminate Hty.
  - rewrite Hv in Ht. discriminate Ht.
  - split; [exact Ht|exact Hc].
Defined.

Lemma at_most_one_message_each_witness :
  let ev := sample_checkout "monthly" in
  let w := sample_world (Resolved ev) (Resolved tt) in
  let r := run w (@webhook sample_runtime sample_env sample_request) in
  map msg_to (sends r.1)
  = [ToValue (JStr "donor@example.org");
     ToList ["office@bridgestowork.org"; "board@bridgestowork.org"]] /\
  exists donor internal,
    sends r.1 = donor ++ internal /\
    (length donor <= 1)%nat /\ (length internal <= 1)%nat.
Proof.
  cbv zeta. split; [vm_compute; reflexivity|].
  destruct (@at_most_one_message_each sample_runtime sample_env sample_request
              _ _ (sample_checkout "monthly")
              (exec_run (sample_world (Resolved (sample_checkout "monthly"))
                           (Resolved tt)) _))
    as (donor & internal & Hs & Hd & Hi & _).
  - vm_compute. reflexivity.
  - exists donor, internal. auto.
Defined.

Lemma internal_recipients_wellformed_witness :
  internal_recipients sample_env_padded_list = ["a@x.org"; "b@y.org"] /\
  (forall cp r', In cp white_space_code_points ->
                 "a@x.org" <> utf8 cp +:+ r') /\
  (forall cp r', In cp white_space_code_points ->
                 "a@x.org" <> r' +:+ utf8 cp) /\
  exists pre post,
    sample_internal_emails_padded = pre +:+ "a@x.org" +:+ post.
Proof.
  split; [vm_compute; reflexivity|].
  destruct (internal_recipients_wellformed sample_env_padded_list
              sample_internal_emails_padded "a@x.org")
    as (_ & Hfirst & Hlast & _ & Hseg).
  - vm_compute. reflexivity.
  - vm_compute. left. reflexivity.
  - split; [exact Hfirst|]. split; [exact Hlast|exact Hseg].
Defined.


Lemma create_payment_intent_responses_witness :
  let w := sample_world (Rejected sample_error) (Resolved tt) in
  let r := run w (@CreatePaymentIntent.handler sample_runtime
                    (sample_intent_body 1000 500 true)) in
  let r0 := run w (@CreatePaymentIntent.handler sample_runtime
                     sample_intent_body_null_metadata) in
  r.2 = {| status := 200;
           res_body := JsonBody [("clientSecret", JStr "pi_secret")] |} /\
  r0.1 = [EConsole LogError
            ["create-payment-intent error:";
             "Cannot read properties of null (reading 'base_amount_cents')"]] /\
  r0.2 = {| status := 400;
            res_body :=
              JsonError
                "Cannot read properties of null (reading 'base_amount_cents')"
         |}.
Proof.
  cbv zeta. split.
  - pose (secret := fun tr : list Effect =>
            match tr with
            | [EPaymentIntentsCreate _ (Resolved pi)] => Some (client_secret pi)
            | _ => None
            end).
    destruct (@create_payment_intent_responses sample_runtime
                (sample_intent_body 1000 500 true) _ _
                (exec_run (sample_world (Rejected sample_error) (Resolved tt))
                   _))
      as [[(err & _ & _ & Ht & Hr)|[(p & pi & _ & Ht & Hr)
                                   |(p & err & _ & Ht & Hr)]] _];
      apply (f_equal secret) in Ht; vm_compute in Ht.
    + discriminate Ht.
    + injection Ht as Hs. rewrite Hs. exact Hr.
    + discriminate Ht.
  - destruct (@create_payment_intent_responses sample_runtime
                sample_intent_body_null_metadata _ _
                (exec_run (sample_world (Rejected sample_error) (Resolved tt))
                   _))
      as [_ Hnull].
    exact (Hnull eq_refl).
Defined.

Lemma intent_fields_for_webhook_witness :
  exists m,
    @CreatePaymentIntent.intent_metadata sample_runtime
      (sample_intent_body 1000 500 true) = Resolved (JPrim <$> m) /\
    @field_or sample_runtime m "donor_name" "Friend" = "Ada" /\
    @dedication_line sample_runtime m = "".
Proof.
  destruct (@intent_fields_for_webhook sample_runtime
              (sample_intent_body 1000 500 true)
              (<["base_amount_cents" := JNum (of_Z 1000)]>
                 (<["frequency" := JStr "monthly"]> ∅))
              (JStr "Ada") "Friend")
    as (m & Hm & Hname & _ & Hded & _).
  - vm_compute. reflexivity.
  - reflexivity.
  - exists m. split; [exact Hm|]. split.
    + apply Hname. vm_compute. reflexivity.
    + apply Hded. vm_compute. reflexivity.
Defined.

Lemma create_subscription_sequence_witness :
  let w := sample_world (Rejected sample_error) (Resolved tt) in
  let r := run w (@CreateSubscription.handler sample_runtime
                    sample_subscription_body) in
  let r0 := run w (@CreateSubscription.handler sample_runtime
                     sample_subscription_body_null_metadata) in
  ((length r.1 = 3)%nat /\
   r.2 = {| status := 200;
            res_body := JsonBody [("subscriptionId", JStr "sub_1");
                                  ("status", JStr "active")] |}) /\
  r0.1 = [EPaymentMethodsAttach (JStr "pm_1") (JStr "cus_1") (Resolved tt);
          ECustomersUpdate (JStr "cus_1") (JStr "pm_1") (Resolved tt);
          EConsole LogError
            ["create-subscription error:";
             "Cannot read properties of null (reading 'first_name')"]] /\
  r0.2 = {| status := 400;
            res_body :=
              JsonError
                "Cannot read properties of null (reading 'first_name')" |}.
Proof.
  cbv zeta. split; [split; [vm_compute; reflexivity|]|].
  - pose (created := fun tr : list Effect =>
            match tr with
            | [_; _; ESubscriptionsCreate _ (Resolved s)] => Some s
            | _ => None
            end).
    destruct (@create_subscription_sequence sample_runtime
                sample_subscription_body _ _
                (exec_run (sample_world (Rejected sample_error) (Resolved tt))
                   _))
      as [(e & Ht & Hr)|[(e & Ht & Hr)|[(e & _ & _ & Ht & Hr)
         |[(p & e & _ & _ & Ht & Hr)|(p & s & _ & _ & Ht & Hr)]]]];
      apply (f_equal created) in Ht; vm_compute in Ht; try discriminate Ht.
    injection Ht as Hs. rewrite <- Hs in Hr. exact Hr.
  - pose (attached := fun tr : list Effect =>
            match tr with
            | EPaymentMethodsAttach _ _ (Resolved _)
              :: ECustomersUpdate _ _ (Resolved _) :: _ => true
            | _ => false
            end).
    destruct (@create_subscription_sequence sample_runtime
                sample_subscription_body_null_metadata _ _
                (exec_run (sample_world (Rejected sample_error) (Resolved tt))
                   _))
      as [(e & Ht & Hr)|[(e & Ht & Hr)|[(e & E & _ & Ht & Hr)
         |[(p & e & _ & Hn & _)|(p & s & _ & Hn & _)]]]].
    + apply (f_equal attached) in Ht. vm_compute in Ht. discriminate Ht.
    + apply (f_equal attached) in Ht. vm_compute in Ht. discriminate Ht.
    + vm_compute in E. injection E as <-. split; [exact Ht|exact Hr].
    + exfalso. apply Hn. reflexivity.
    + exfalso. apply Hn. reflexivity.
Defined.

Lemma subscription_donor_name_witness :
  (exists m,
     @CreateSubscription.subscription_metadata sample_runtime
       sample_subscription_body_padded_name = Resolved (JPrim <$> m) /\
     m !! "donor_name" = Some (JStr "Ada")) /\
  (exists m,
     @CreateSubscription.subscription_metadata sample_runtime
       sample_subscription_body = Resolved (JPrim <$> m) /\
     @field_or sample_runtime m "donor_name" "Friend" = "Friend").
Proof.
  split.
  - destruct (@subscription_donor_name sample_runtime
                sample_subscription_body_padded_name) as [_ Hprim].
    + vm_compute. reflexivity.
    + destruct (Hprim (<["first_name" :=
                           JStr (utf8 160 +:+ utf8 8195 +:+ "Ada")]> ∅))
        as (m & Hm & Hname & _).
      * vm_compute. reflexivity.
      * exists m. split; [exact Hm|]. rewrite Hname. vm_compute. reflexivity.
  - destruct (@subscription_donor_name sample_runtime
                sample_subscription_body) as [_ Hprim].
    + vm_compute. reflexivity.
    + destruct (Hprim (<["frequency" := JStr "weekly"]> ∅))
        as (m & Hm & _ & Hblank).
      * vm_compute. reflexivity.
      * exists m. split; [exact Hm|].
        apply Hblank; vm_compute; reflexivity.
Defined.

Lemma create_checkout_session_responses_witness :
  let r := grun (sample_gateway_world (Rejected sample_error))
             (@CreateCheckoutSession.handler sample_runtime sample_env
                sample_encodeURIComponent sample_TypeError
                sample_session_body_without_donor) in
  status r.2 = 500 /\ forall p o, ~ In (ECheckoutSessionsCreate p o) r.1.
Proof.
  cbv zeta.
  destruct (@create_checkout_session_responses sample_runtime sample_env
              sample_encodeURIComponent sample_TypeError
              sample_session_body_without_donor _ _
              (gexec_grun (sample_gateway_world (Rejected sample_error)) _))
    as (_ & Hnone & _).
  apply Hnone. reflexivity.
Defined.

Lemma checkout_session_coherent_witness :
  let b := sample_session_body (JStr "weekly") in
  let p := @CreateCheckoutSession.session_params sample_runtime sample_env
             sample_encodeURIComponent b
             (default ∅ (CreateCheckoutSession.donorInfo b)) in
  cs_success_url p
  = "https://gray-bay-02034850f.2.azurestaticapps.net/thank-you.html?name=Ada%20Lovelace&amount=25.50" /\
  cs_mode p = "payment" /\ cs_recurring_interval p = None /\
  cs_product_name p = "One-Time Donation" /\
  cs_metadata p !! "frequency" = Some (JStr "one_time").
Proof.
  cbv zeta. split; [vm_compute; reflexivity|].
  destruct (@checkout_session_coherent sample_runtime sample_env
              sample_encodeURIComponent sample_TypeError
              (sample_session_body (JStr "weekly")) _ _
              (@CreateCheckoutSession.session_params sample_runtime sample_env
                 sample_encodeURIComponent (sample_session_body (JStr "weekly"))
                 (default ∅ (CreateCheckoutSession.donorInfo
                               (sample_session_body (JStr "weekly")))))
              (gw_sessions_create (sample_gateway_world (Rejected sample_error))
                 (@CreateCheckoutSession.session_params sample_runtime
                    sample_env sample_encodeURIComponent
                    (sample_session_body (JStr "weekly"))
                    (default ∅ (CreateCheckoutSession.donorInfo
                                  (sample_session_body (JStr "weekly"))))))
              (gexec_grun (sample_gateway_world (Rejected sample_error)) _))
    as (_ & Hone & _).
  - left. reflexivity.
  - apply Hone. discriminate.
Defined.

Lemma create_setup_intent_sequence_witness :
  let r := grun (sample_gateway_world (Rejected sample_error))
             (CreateSetupIntent.handler (JStr "donor@example.org")) in
  r.2 = {| status := 400;
           res_body := JsonError (err_message sample_error) |} /\
  In (ECustomersCreate (JStr "donor@example.org")
        (Resolved {| customer_id := JStr "cus_1" |})) r.1.
Proof.
  cbv zeta.
  destruct (create_setup_intent_sequence (JStr "donor@example.org") _ _
              (gexec_grun (sample_gateway_world (Rejected sample_error)) _))
    as [(e & Ht & Hr)|[(c & e & Ht & Hr)|(c & si & Ht & Hr)]];
    try (vm_compute in Ht; discriminate Ht).
  vm_compute in Ht. inversion Ht; subst.
  split; [exact Hr|]. vm_compute. left. reflexivity.
Defined.

Lemma checkout_session_thanked_by_frequency_witness :
  let b := sample_session_body (JStr "weekly") in
  let p := @CreateCheckoutSession.session_params sample_runtime sample_env
             sample_encodeURIComponent b
             (default ∅ (CreateCheckoutSession.donorInfo b)) in
  let ev := sample_completed_session p in
  let w := sample_world (Resolved ev) (Resolved tt) in
  let r := run w (@webhook sample_runtime sample_env sample_request) in
  exists m o,
    In (ESend m o) r.1 /\ is_donor_message m = true /\
    msg_subject m = "Thank you for your one-time donation!".
Proof.
  cbv zeta.
  set (p := @CreateCheckoutSession.session_params sample_runtime sample_env
              sample_encodeURIComponent (sample_session_body (JStr "weekly"))
              (default ∅ (CreateCheckoutSession.donorInfo
                            (sample_session_body (JStr "weekly"))))).
  assert (exists m o,
            In (ESend m o)
               (run (sample_world (Resolved (sample_completed_session p))
                       (Resolved tt))
                    (@webhook sample_runtime sample_env sample_request)).1 /\
            is_donor_message m = true)
    as (m & o & Hin & Hd).
  { vm_compute. eexists _, _.
    split; [right; right; left; reflexivity|reflexivity]. }
  exists m, o. split; [exact Hin|]. split; [exact Hd|].
  apply (@checkout_session_thanked_by_frequency sample_runtime sample_env
           sample_encodeURIComponent sample_TypeError
           (sample_session_body (JStr "weekly")) _ _ p
           {| session_id := JStr "cs_1";
              session_url := JStr "https://checkout.stripe.com/c/cs_1" |}
           sample_request _ _ (sample_completed_session p) m o
           (gexec_grun (sample_gateway_world (Rejected sample_error)) _)
           (or_introl eq_refl)
           (exec_run (sample_world (Resolved (sample_completed_session p))
                        (Resolved tt)) _)
           eq_refl eq_refl eq_refl Hin Hd).
Defined.

Lemma checkout_session_name_never_falls_back_witness :
  let b := sample_session_body_anonymous in
  let r := grun (sample_gateway_world (Rejected sample_error))
             (@CreateCheckoutSession.handler sample_runtime sample_env
                sample_encodeURIComponent sample_TypeError b) in
  exists p o,
    In (ECheckoutSessionsCreate p o) r.1 /\
    @field_or sample_runtime (cs_metadata p) "donor_name" "Friend"
    = "undefined undefined".
Proof.
  cbv zeta.
  set (p := @CreateCheckoutSession.session_params sample_runtime sample_env
              sample_encodeURIComponent sample_session_body_anonymous
              (<["donorEmail" := JStr "donor@example.org"]> ∅)).
  exists p, (gw_sessions_create (sample_gateway_world (Rejected sample_error)) p).
  split; [left; reflexivity|].
  destruct (@checkout_session_name_never_falls_back sample_runtime sample_env
              sample_encodeURIComponent sample_TypeError
              sample_session_body_anonymous _ _ p
              (gw_sessions_create (sample_gateway_world (Rejected sample_error))
                 p) "Friend"
              (gexec_grun (sample_gateway_world (Rejected sample_error)) _)
              (or_introl eq_refl))
    as (di & Hdi & _ & Hu).
  injection Hdi as <-. apply Hu; reflexivity.
Defined.

Lemma donor_message_sent_when_addressable_witness :
  let ev := sample_checkout "monthly" in
  let w := sample_world (Resolved ev) (Rejected sample_error) in
  let r := run w (@webhook sample_runtime sample_env sample_request) in
  exists m o,
    In (ESend m o) r.1 /\ msg_to m = ToValue (JStr "donor@example.org") /\
    is_donor_message m = true.
Proof.
  cbv zeta.
  apply (@donor_message_sent_when_addressable sample_runtime sample_env
           sample_request _ _ (sample_checkout "monthly")
           (JStr "donor@example.org")
           (exec_run (sample_world (Resolved (sample_checkout "monthly"))
                        (Rejected sample_error)) _)).
  - vm_compute. reflexivity.
  - reflexivity.
  - reflexivity.
  - left. split; reflexivity.
Defined.

Lemma dollars_exact_witness :
  @dollars sample_runtime (JNum (of_Z 2550)) = "25.50".
Proof. apply (@dollars_exact sample_runtime 2550). lia. Defined.

Lemma cors_no_extension_allowed_witness :
  co_origin (corsOptionsDelegate
               (Some "https://donate.bridgestowork.org.example.com")) = false /\
  co_origin (corsOptionsDelegate (Some "https://donate.bridgestowork.org"))
  = true.
Proof.
  split; [|reflexivity].
  apply (cors_no_extension_allowed "https://donate.bridgestowork.org"
           ".example.com").
  - right. left. reflexivity.
  - discriminate.
Defined.

Lemma logs_only_on_failure_witness :
  let ev := sample_checkout "monthly" in
  let w := sample_world (Resolved ev) (Rejected sample_error) in
  let r := run w (@webhook sample_runtime sample_env sample_request) in
  exists m e label,
    In (ESend m (Rejected e)) r.1 /\
    ["❌ Donor email failed:"; error_detail sample_error]
    = [label; error_detail e].
Proof.
  cbv zeta.
  destruct (@logs_only_on_failure sample_runtime sample_env sample_request
              _ _ (sample_checkout "monthly") LogError
              ["❌ Donor email failed:"; error_detail sample_error]
              (exec_run (sample_world (Resolved (sample_checkout "monthly"))
                           (Rejected sample_error)) _))
    as [[Hl _]|[(_ & Hc)|[Hl _]]].
  - vm_compute. reflexivity.
  - vm_compute. right; right; right; left. reflexivity.
  - discriminate Hl.
  - exact Hc.
  - discriminate Hl.
Defined.

